(** * parser-api: the fetch orchestration core

    A shallow embedding of [lib/proxy-utils.mjs], [lib/browser-pool.mjs]
    and [lib/browse-optimized.mjs], and the properties of the proxy
    resolver, the request filter, the browser pool and the hybrid
    fall-back that the specification states about them.

    Conventions of the embedding.
    - A JavaScript string is a [string] of bytes; [toLowerCase] folds the
      letters A-Z, [trim] removes the white space of ASCII, [includes] and
      [startsWith] compare bytes and [String.length] counts them. On
      strings of ASCII characters ([ascii_only]) these are JavaScript's
      functions; on others JavaScript folds more letters (and may change
      the length), removes more white space and counts UTF-16 units, so
      the properties that depend on the difference are stated for ASCII
      strings.
    - A JavaScript number that the code computes with is an integer or
      [NaN] ([number]); an absent object field is [None].
    - A thrown value is an [Error] carrying a string [message], as the
      errors of the automation engine and of the runtime are.
    - The automation engine, the clock and [process.env] are inputs: each
      call of the engine is answered by a record given to the function
      that makes the call, and the calls made are appended to a log.
    - Calls run one after the other, an asynchronous function running to
      its end before the next one starts, except where calls of
      [getBrowser] are let overlap ([overlap]). *)

From Stdlib Require Import ZArith String Ascii List Bool Lia QArith DecimalString.
From stdpp Require Import base list.
Import ListNotations.
Local Open Scope string_scope.
Local Open Scope Z_scope.

(** ** JavaScript values *)

Module Js.

(** [number]: the integers and [NaN]. *)
Inductive number := Num (z : Z) | NaN.

Record Error := { message : string }.

(** A call either returns or throws. *)
Inductive outcome (A : Type) :=
| Return (a : A)
| Throw (e : Error).
Arguments Return {A} a.
Arguments Throw {A} e.

(** Truthiness of the kinds of value the code tests. *)
Definition truthy_string (s : string) : bool :=
  match s with EmptyString => false | _ => true end.

Definition truthy_number (n : number) : bool :=
  match n with Num z => negb (z =? 0) | NaN => false end.

Definition truthy_opt {A} (t : A -> bool) (o : option A) : bool :=
  match o with Some a => t a | None => false end.

(** [a || b] on a field that may be absent. *)
Definition or_else {A} (t : A -> bool) (a b : option A) : option A :=
  if truthy_opt t a then a else b.

(** [a || 'literal']. *)
Definition or_default (a : option string) (d : string) : string :=
  match a with
  | Some s => if truthy_string s then s else d
  | None => d
  end.

Definition lower_ascii (c : ascii) : ascii :=
  let n := nat_of_ascii c in
  if (Nat.leb 65 n && Nat.leb n 90)%bool then ascii_of_nat (n + 32) else c.

Fixpoint toLowerCase (s : string) : string :=
  match s with
  | EmptyString => EmptyString
  | String c s' => String (lower_ascii c) (toLowerCase s')
  end.

Definition startsWith (s p : string) : bool := String.prefix p s.

(** [s.includes(p)] *)
Fixpoint includes (s p : string) : bool :=
  String.prefix p s ||
  match s with
  | EmptyString => false
  | String _ s' => includes s' p
  end.

(** [parseInt(s, 10)]: leading white space, an optional sign, then the
    longest run of decimal digits; [NaN] when there is no digit. *)
Definition is_space (c : ascii) : bool :=
  let n := nat_of_ascii c in
  (Nat.eqb n 32 || (Nat.leb 9 n && Nat.leb n 13))%bool.

Definition digit_of (c : ascii) : option Z :=
  let n := nat_of_ascii c in
  if (Nat.leb 48 n && Nat.leb n 57)%bool then Some (Z.of_nat (n - 48)) else None.

Fixpoint skip_space (s : string) : string :=
  match s with
  | String c s' => if is_space c then skip_space s' else s
  | EmptyString => s
  end.

Fixpoint digits (acc : option Z) (s : string) : option Z :=
  match s with
  | String c s' =>
      match digit_of c with
      | Some d => digits (Some (10 * default 0 acc + d)) s'
      | None => acc
      end
  | EmptyString => acc
  end.

Definition parseInt (s : string) : number :=
  let s := skip_space s in
  let '(sign, s) :=
    match s with
    | String "-" s' => (-1, s')
    | String "+" s' => (1, s')
    | _ => (1, s)
    end in
  match digits None s with
  | Some v => Num (sign * v)
  | None => NaN
  end.

(** [`${n}`] for a number. *)
Definition show_number (n : number) : string :=
  match n with
  | Num z => NilZero.string_of_int (Z.to_int z)
  | NaN => "NaN"
  end.

End Js.
Import Js.

(** ** Results of a fetch *)

(** One intercepted network request, as the engine presents it. *)
Record Request := {
  request_method : string;
  request_resourceType : string;
  request_url : string;
  request_headers : list (string * string)
}.

Record NetworkEvent := {
  ne_method : string;
  ne_type : string;
  ne_url : string;
  ne_headers : list (string * string);
  ne_blocked : bool;
  ne_reason : string
}.

(** The [data] object of a result with [status: 'ok']. *)
Record OkData := {
  ok_exec : Q;
  network : list NetworkEvent;
  metrics : string;
  title : string;
  html : string;
  screenshot : string;
  ok_url : string;
  ok_timestamp : string;
  ok_proxy_used : string
}.

(** The [data] object of a result with [status: 'error']; [proxy_used] is
    [None] when the object has no such field. *)
Record ErrorData := {
  exec : Q;
  reason : string;
  message : string;
  url : string;
  timestamp : string;
  proxy_used : option string
}.

Inductive FetchResult :=
| Ok (data : OkData)
| Err (data : ErrorData).

Definition status (r : FetchResult) : string :=
  match r with Ok _ => "ok" | Err _ => "error" end.

(** [result.data.proxy_used], [None] for [undefined]. *)
Definition data_proxy_used (r : FetchResult) : option string :=
  match r with Ok d => Some (ok_proxy_used d) | Err d => proxy_used d end.

(** [result.data.exec] *)
Definition data_exec (r : FetchResult) : Q :=
  match r with Ok d => ok_exec d | Err d => exec d end.

(** [(Date.now() - start) / 1000] *)
Definition seconds (now start : Z) : Q := Qmake (now - start) 1000.

(** ** lib/proxy-utils.mjs *)

(** The [proxy] object of a request. *)
Record RequestProxy := {
  rp_enabled : option bool;
  rp_type : option string;
  rp_host : option string;
  rp_port : option number;
  rp_username : option string;
  rp_password : option string
}.

(** [{}], the default of [getProxyConfig]'s parameter. *)
Definition no_fields : RequestProxy :=
  {| rp_enabled := None; rp_type := None; rp_host := None; rp_port := None;
     rp_username := None; rp_password := None |}.

(** The four variables of [process.env] that the resolver reads. *)
Record ProcessEnv := {
  PROXY_HOST : option string;
  PROXY_PORT : option string;
  PROXY_USERNAME : option string;
  PROXY_PASSWORD : option string
}.

Record ProxyConfig := {
  enabled : bool;
  type : string;
  host : string;
  port : number;
  username : option string;
  password : option string
}.

Definition missing_everywhere : string :=
  "Proxy is enabled but host, port, username, or password are missing from both request and environment variables".

Definition host_port_required : string := "Proxy host and port are required".

(** [requestProxy.enabled && requestProxy.host && requestProxy.port] with
    the host and port it found. *)
Definition request_complete (requestProxy : RequestProxy) : option (string * number) :=
  match rp_enabled requestProxy, rp_host requestProxy, rp_port requestProxy with
  | Some true, Some h, Some p =>
      if (truthy_string h && truthy_number p)%bool then Some (h, p) else None
  | _, _, _ => None
  end.

(** [process.env.PROXY_HOST && process.env.PROXY_PORT] with the two strings. *)
Definition env_complete (env : ProcessEnv) : option (string * string) :=
  match PROXY_HOST env, PROXY_PORT env with
  | Some h, Some p =>
      if (truthy_string h && truthy_string p)%bool then Some (h, p) else None
  | _, _ => None
  end.

Definition getProxyConfig (env : ProcessEnv) (requestProxy : RequestProxy)
  : outcome (option ProxyConfig) :=
  match rp_enabled requestProxy with
  | Some false => Return None
  | _ =>
    let proxyConfig : outcome (option ProxyConfig) :=
      match request_complete requestProxy with
      | Some (h, p) =>
          Return (Some {| enabled := true;
                          type := or_default (rp_type requestProxy) "hybrid";
                          host := h;
                          port := p;
                          username := rp_username requestProxy;
                          password := rp_password requestProxy |})
      | None =>
        match env_complete env with
        | Some (h, p) =>
            Return (Some {| enabled := true;
                            type := or_default (rp_type requestProxy) "hybrid";
                            host := h;
                            port := parseInt p;
                            username := or_else truthy_string (rp_username requestProxy)
                                                (PROXY_USERNAME env);
                            password := or_else truthy_string (rp_password requestProxy)
                                                (PROXY_PASSWORD env) |})
        | None =>
          match rp_enabled requestProxy with
          | Some true => Throw {| Js.message := missing_everywhere |}
          | _ => Return None
          end
        end
      end in
    match proxyConfig with
    | Return (Some c) =>
        if (negb (truthy_string (host c)) || negb (truthy_number (port c)))%bool
        then Throw {| Js.message := host_port_required |}
        else Return (Some c)
    | other => other
    end
  end.

(** [`${proxyConfig.host}:${proxyConfig.port}`] *)
Definition host_port (c : ProxyConfig) : string :=
  host c ++ ":" ++ show_number (port c).

Record LaunchOptions := { headless : bool; args : list string }.

Definition createProxyLaunchOptions (proxyConfig : option ProxyConfig) : LaunchOptions :=
  let baseArgs :=
    [ "--disable-gpu"; "--disable-dev-shm-usage"; "--disable-setuid-sandbox";
      "--no-sandbox"; "--disable-extensions"; "--disable-plugins";
      "--disable-images"; "--disable-background-networking";
      "--disable-background-timer-throttling"; "--disable-renderer-backgrounding";
      "--disable-backgrounding-occluded-windows" ] in
  match proxyConfig with
  | Some c =>
      {| headless := true;
         args := baseArgs ++ [ "--proxy-server=" ++ host_port c ] |}
  | None => {| headless := true; args := baseArgs |}
  end.

(** What [page.goto] resolves to when it is an object. *)
Record Response := { response_status : Z; response_url : string }.

(** What the page answers to [page.title()] and [page.content()]. *)
Record PageText := { page_title : outcome string; page_content : outcome string }.

Definition blockingIndicators : list string :=
  [ "blocked"; "access denied"; "forbidden"; "rate limit"; "captcha";
    "cloudflare"; "ddos protection"; "security check"; "bot detection" ].

Definition isPageBlocked (response : option Response) (page : PageText) : bool :=
  match response with
  | None => true
  | Some response =>
    if existsb (Z.eqb (response_status response)) [403; 429; 503] then true
    else
      match page_title page with
      | Throw _ => true
      | Return title =>
        match page_content page with
        | Throw _ => true
        | Return content =>
          let titleLower := toLowerCase title in
          let contentLower := toLowerCase content in
          if existsb (fun indicator =>
                        includes titleLower indicator || includes contentLower indicator)
                     blockingIndicators
          then true
          else if ((Z.of_nat (String.length content) <? 500)
                   && negb (includes contentLower "<!doctype")
                   && negb (includes contentLower "<html"))%bool
          then true
          else false
        end
      end
  end.

Definition createProxyErrorResponse (error : Error) (url : string) (executionTime : Q)
                                    (now_iso : string) : FetchResult :=
  let errorMessage :=
    if truthy_string (Js.message error) then Js.message error else "Proxy error" in
  let reason :=
    if includes errorMessage "PROXY_" then "proxy_authentication_failed"
    else if includes errorMessage "timeout" then "proxy_timeout"
    else if includes errorMessage "connection" then "proxy_connection_failed"
    else "proxy_error" in
  Err {| exec := executionTime;
         reason := reason;
         message := errorMessage;
         url := url;
         timestamp := now_iso;
         proxy_used := None |}.

(** ** The engine and the state of the process *)

(** A running browser: the order in which it was launched and the options
    it was launched with. *)
Record Browser := { bid : nat; options : LaunchOptions }.

(** The calls of the automation engine that the log records. *)
Inductive Call :=
| Launch (o : LaunchOptions)
| BrowserClose (b : Browser)
| NewPage (b : Browser)
| Goto (b : Browser) (url : string)
| PageClose (b : Browser).

(** [currentIndex] is a JavaScript number: a position or [NaN]. *)
Inductive index := Idx (n : nat) | IdxNaN.

Record BrowserPool := {
  browsers : list Browser;
  maxBrowsers : nat;
  currentIndex : index
}.

Record World := {
  pool : BrowserPool;      (* the singleton [browserPool] *)
  launched : nat;          (* browsers launched so far *)
  attempts : nat;          (* calls of [performRequest] so far *)
  log : list Call
}.

(** What the engine answers during one [getBrowser]. *)
Record Engine := {
  isConnected : Browser -> bool;
  launch : LaunchOptions -> outcome unit
}.

(** Computations that read and write the state and may throw; a throw
    keeps the writes made before it. *)
Definition M (A : Type) : Type := World -> outcome A * World.

#[global] Instance M_ret : MRet M := fun A a w => (Return a, w).
#[global] Instance M_bind : MBind M := fun A B k m w =>
  match m w with
  | (Return a, w') => k a w'
  | (Throw e, w') => (Throw e, w')
  end.

Definition throw {A} (e : Error) : M A := fun w => (Throw e, w).
Definition try_catch {A} (m : M A) (handler : Error -> M A) : M A := fun w =>
  match m w with
  | (Throw e, w') => handler e w'
  | returned => returned
  end.
Definition lift {A} (o : outcome A) : M A := fun w => (o, w).
Definition call (c : Call) : M unit :=
  fun w => (Return tt, {| pool := pool w; launched := launched w;
                          attempts := attempts w; log := log w ++ [c] |}).
Definition get_pool : M BrowserPool := fun w => (Return (pool w), w).
Definition set_pool (p : BrowserPool) : M unit :=
  fun w => (Return tt, {| pool := p; launched := launched w;
                          attempts := attempts w; log := log w |}).

(** The object that [puppeteer.launch] resolves to. *)
Definition started (o : LaunchOptions) : M Browser :=
  fun w => (Return {| bid := launched w; options := o |},
            {| pool := pool w; launched := S (launched w);
               attempts := attempts w; log := log w |}).

(** ** lib/browser-pool.mjs *)

(** [new BrowserPool(maxBrowsers)] *)
Definition new_BrowserPool (maxBrowsers : nat) : BrowserPool :=
  {| browsers := []; maxBrowsers := maxBrowsers; currentIndex := Idx 0 |}.

(** [export const browserPool = new BrowserPool()] *)
Definition browserPool : BrowserPool := new_BrowserPool 3.

(** [this.browsers[i]] *)
Definition at_index (l : list Browser) (i : index) : option Browser :=
  match i with Idx n => l !! n | IdxNaN => None end.

(** [(i + 1) % len] *)
Definition next_index (i : index) (len : nat) : index :=
  match i, len with
  | Idx n, S _ => Idx ((n + 1) mod len)
  | _, _ => IdxNaN
  end.

(** [this.browsers[i] = b]; the one assignment of the source is made at an
    index below the length (see [getBrowser_replaces_in_range]). *)
Definition set_index (l : list Browser) (i : index) (b : Browser) : list Browser :=
  match i with Idx n => <[n := b]> l | IdxNaN => l end.

Definition not_a_browser : Error :=
  {| Js.message := "Cannot read properties of undefined (reading 'isConnected')" |}.

Definition createBrowser (eng : Engine) (proxyConfig : option ProxyConfig) : M Browser :=
  let launchOptions := createProxyLaunchOptions proxyConfig in
  call (Launch launchOptions);;
  lift (launch eng launchOptions);;
  started launchOptions.

Definition getBrowser (eng : Engine) (proxyConfig : option ProxyConfig) : M Browser :=
  match proxyConfig with
  | Some _ => createBrowser eng proxyConfig
  | None =>
    this ← get_pool;
    if (length (browsers this) <? maxBrowsers this)%nat then
      browser ← createBrowser eng None;
      this ← get_pool;
      set_pool {| browsers := browsers this ++ [browser];
                  maxBrowsers := maxBrowsers this;
                  currentIndex := currentIndex this |};;
      mret browser
    else
      let browser := at_index (browsers this) (currentIndex this) in
      set_pool {| browsers := browsers this;
                  maxBrowsers := maxBrowsers this;
                  currentIndex := next_index (currentIndex this) (length (browsers this)) |};;
      match browser with
      | None => throw not_a_browser
      | Some browser =>
        if negb (isConnected eng browser) then
          call (BrowserClose browser);;
          newBrowser ← createBrowser eng None;
          this ← get_pool;
          set_pool {| browsers := set_index (browsers this) (currentIndex this) newBrowser;
                      maxBrowsers := maxBrowsers this;
                      currentIndex := currentIndex this |};;
          mret newBrowser
        else mret browser
      end
  end.


(** The process as it starts: the pool just constructed, nothing launched. *)
Definition boot (p : BrowserPool) : World :=
  {| pool := p; launched := 0; attempts := 0; log := [] |}.

(** A series of [getBrowser] calls made one after the other, each awaited
    to its end before the next is made, each with the engine's answers at
    the time; the values returned, in order, and the state left. *)
Fixpoint getBrowsers (calls : list (Engine * option ProxyConfig)) (w : World)
  : list (outcome Browser) * World :=
  match calls with
  | [] => ([], w)
  | (eng, proxyConfig) :: rest =>
      let '(r, w1) := getBrowser eng proxyConfig w in
      let '(rs, w2) := getBrowsers rest w1 in
      (r :: rs, w2)
  end.

(** ** lib/browser-pool.mjs: calls that overlap

    [getBrowser] is asynchronous: it runs from the call to its first
    [await], and goes on when what it awaits has ended; other calls may
    start and go on in between. It awaits the launch of a browser
    ([createBrowser] has called [puppeteer.launch] by then) and, before
    the launch that replaces a disconnected browser, the closing of that
    browser. *)

(** What [getBrowser] does with the browser once the launch has ended. *)
Inductive Then :=
| ThenReturn    (* [return await this.createBrowser(proxyConfig)] *)
| ThenPush      (* [this.browsers.push(browser); return browser] *)
| ThenStore.    (* [this.browsers[this.currentIndex] = newBrowser; return newBrowser] *)

(** A call of [getBrowser]: waiting at an [await], or settled. *)
Inductive Task :=
| AwaitClose (b : Browser)
| AwaitLaunch (next : Then) (o : LaunchOptions)
| Settled (r : outcome Browser).

(** [createBrowser] up to its [await]: the options are made and
    [puppeteer.launch] is called. *)
Definition begin_launch (proxyConfig : option ProxyConfig) (next : Then) (w : World)
  : Task * World :=
  let launchOptions := createProxyLaunchOptions proxyConfig in
  (AwaitLaunch next launchOptions,
   {| pool := pool w; launched := launched w; attempts := attempts w;
      log := log w ++ [ Launch launchOptions ] |}).

(** [getBrowser] from the call to its first [await], or to its end when it
    awaits nothing. *)
Definition getBrowser_start (eng : Engine) (proxyConfig : option ProxyConfig) (w : World)
  : Task * World :=
  match proxyConfig with
  | Some _ => begin_launch proxyConfig ThenReturn w
  | None =>
    let this := pool w in
    if (length (browsers this) <? maxBrowsers this)%nat then
      begin_launch None ThenPush w
    else
      let browser := at_index (browsers this) (currentIndex this) in
      let moved :=
        {| browsers := browsers this;
           maxBrowsers := maxBrowsers this;
           currentIndex := next_index (currentIndex this) (length (browsers this)) |} in
      match browser with
      | None =>
          (Settled (Throw not_a_browser),
           {| pool := moved; launched := launched w; attempts := attempts w;
              log := log w |})
      | Some browser =>
        if negb (isConnected eng browser) then
          (AwaitClose browser,
           {| pool := moved; launched := launched w; attempts := attempts w;
              log := log w ++ [ BrowserClose browser ] |})
        else
          (Settled (Return browser),
           {| pool := moved; launched := launched w; attempts := attempts w;
              log := log w |})
      end
  end.

(** The launch has ended: the rest of [createBrowser], then of
    [getBrowser], on the pool as it is by then. *)
Definition after_launch (eng : Engine) (next : Then) (o : LaunchOptions) (w : World)
  : outcome Browser * World :=
  match launch eng o with
  | Throw e => (Throw e, w)
  | Return _ =>
    let browser := {| bid := launched w; options := o |} in
    let this := pool w in
    let kept : list Browser :=
      match next with
      | ThenReturn => browsers this
      | ThenPush => (browsers this ++ [ browser ])%list
      | ThenStore => set_index (browsers this) (currentIndex this) browser
      end in
    (Return browser,
     {| pool := {| browsers := kept;
                   maxBrowsers := maxBrowsers this;
                   currentIndex := currentIndex this |};
        launched := S (launched w); attempts := attempts w; log := log w |})
  end.

(** A waiting call goes on to its next [await] or to its end. *)
Definition getBrowser_resume (eng : Engine) (t : Task) (w : World) : Task * World :=
  match t with
  | AwaitClose _ => begin_launch None ThenStore w
  | AwaitLaunch next o =>
      let '(r, w') := after_launch eng next o w in (Settled r, w')
  | Settled _ => (t, w)
  end.

(** A call awaited to its end with no other call in between. *)
Definition awaited (eng : Engine) (started : Task * World) : outcome Browser * World :=
  match started with
  | (Settled r, w) => (r, w)
  | (AwaitLaunch next o, w) => after_launch eng next o w
  | (AwaitClose b, w) =>
      after_launch eng ThenStore (createProxyLaunchOptions None)
                   (snd (begin_launch None ThenStore w))
  end.

(** What happens next in the process: a new call of [getBrowser], or the
    call made as number [k] going on. *)
Inductive Move :=
| Begin (eng : Engine) (proxyConfig : option ProxyConfig)
| Resume (eng : Engine) (k : nat).

(** The calls made so far and the state, after the moves. *)
Fixpoint overlap (moves : list Move) (tasks : list Task) (w : World)
  : list Task * World :=
  match moves with
  | [] => (tasks, w)
  | Begin eng proxyConfig :: rest =>
      let '(t, w1) := getBrowser_start eng proxyConfig w in
      overlap rest (tasks ++ [ t ]) w1
  | Resume eng k :: rest =>
      match tasks !! k with
      | Some t =>
          let '(t', w1) := getBrowser_resume eng t w in
          overlap rest (<[k := t']> tasks) w1
      | None => overlap rest tasks w
      end
  end.

(** ** lib/browse-optimized.mjs *)

Module Filter.
Record Decision := { block : bool; reason : string }.
End Filter.

Definition shouldBlockRequest (request : Request) (allowTypes blockUrls : list string)
  : Filter.Decision :=
  let url := request_url request in
  let resourceType := request_resourceType request in
  if existsb (fun blockedUrl => includes url blockedUrl) blockUrls then
    {| Filter.block := true; Filter.reason := "blocked_url" |}
  else if ((resourceType =? "image")%string && startsWith url "data:image/")%bool then
    {| Filter.block := true; Filter.reason := "data_uri_image" |}
  else if (resourceType =? "font")%string then
    {| Filter.block := true; Filter.reason := "font_blocked" |}
  else if (resourceType =? "document")%string then
    {| Filter.block := false; Filter.reason := "document_allowed" |}
  else if ((0 <? length allowTypes)%nat
           && negb (existsb (String.eqb resourceType) allowTypes))%bool then
    {| Filter.block := true; Filter.reason := "not_in_allow_list" |}
  else
    {| Filter.block := false; Filter.reason := "allowed" |}.

Definition getErrorReason (error : Error) : string :=
  let message := toLowerCase (Js.message error) in
  if (includes message "timeout" || includes message "navigation timeout")%bool then "timeout"
  else if includes message "net::err_name_not_resolved" then "dns_error"
  else if includes message "net::err_connection_refused" then "connection_refused"
  else if includes message "net::err_ssl_version_or_cipher_mismatch" then "ssl_error"
  else if includes message "invalid url" then "invalid_url"
  else "unknown_error".

Definition retryReasons : list string := [ "timeout"; "connection_refused"; "dns_error" ].
Definition retryMessages : list string :=
  [ "blocked"; "access denied"; "forbidden"; "rate limit"; "captcha" ].

Definition shouldRetryWithProxy (result : FetchResult) : bool :=
  match result with
  | Ok _ => false
  | Err data =>
    let reason := reason data in
    let message := toLowerCase (message data) in
    if existsb (String.eqb reason) retryReasons then true
    else existsb (fun retryMessage => includes message retryMessage) retryMessages
  end.

Record ScreenshotParams := { screenshot_enabled : bool; full_page : bool }.

Record NetworkParams := {
  network_enabled : bool;
  block_urls : list string;
  allow_types : list string;
  wait_until : string
}.

Record Viewport := { width : Z; height : Z }.

Record Params := {
  params_url : string;
  params_screenshot : ScreenshotParams;
  params_network : NetworkParams;
  params_viewport : Viewport;
  params_timeout : Z;
  params_user_agent : option string;
  params_proxy : option RequestProxy
}.

(** What the engine and the clock answer during one [performRequest]. *)
Record Attempt := {
  engine : Engine;
  newPage : outcome unit;
  authenticate : outcome unit;
  setViewport : outcome unit;
  setUserAgent : outcome unit;
  setRequestInterception : outcome unit;
  requests : list Request;            (* the requests the page made *)
  goto : outcome (option Response);
  page : PageText;                    (* read by [isPageBlocked] *)
  take_screenshot : outcome string;
  collected : outcome (string * string * string);  (* metrics, title, content *)
  now : Z;                            (* [Date.now()] when the result is built *)
  now_iso : string                    (* [new Date().toISOString()] *)
}.

(** [error.message || 'Unknown error'] *)
Definition errorMessage (error : Error) : string :=
  if truthy_string (Js.message error) then Js.message error else "Unknown error".

(** [proxyConfig ? `${proxyConfig.host}:${proxyConfig.port}` : 'none'] *)
Definition proxyUsed (proxyConfig : option ProxyConfig) : string :=
  match proxyConfig with Some c => host_port c | None => "none" end.

Definition networkRequests (att : Attempt) (network : NetworkParams) : list NetworkEvent :=
  if network_enabled network then
    map (fun request =>
           let shouldBlock :=
             shouldBlockRequest request (allow_types network) (block_urls network) in
           {| ne_method := request_method request;
              ne_type := request_resourceType request;
              ne_url := request_url request;
              ne_headers := request_headers request;
              ne_blocked := Filter.block shouldBlock;
              ne_reason := Filter.reason shouldBlock |})
        (requests att)
  else [].

(** The [catch] block of [performRequest]. *)
Definition caught (att : Attempt) (url : string) (proxyConfig : option ProxyConfig)
                  (startTime : Z) (error : Error) : FetchResult :=
  Err {| exec := seconds (now att) startTime;
         reason := getErrorReason error;
         message := errorMessage error;
         url := url;
         timestamp := now_iso att;
         proxy_used := Some (proxyUsed proxyConfig) |}.

Definition when (b : bool) (m : M unit) : M unit := if b then m else mret tt.

(** The [try] block of [performRequest] once the page is open. *)
Definition on_page (att : Attempt) (url : string) (params : Params)
                   (proxyConfig : option ProxyConfig) (startTime : Z)
                   (browser : Browser) : M FetchResult :=
  when (match proxyConfig with
        | Some c => truthy_opt truthy_string (username c)
                    && truthy_opt truthy_string (password c)
        | None => false
        end)
       (lift (authenticate att));;
  lift (setViewport att);;
  lift (setUserAgent att);;
  when (network_enabled (params_network params)) (lift (setRequestInterception att));;
  call (Goto browser url);;
  response ← lift (goto att);
  if match proxyConfig with
     | Some c => (type c =? "hybrid")%string && isPageBlocked response (page att)
     | None => false
     end
  then throw {| Js.message := "Page appears to be blocked" |}
  else
    screenshotData ←
      (if screenshot_enabled (params_screenshot params)
       then lift (take_screenshot att) else mret "");
    '(metrics, title, html) ← lift (collected att);
    mret (Ok {| ok_exec := seconds (now att) startTime;
                network := networkRequests att (params_network params);
                metrics := metrics;
                title := title;
                html := html;
                screenshot := screenshotData;
                ok_url := url;
                ok_timestamp := now_iso att;
                ok_proxy_used := proxyUsed proxyConfig |}).

(** The [finally] block: [page] and [browser] are what the [try] block had
    assigned when it ended. *)
Definition cleanup (page browser : option Browser) (proxyConfig : option ProxyConfig)
  : M unit :=
  match page with Some b => call (PageClose b) | None => mret tt end;;
  match browser, proxyConfig with
  | Some b, Some _ => call (BrowserClose b)
  | _, _ => mret tt
  end.

Definition begin_attempt : M nat := fun w =>
  (Return (attempts w),
   {| pool := pool w; launched := launched w;
      attempts := S (attempts w); log := log w |}).

(** [performRequest] against given answers of the engine. *)
Definition performRequest_with (att : Attempt) (url : string) (params : Params)
                               (proxyConfig : option ProxyConfig) (startTime : Z)
  : M FetchResult :=
  fun w =>
    match getBrowser (engine att) proxyConfig w with
    | (Throw error, w) =>
        (cleanup None None proxyConfig;;
         mret (caught att url proxyConfig startTime error)) w
    | (Return browser, w) =>
      match (call (NewPage browser);; lift (newPage att)) w with
      | (Throw error, w) =>
          (cleanup None (Some browser) proxyConfig;;
           mret (caught att url proxyConfig startTime error)) w
      | (Return _, w) =>
        let '(tried, w) := on_page att url params proxyConfig startTime browser w in
        let result :=
          match tried with
          | Return result => result
          | Throw error => caught att url proxyConfig startTime error
          end in
        (cleanup (Some browser) (Some browser) proxyConfig;; mret result) w
      end
    end.

(** [performRequest]: the k-th call of the process is answered by
    [answers k]. *)
Definition performRequest (answers : nat -> Attempt) (url : string) (params : Params)
                          (proxyConfig : option ProxyConfig) (startTime : Z)
  : M FetchResult :=
  k ← begin_attempt;
  performRequest_with (answers k) url params proxyConfig startTime.

(** What the process and the clock answer during one [browse]: the
    environment variables, [Date.now()] on entry, the engine's answers to
    the attempts by number, and the clock where a failure is reported
    without an attempt. *)
Record Run := {
  env : ProcessEnv;
  start : Z;
  answers : nat -> Attempt;
  failed_at : Z;
  failed_iso : string
}.

Section Browse.

(** [new URL(url)]: returns, or throws on a string that is no URL. *)
Variable URL : string -> outcome unit.

Definition browse (run : Run) (params : Params) : M FetchResult :=
  let url := params_url params in
  let start := start run in
  try_catch
    (lift (URL url);;
     match getProxyConfig (env run) (default no_fields (params_proxy params)) with
     | Throw error =>
         mret (createProxyErrorResponse error url (seconds (failed_at run) start)
                                        (failed_iso run))
     | Return proxyConfig =>
       match proxyConfig with
       | Some c =>
         if (type c =? "static")%string then
           performRequest (answers run) url params proxyConfig start
         else if (type c =? "hybrid")%string then
           try_catch
             (result ← performRequest (answers run) url params None start;
              if ((status result =? "error")%string && shouldRetryWithProxy result)%bool
              then performRequest (answers run) url params proxyConfig start
              else mret result)
             (fun error => performRequest (answers run) url params proxyConfig start)
         else performRequest (answers run) url params None start
       | None => performRequest (answers run) url params None start
       end
     end)
    (fun error =>
       mret (Err {| exec := seconds (failed_at run) start;
                    reason := getErrorReason error;
                    message := errorMessage error;
                    url := url;
                    timestamp := failed_iso run;
                    proxy_used := None |})).

End Browse.

(** ** lib/validation.mjs: the helpers for query parameters *)

(** [value === 'true'], for a parameter that is a string or absent. *)
Definition parseBoolean (value : option string) : bool :=
  match value with
  | Some s => (s =? "true")%string
  | None => false
  end.

(** [s.split(',')]: the pieces between the commas, one more than there are
    commas. *)
Fixpoint split_commas (s : string) : list string :=
  match s with
  | EmptyString => [ EmptyString ]
  | String c s' =>
      if Ascii.eqb c "," then EmptyString :: split_commas s'
      else match split_commas s' with
           | piece :: pieces => String c piece :: pieces
           | [] => [ String c EmptyString ]
           end
  end.

(** [s.trimEnd()] *)
Fixpoint trim_end (s : string) : string :=
  match s with
  | EmptyString => EmptyString
  | String c s' =>
      match trim_end s' with
      | EmptyString => if is_space c then EmptyString else String c EmptyString
      | kept => String c kept
      end
  end.

(** [s.trim()], white space being what [is_space] tells. *)
Definition trim (s : string) : string := trim_end (skip_space s).

(** [value ? value.split(',').map(item => item.trim()).filter(Boolean) : []] *)
Definition parseArray (value : option string) : list string :=
  match value with
  | Some s =>
      if truthy_string s
      then List.filter truthy_string (map trim (split_commas s))
      else []
  | None => []
  end.

(** ** Vocabulary of the statements and inputs of the examples *)

(** A stand-in for [new URL]: it accepts the strings that start with an
    http or https scheme, and throws the runtime's error on the others.
    It instantiates the parameter of [browse] where a theorem is tried on
    an input. *)
Definition URL_by_scheme (s : string) : outcome unit :=
  if (startsWith s "http://" || startsWith s "https://")%bool
  then Return tt
  else Throw {| Js.message := "Invalid URL" |}.

Definition request_for (resourceType url : string) : Request :=
  {| request_method := "GET"; request_resourceType := resourceType;
     request_url := url; request_headers := [] |}.

(** The browser that the [i]-th launch of the process yields when it is a
    launch without proxy. *)
Definition plain (i : nat) : Browser :=
  {| bid := i; options := createProxyLaunchOptions None |}.

(** The pool holds at most [maxBrowsers] browsers. *)
Definition bounded (w : World) : Prop :=
  (length (browsers (pool w)) <= maxBrowsers (pool w))%nat.

(** Every pooled browser was launched before now. *)
Definition known (w : World) : Prop :=
  Forall (fun b => (bid b < launched w)%nat) (browsers (pool w)).

(** An engine on which every launch succeeds and no browser is disconnected. *)
Definition healthy : Engine :=
  {| isConnected := fun _ => true; launch := fun _ => Return tt |}.

(** The same, except that the browser launched first has disconnected. *)
Definition first_lost : Engine :=
  {| isConnected := fun b => negb (Nat.eqb (bid b) 0); launch := fun _ => Return tt |}.

(** The moves of calls made one after the other, each awaited to its end
    before the next is made; [k] is the number of calls made before. *)
Fixpoint one_by_one (calls : list (Engine * option ProxyConfig)) (k : nat) : list Move :=
  match calls with
  | [] => []
  | (eng, proxyConfig) :: rest =>
      Begin eng proxyConfig :: Resume eng k :: Resume eng k :: one_by_one rest (S k)
  end.

(** [m] calls without proxy made before any launch has ended, then the
    launches ending in the order of the calls. *)
Definition together (eng : Engine) (m : nat) : list Move :=
  (repeat (Begin eng None) m ++ map (Resume eng) (seq 0 m))%list.

(** Five calls without proxy made before any launch has ended, then the
    five launches ending in the order of the calls. *)
Definition five_together : list Move :=
  [ Begin healthy None; Begin healthy None; Begin healthy None; Begin healthy None;
    Begin healthy None;
    Resume healthy 0; Resume healthy 1; Resume healthy 2; Resume healthy 3;
    Resume healthy 4 ].

(** A string of ASCII characters: on such strings a byte is a UTF-16 unit,
    and [toLowerCase], [trim] and [String.length] are JavaScript's. *)
Fixpoint ascii_only (s : string) : bool :=
  match s with
  | EmptyString => true
  | String c s' => (Nat.ltb (nat_of_ascii c) 128 && ascii_only s')%bool
  end.

(** A resolved configuration: proxy [h:8080], hybrid, no credentials. *)
Definition proxy_h : ProxyConfig :=
  {| enabled := true; type := "hybrid"; host := "h"; port := Num 8080;
     username := None; password := None |}.

(** Four calls without proxy on a healthy engine. *)
Definition four_calls : list (Engine * option ProxyConfig) :=
  [ (healthy, None); (healthy, None); (healthy, None); (healthy, None) ].

(** The environment yields a host and a port: both variables are
    non-empty and the port reads as a number other than zero. *)
Definition env_usable (env : ProcessEnv) : bool :=
  match env_complete env with
  | Some (_, p) => truthy_number (parseInt p)
  | None => false
  end.

(** The results after which the hybrid mode tries again, in the words of
    the specification: an error whose reason is one of the three, or whose
    message contains one of the five phrases whatever the case of its
    letters. *)
Definition retryable (r : FetchResult) : Prop :=
  exists d, r = Err d
    /\ (In (reason d) [ "timeout"; "connection_refused"; "dns_error" ]
        \/ exists phrase,
             In phrase [ "blocked"; "access denied"; "forbidden"; "rate limit"; "captcha" ]
             /\ includes (toLowerCase (message d)) phrase = true).

(** [att] with other answers to [page.title()] and [page.content()] in the
    block detector. *)
Definition with_page (att : Attempt) (texts : PageText) : Attempt :=
  {| engine := engine att; newPage := newPage att; authenticate := authenticate att;
     setViewport := setViewport att; setUserAgent := setUserAgent att;
     setRequestInterception := setRequestInterception att; requests := requests att;
     goto := goto att; page := texts; take_screenshot := take_screenshot att;
     collected := collected att; now := now att; now_iso := now_iso att |}.

Definition no_env : ProcessEnv :=
  {| PROXY_HOST := None; PROXY_PORT := None;
     PROXY_USERNAME := None; PROXY_PASSWORD := None |}.

Definition env_with (h p : string) : ProcessEnv :=
  {| PROXY_HOST := Some h; PROXY_PORT := Some p;
     PROXY_USERNAME := None; PROXY_PASSWORD := None |}.

(** [{enabled: true, host: 'h', port: 8080}] *)
Definition request_h : RequestProxy :=
  {| rp_enabled := Some true; rp_type := None; rp_host := Some "h";
     rp_port := Some (Num 8080); rp_username := None; rp_password := None |}.

(** [{enabled: true, type: 'static'}] *)
Definition static_bare : RequestProxy :=
  {| rp_enabled := Some true; rp_type := Some "static"; rp_host := None;
     rp_port := None; rp_username := None; rp_password := None |}.

(** An attempt on a healthy engine in which every call returns and the
    navigation is answered with the given status and page, the result being
    built at time [t]. *)
Definition attempt_reaching (code : Z) (title html : string) (t : Z) : Attempt :=
  {| engine := healthy; newPage := Return tt; authenticate := Return tt;
     setViewport := Return tt; setUserAgent := Return tt;
     setRequestInterception := Return tt; requests := [];
     goto := Return (Some {| response_status := code; response_url := "https://x/" |});
     page := {| page_title := Return title; page_content := Return html |};
     take_screenshot := Return "";
     collected := Return ("{}", title, html);
     now := t; now_iso := "2026-01-01T00:00:01.000Z" |}.

(** The same, with the navigation running into its timeout. *)
Definition attempt_timing_out (t : Z) : Attempt :=
  {| engine := healthy; newPage := Return tt; authenticate := Return tt;
     setViewport := Return tt; setUserAgent := Return tt;
     setRequestInterception := Return tt; requests := [];
     goto := Throw {| Js.message := "Navigation timeout of 5000 ms exceeded" |};
     page := {| page_title := Return ""; page_content := Return "" |};
     take_screenshot := Return "";
     collected := Return ("{}", "", "");
     now := t; now_iso := "2026-01-01T00:00:06.000Z" |}.

Definition params_for (url : string) (proxy : option RequestProxy) : Params :=
  {| params_url := url;
     params_screenshot := {| screenshot_enabled := false; full_page := false |};
     params_network := {| network_enabled := false; block_urls := [];
                          allow_types := []; wait_until := "networkidle0" |};
     params_viewport := {| width := 1200; height := 800 |};
     params_timeout := 5000;
     params_user_agent := None;
     params_proxy := proxy |}.

(** A run that starts at time 1000 and reports failures met before any
    attempt at time 1002. *)
Definition run_of (e : ProcessEnv) (answers : nat -> Attempt) : Run :=
  {| env := e; start := 1000; answers := answers;
     failed_at := 1002; failed_iso := "2026-01-01T00:00:00.002Z" |}.

(** The page answers 403 without proxy and 200 through the proxy. *)
Definition forbidden_then_fine (k : nat) : Attempt :=
  match k with
  | O => attempt_reaching 403 "403 Forbidden" "<html><body>Forbidden</body></html>" 1500
  | _ => attempt_reaching 200 "Welcome" "<html><body>Welcome</body></html>" 2500
  end.

(** Every navigation runs into the timeout. *)
Definition always_timing_out (k : nat) : Attempt :=
  attempt_timing_out (6000 + 5000 * Z.of_nat k).

(** A string holds a comma. *)
Fixpoint has_comma (s : string) : bool :=
  match s with
  | EmptyString => false
  | String c s' => (Ascii.eqb c "," || has_comma s')%bool
  end.

Definition starts_with_space (s : string) : bool :=
  match s with
  | String c _ => is_space c
  | EmptyString => false
  end.

Fixpoint ends_with_space (s : string) : bool :=
  match s with
  | EmptyString => false
  | String c EmptyString => is_space c
  | String _ s' => ends_with_space s'
  end.

(** An item as [parseArray] yields them: not empty, no comma, no white
    space at either end. *)
Definition clean_item (s : string) : bool :=
  (truthy_string s && negb (has_comma s)
   && negb (starts_with_space s) && negb (ends_with_space s))%bool.

(** The engine launches without proxy and reports the first [n] browsers
    launched as connected. *)
Definition serves (n : nat) (eng : Engine) : Prop :=
  launch eng (createProxyLaunchOptions None) = Return tt
  /\ forall i, (i < n)%nat -> isConnected eng (plain i) = true.

(** The process after [k] calls without proxy on a pool of [n], when every
    launch succeeded and no browser was found disconnected. *)
Definition after_calls (n k : nat) : World :=
  {| pool := {| browsers := map plain (seq 0 (Nat.min k n));
                maxBrowsers := n;
                currentIndex := Idx ((k - n) mod n) |};
     launched := Nat.min k n;
     attempts := 0;
     log := repeat (Launch (createProxyLaunchOptions None)) (Nat.min k n) |}.

(** Every pooled browser was launched without proxy, and no two slots hold
    the same browser. *)
Definition pooled_apart (w : World) : Prop :=
  Forall (fun b => options b = createProxyLaunchOptions None) (browsers (pool w))
  /\ NoDup (map bid (browsers (pool w))).

(** [params] with other lists for the request filter. *)
Definition with_lists (params : Params) (blockUrls allowTypes : list string) : Params :=
  {| params_url := params_url params;
     params_screenshot := params_screenshot params;
     params_network :=
       {| network_enabled := network_enabled (params_network params);
          block_urls := blockUrls;
          allow_types := allowTypes;
          wait_until := wait_until (params_network params) |};
     params_viewport := params_viewport params;
     params_timeout := params_timeout params;
     params_user_agent := params_user_agent params;
     params_proxy := params_proxy params |}.

(** [att] with other requests made by the page and another answer to
    [page.setRequestInterception]. *)
Definition with_requests (att : Attempt) (made : list Request) (answer : outcome unit)
  : Attempt :=
  {| engine := engine att; newPage := newPage att; authenticate := authenticate att;
     setViewport := setViewport att; setUserAgent := setUserAgent att;
     setRequestInterception := answer; requests := made;
     goto := goto att; page := page att; take_screenshot := take_screenshot att;
     collected := collected att; now := now att; now_iso := now_iso att |}.

(** [att] with another answer to [page.authenticate]. *)
Definition with_authenticate (att : Attempt) (answer : outcome unit) : Attempt :=
  {| engine := engine att; newPage := newPage att; authenticate := answer;
     setViewport := setViewport att; setUserAgent := setUserAgent att;
     setRequestInterception := setRequestInterception att; requests := requests att;
     goto := goto att; page := page att; take_screenshot := take_screenshot att;
     collected := collected att; now := now att; now_iso := now_iso att |}.

(** The proxy configuration has a user name and a password, neither
    empty: [proxyConfig.username && proxyConfig.password]. *)
Definition has_credentials (c : ProxyConfig) : bool :=
  (truthy_opt truthy_string (username c) && truthy_opt truthy_string (password c))%bool.

(** * Properties *)

(** ** The request filter *)

(** C8: a request whose url contains an element of [blockUrls] is blocked
    with reason [blocked_url] whatever its resource type and the allow
    list; the rule comes before the one that lets documents through. *)
Theorem block_list_first (request : Request) (allowTypes blockUrls : list string) :
  existsb (fun blockedUrl => includes (request_url request) blockedUrl) blockUrls = true ->
  shouldBlockRequest request allowTypes blockUrls
  = {| Filter.block := true; Filter.reason := "blocked_url" |}.
Proof.
  intros Hlisted. unfold shouldBlockRequest. now rewrite Hlisted.
Qed.

Lemma block_list_first_document :
  existsb (fun blockedUrl => includes (request_url (request_for "document" "https://x/")) blockedUrl)
          [ "https://x/" ] = true
  /\ shouldBlockRequest (request_for "document" "https://x/") [] [ "https://x/" ]
     = {| Filter.block := true; Filter.reason := "blocked_url" |}.
Proof.
  split; [ reflexivity | apply block_list_first; reflexivity ].
Defined.

(** C7: when no element of [blockUrls] occurs in the url, a font request is
    blocked with reason [font_blocked], whatever the allow list holds. *)
Theorem font_blocked_despite_allow_list
    (method url : string) (headers : list (string * string))
    (allowTypes blockUrls : list string) :
  existsb (fun blockedUrl => includes url blockedUrl) blockUrls = false ->
  shouldBlockRequest {| request_method := method; request_resourceType := "font";
                        request_url := url; request_headers := headers |}
                     allowTypes blockUrls
  = {| Filter.block := true; Filter.reason := "font_blocked" |}.
Proof.
  intros Hclear. unfold shouldBlockRequest. cbn [request_url request_resourceType].
  rewrite Hclear. reflexivity.
Qed.

Lemma font_blocked_woff :
  existsb (fun blockedUrl => includes "https://x/a.woff" blockedUrl) [] = false
  /\ shouldBlockRequest (request_for "font" "https://x/a.woff") [ "font" ] []
     = {| Filter.block := true; Filter.reason := "font_blocked" |}.
Proof.
  split; [ reflexivity | ].
  apply (font_blocked_despite_allow_list "GET" "https://x/a.woff" [] [ "font" ] []).
  reflexivity.
Defined.

(** The remaining rules, on inputs. *)
Example filter_document_allowed :
  shouldBlockRequest (request_for "document" "https://x/") [ "script" ] []
  = {| Filter.block := false; Filter.reason := "document_allowed" |}.
Proof. reflexivity. Qed.

Example filter_not_in_allow_list :
  shouldBlockRequest (request_for "image" "https://x/a.png") [ "document"; "script" ] []
  = {| Filter.block := true; Filter.reason := "not_in_allow_list" |}.
Proof. reflexivity. Qed.

Example filter_data_uri :
  shouldBlockRequest (request_for "image" "data:image/png;base64,AAAA") [ "image" ] []
  = {| Filter.block := true; Filter.reason := "data_uri_image" |}.
Proof. reflexivity. Qed.

(** ** The browser pool *)

Ltac run_M := unfold mbind, M_bind, mret, M_ret, call, lift, throw, started,
                     get_pool, set_pool; cbn.

(** [createBrowser] logs the launch; it yields the next browser, or throws
    what the launch threw. It never touches the pool. *)
Lemma createBrowser_run (eng : Engine) (proxyConfig : option ProxyConfig) (w : World) :
  let o := createProxyLaunchOptions proxyConfig in
  createBrowser eng proxyConfig w =
  match launch eng o with
  | Return _ =>
      (Return {| bid := launched w; options := o |},
       {| pool := pool w; launched := S (launched w);
          attempts := attempts w; log := log w ++ [Launch o] |})
  | Throw e =>
      (Throw e,
       {| pool := pool w; launched := launched w;
          attempts := attempts w; log := log w ++ [Launch o] |})
  end.
Proof.
  unfold createBrowser. run_M. destruct (launch eng _); reflexivity.
Qed.

Arguments createBrowser : simpl never.

Lemma next_index_in_range (n len : nat) :
  (0 < len)%nat -> exists m, next_index (Idx n) len = Idx m /\ (m < len)%nat.
Proof.
  intros Hlen. destruct len as [|len']; [ lia | ].
  exists ((n + 1) mod S len')%nat. split; [ reflexivity | ].
  apply Nat.mod_upper_bound. lia.
Qed.

(** The assignment [this.browsers[this.currentIndex] = newBrowser] is made
    at an index below the length: the browser read at the old index
    existed, and the index was then reduced modulo the length. *)
Lemma getBrowser_replaces_in_range (l : list Browser) (i : index) (b : Browser) :
  at_index l i = Some b ->
  exists m, next_index i (length l) = Idx m /\ (m < length l)%nat.
Proof.
  destruct i as [n|]; cbn; [ | discriminate ].
  intros Hread. apply lookup_lt_Some in Hread.
  apply next_index_in_range. lia.
Qed.

(** [getBrowser] without proxy, by cases. *)
Lemma getBrowser_pooled (eng : Engine) (w : World) :
  let o := createProxyLaunchOptions None in
  let fresh := {| bid := launched w; options := o |} in
  let next := next_index (currentIndex (pool w)) (length (browsers (pool w))) in
  let moved (l : list Browser) :=
    {| browsers := l; maxBrowsers := maxBrowsers (pool w); currentIndex := next |} in
  getBrowser eng None w =
  if (length (browsers (pool w)) <? maxBrowsers (pool w))%nat then
    match launch eng o with
    | Return _ =>
        (Return fresh,
         {| pool := {| browsers := browsers (pool w) ++ [fresh];
                       maxBrowsers := maxBrowsers (pool w);
                       currentIndex := currentIndex (pool w) |};
            launched := S (launched w);
            attempts := attempts w; log := log w ++ [Launch o] |})
    | Throw e =>
        (Throw e, {| pool := pool w; launched := launched w;
                     attempts := attempts w; log := log w ++ [Launch o] |})
    end
  else
    match at_index (browsers (pool w)) (currentIndex (pool w)) with
    | None =>
        (Throw not_a_browser,
         {| pool := moved (browsers (pool w)); launched := launched w;
            attempts := attempts w; log := log w |})
    | Some browser =>
      if isConnected eng browser then
        (Return browser,
         {| pool := moved (browsers (pool w)); launched := launched w;
            attempts := attempts w; log := log w |})
      else
        match launch eng o with
        | Return _ =>
            (Return fresh,
             {| pool := moved (set_index (browsers (pool w)) next fresh);
                launched := S (launched w); attempts := attempts w;
                log := (log w ++ [BrowserClose browser]) ++ [Launch o] |})
        | Throw e =>
            (Throw e,
             {| pool := moved (browsers (pool w)); launched := launched w;
                attempts := attempts w;
                log := (log w ++ [BrowserClose browser]) ++ [Launch o] |})
        end
    end.
Proof.
  cbv zeta. unfold getBrowser, mbind, M_bind, mret, M_ret, get_pool, set_pool, call, throw.
  destruct (length (browsers (pool w)) <? maxBrowsers (pool w))%nat.
  - rewrite createBrowser_run. cbv zeta.
    destruct (launch eng _); reflexivity.
  - destruct (at_index _ _) as [browser|]; [ | reflexivity ].
    destruct (isConnected eng browser); cbn [negb]; [ reflexivity | ].
    rewrite createBrowser_run. cbv zeta. cbn [pool launched attempts log].
    destruct (launch eng _); reflexivity.
Qed.

(** With a proxy configuration the pool is not consulted. *)
Lemma getBrowser_ephemeral (eng : Engine) (c : ProxyConfig) (w : World) :
  getBrowser eng (Some c) w = createBrowser eng (Some c) w.
Proof. reflexivity. Qed.

Arguments getBrowser : simpl never.

(** One [getBrowser] keeps the bound, the freshness of identities and
    [maxBrowsers]. *)
Lemma getBrowser_keeps (eng : Engine) (proxyConfig : option ProxyConfig) (w : World) :
  bounded w -> known w ->
  let w' := snd (getBrowser eng proxyConfig w) in
  bounded w' /\ known w' /\ maxBrowsers (pool w') = maxBrowsers (pool w)
  /\ (launched w <= launched w')%nat.
Proof.
  unfold bounded, known. intros Hb Hk.
  assert (Hweak : Forall (fun b => (bid b < S (launched w))%nat) (browsers (pool w))).
  { eapply Forall_impl; [ exact Hk | ]. cbn. intros; lia. }
  destruct proxyConfig as [c|].
  - rewrite getBrowser_ephemeral, createBrowser_run. cbv zeta.
    destruct (launch eng _); cbn; auto.
  - rewrite getBrowser_pooled. cbv zeta.
    destruct (Nat.ltb_spec (length (browsers (pool w))) (maxBrowsers (pool w))) as [Hlt|Hge].
    + destruct (launch eng _); cbn; auto.
      rewrite length_app. cbn. repeat split; try lia.
      apply Forall_app. split; [ auto | ].
      constructor; [ cbn; lia | constructor ].
    + destruct (at_index (browsers (pool w)) (currentIndex (pool w))) as [b|] eqn:Hread;
        cbn; auto.
      destruct (isConnected eng b); cbn; auto.
      destruct (launch eng _); cbn; auto.
      destruct (getBrowser_replaces_in_range _ _ _ Hread) as (m & -> & Hm). cbn.
      rewrite length_insert. repeat split; try lia.
      apply Forall_insert; [ auto | cbn; lia ].
Qed.
Lemma getBrowsers_keep (calls : list (Engine * option ProxyConfig)) (w : World) :
  bounded w -> known w ->
  let w' := snd (getBrowsers calls w) in
  bounded w' /\ known w' /\ maxBrowsers (pool w') = maxBrowsers (pool w).
Proof.
  revert w. induction calls as [|[eng proxyConfig] rest IH]; intros w Hb Hk; cbn.
  - auto.
  - pose proof (getBrowser_keeps eng proxyConfig w Hb Hk) as (Hb1 & Hk1 & Hmax & _).
    destruct (getBrowser eng proxyConfig w) as [r w1]. cbn in *.
    specialize (IH w1 Hb1 Hk1).
    destruct (getBrowsers rest w1) as [rs w2]. cbn in *.
    destruct IH as (? & ? & ?). repeat split; auto. congruence.
Qed.

Lemma boot_bounded (n : nat) : bounded (boot (new_BrowserPool n)).
Proof. unfold bounded. cbn. lia. Qed.

Lemma boot_known (n : nat) : known (boot (new_BrowserPool n)).
Proof. unfold known. cbn. constructor. Qed.

(** Calls awaited one after the other keep the bound: after any series of
    such [getBrowser] calls on a pool constructed with [maxBrowsers = n],
    whatever the engine answers at each call, the pool holds at most [n]
    browsers; and a [getBrowser] with a proxy configuration made then
    leaves the pool as it was, the browser it returns not being in the
    pool. *)
Theorem pool_never_exceeds_max
    (n : nat) (calls : list (Engine * option ProxyConfig))
    (eng : Engine) (c : ProxyConfig) :
  let w := snd (getBrowsers calls (boot (new_BrowserPool n))) in
  (length (browsers (pool w)) <= n)%nat
  /\ pool (snd (getBrowser eng (Some c) w)) = pool w
  /\ forall b : Browser,
       fst (getBrowser eng (Some c) w) = Return b -> b ∉ browsers (pool w).
Proof.
  cbv zeta.
  pose proof (getBrowsers_keep calls _ (boot_bounded n) (boot_known n)) as (Hb & Hk & Hmax).
  cbv zeta in Hb, Hk, Hmax.
  destruct (getBrowsers calls (boot (new_BrowserPool n))) as [rs w]. cbn [snd] in *.
  unfold bounded in Hb. cbn in Hmax. rewrite Hmax in Hb.
  split; [ exact Hb | ].
  rewrite getBrowser_ephemeral, createBrowser_run. cbv zeta.
  destruct (launch eng _); cbn [fst snd pool]; (split; [ reflexivity | ]);
    intros b Hb'; inversion Hb'; subst b.
  intros Hin. unfold known in Hk.
  rewrite Forall_forall in Hk. specialize (Hk _ Hin). cbn in Hk. lia.
Qed.

Lemma pool_never_exceeds_max_on_four :
  let w := snd (getBrowsers four_calls (boot (new_BrowserPool 3))) in
  fst (getBrowser healthy (Some proxy_h) w)
  = Return {| bid := 3; options := createProxyLaunchOptions (Some proxy_h) |}
  /\ (length (browsers (pool w)) <= 3)%nat
  /\ pool (snd (getBrowser healthy (Some proxy_h) w)) = pool w
  /\ {| bid := 3; options := createProxyLaunchOptions (Some proxy_h) |} ∉ browsers (pool w).
Proof.
  cbv zeta. split; [ reflexivity | ].
  destruct (pool_never_exceeds_max 3 four_calls healthy proxy_h) as (Hle & Hsame & Hout).
  split; [ exact Hle | split; [ exact Hsame | ] ].
  apply Hout. reflexivity.
Defined.

(** ** The browser pool: calls that overlap *)

(** A call that goes on from its start with no other call in between does
    what [getBrowser] does. *)
Lemma getBrowser_awaited (eng : Engine) (proxyConfig : option ProxyConfig) (w : World) :
  awaited eng (getBrowser_start eng proxyConfig w) = getBrowser eng proxyConfig w.
Proof.
  destruct proxyConfig as [c|].
  - rewrite getBrowser_ephemeral, createBrowser_run. cbv zeta.
    unfold getBrowser_start, begin_launch, awaited, after_launch.
    cbn [pool launched attempts log browsers maxBrowsers currentIndex].
    destruct (launch eng _); [ | reflexivity ].
    destruct (pool w); reflexivity.
  - rewrite getBrowser_pooled. cbv zeta.
    unfold getBrowser_start. cbv zeta.
    destruct (_ <? _)%nat.
    + unfold begin_launch, awaited, after_launch.
      cbn [pool launched attempts log browsers maxBrowsers currentIndex].
      destruct (launch eng _); reflexivity.
    + destruct (at_index _ _) as [b|]; [ | reflexivity ].
      destruct (isConnected eng b); cbn [negb]; [ reflexivity | ].
      unfold awaited, begin_launch, after_launch.
      cbn [snd pool launched attempts log browsers maxBrowsers currentIndex].
      destruct (launch eng _); reflexivity.
Qed.

Lemma lookup_at_end (tasks : list Task) (t : Task) :
  ((tasks ++ [ t ])%list) !! length tasks = Some t.
Proof. induction tasks as [|a tasks IH]; [ reflexivity | exact IH ]. Qed.

Lemma insert_at_end (tasks : list Task) (t t' : Task) :
  <[length tasks := t']> ((tasks ++ [ t ])%list) = (tasks ++ [ t' ])%list.
Proof.
  induction tasks as [|a tasks IH]; [ reflexivity | ].
  change (a :: <[length tasks := t']> ((tasks ++ [ t ])%list) = a :: (tasks ++ [ t' ])%list).
  now rewrite IH.
Qed.

(** A call that is started and then goes on twice, before anything else
    happens, is settled as [getBrowser] settles it. *)
Lemma overlap_one_call (eng : Engine) (proxyConfig : option ProxyConfig)
                       (rest : list Move) (tasks : list Task) (w : World) :
  overlap (Begin eng proxyConfig :: Resume eng (length tasks)
           :: Resume eng (length tasks) :: rest) tasks w
  = overlap rest ((tasks ++ [ Settled (fst (getBrowser eng proxyConfig w)) ])%list)
            (snd (getBrowser eng proxyConfig w)).
Proof.
  rewrite <- getBrowser_awaited. cbn [overlap].
  destruct (getBrowser_start eng proxyConfig w) as [[b|next o|r] w1].
  - rewrite lookup_at_end. cbn [getBrowser_resume].
    destruct (begin_launch None ThenStore w1) as [t' w2] eqn:Hlaunch.
    rewrite insert_at_end, lookup_at_end.
    unfold begin_launch in Hlaunch. inversion Hlaunch; subst t' w2.
    cbn [getBrowser_resume awaited snd begin_launch].
    destruct (after_launch eng ThenStore _ _) as [r w3].
    now rewrite insert_at_end.
  - rewrite lookup_at_end. cbn [getBrowser_resume awaited].
    destruct (after_launch eng next o w1) as [r w2].
    rewrite insert_at_end, lookup_at_end. cbn [getBrowser_resume fst snd].
    now rewrite insert_at_end.
  - rewrite lookup_at_end. cbn [getBrowser_resume awaited fst snd].
    rewrite insert_at_end, lookup_at_end. cbn [getBrowser_resume].
    now rewrite insert_at_end.
Qed.

(** [getBrowsers] is the case of calls that do not overlap. *)
Lemma getBrowsers_one_by_one (calls : list (Engine * option ProxyConfig))
                             (tasks : list Task) (w : World) :
  overlap (one_by_one calls (length tasks)) tasks w
  = ((tasks ++ map Settled (fst (getBrowsers calls w)))%list, snd (getBrowsers calls w)).
Proof.
  revert tasks w. induction calls as [|[eng proxyConfig] rest IH]; intros tasks w.
  - cbn. now rewrite app_nil_r.
  - cbn [one_by_one getBrowsers]. rewrite overlap_one_call.
    destruct (getBrowser eng proxyConfig w) as [r w1]. cbn [fst snd].
    replace (S (length tasks)) with (length ((tasks ++ [ Settled r ])%list))
      by (rewrite length_app; cbn; lia).
    rewrite IH. destruct (getBrowsers rest w1) as [rs w2]. cbn [fst snd map].
    now rewrite <- app_assoc.
Qed.

(** C5: five calls without proxy reach the pool of three before any launch
    has ended (five requests arriving together). Each finds the pool
    below [maxBrowsers], launches, and pushes its browser when the launch
    ends: the pool holds five browsers, two more than [maxBrowsers]. The
    test of the size and the push are separated by the [await] of the
    launch. *)
Theorem pool_exceeds_max_when_calls_overlap :
  let out := overlap five_together [] (boot browserPool) in
  fst out = [ Settled (Return (plain 0)); Settled (Return (plain 1));
              Settled (Return (plain 2)); Settled (Return (plain 3));
              Settled (Return (plain 4)) ]
  /\ browsers (pool (snd out)) = [ plain 0; plain 1; plain 2; plain 3; plain 4 ]
  /\ maxBrowsers (pool (snd out)) = 3%nat
  /\ (maxBrowsers (pool (snd out)) < length (browsers (pool (snd out))))%nat.
Proof.
  cbv zeta. repeat split; vm_compute; try reflexivity. lia.
Qed.

Lemma lookup_middle (l1 l2 : list Task) (t : Task) (k : nat) :
  k = length l1 -> ((l1 ++ t :: l2)%list) !! k = Some t.
Proof. intros ->. induction l1 as [|a l1 IH]; [ reflexivity | exact IH ]. Qed.

Lemma insert_middle (l1 l2 : list Task) (t t' : Task) (k : nat) :
  k = length l1 -> <[k := t']> ((l1 ++ t :: l2)%list) = (l1 ++ t' :: l2)%list.
Proof.
  intros ->. induction l1 as [|a l1 IH]; [ reflexivity | ].
  change (a :: <[length l1 := t']> ((l1 ++ t :: l2)%list) = a :: (l1 ++ t' :: l2)%list).
  now rewrite IH.
Qed.

(** Calls that reach a pool still empty, one after the other with no launch
    ending in between, all launch. *)
Lemma together_started (eng : Engine) (n k : nat) (rest : list Move)
                       (tasks : list Task) (l : list Call) :
  (0 < n)%nat ->
  overlap (repeat (Begin eng None) k ++ rest)%list tasks
          {| pool := new_BrowserPool n; launched := 0; attempts := 0; log := l |}
  = overlap rest
            (tasks ++ repeat (AwaitLaunch ThenPush (createProxyLaunchOptions None)) k)%list
            {| pool := new_BrowserPool n; launched := 0; attempts := 0;
               log := (l ++ repeat (Launch (createProxyLaunchOptions None)) k)%list |}.
Proof.
  intros Hn. revert tasks l. induction k as [|k IH]; intros tasks l.
  - cbn [repeat app]. now rewrite !app_nil_r.
  - cbn [repeat app overlap]. unfold getBrowser_start, new_BrowserPool.
    cbn [pool browsers maxBrowsers length].
    destruct (Nat.ltb_spec 0 n) as [_|Hno]; [ | lia ].
    unfold begin_launch. cbn [pool launched attempts log].
    fold (new_BrowserPool n). rewrite IH, <- !app_assoc. reflexivity.
Qed.

(** The launches then end in turn, and each call pushes its browser. *)
Lemma together_resumed (eng : Engine) (n j k : nat) (l : list Call) :
  launch eng (createProxyLaunchOptions None) = Return tt ->
  overlap (map (Resume eng) (seq j k))
          (map (fun i => Settled (Return (plain i))) (seq 0 j)
           ++ repeat (AwaitLaunch ThenPush (createProxyLaunchOptions None)) k)%list
          {| pool := {| browsers := map plain (seq 0 j); maxBrowsers := n;
                        currentIndex := Idx 0 |};
             launched := j; attempts := 0; log := l |}
  = (map (fun i => Settled (Return (plain i))) (seq 0 (j + k)),
     {| pool := {| browsers := map plain (seq 0 (j + k)); maxBrowsers := n;
                   currentIndex := Idx 0 |};
        launched := j + k; attempts := 0; log := l |}).
Proof.
  intros Hlaunch. revert j. induction k as [|k IH]; intros j.
  - cbn [seq map repeat overlap]. now rewrite app_nil_r, Nat.add_0_r.
  - cbn [seq map repeat overlap].
    assert (Hj : j = length (map (fun i => Settled (Return (plain i))) (seq 0 j)))
      by now rewrite length_map, length_seq.
    rewrite (lookup_middle _ _ _ j Hj).
    unfold getBrowser_resume, after_launch. rewrite Hlaunch.
    cbn [pool launched attempts log browsers maxBrowsers currentIndex].
    rewrite (insert_middle _ _ _ _ j Hj).
    fold (plain j).
    replace (map (fun i => Settled (Return (plain i))) (seq 0 j)
             ++ Settled (Return (plain j))
                :: repeat (AwaitLaunch ThenPush (createProxyLaunchOptions None)) k)%list
      with (map (fun i => Settled (Return (plain i))) (seq 0 (S j))
            ++ repeat (AwaitLaunch ThenPush (createProxyLaunchOptions None)) k)%list
      by (rewrite seq_S, map_app, <- app_assoc; reflexivity).
    replace (map plain (seq 0 j) ++ [ plain j ])%list with (map plain (seq 0 (S j)))
      by (rewrite seq_S, map_app; reflexivity).
    rewrite IH. now rewrite Nat.add_succ_r.
Qed.

(** However many calls without proxy reach a new pool before any launch has
    ended, every one of them launches a browser and pushes it: the pool
    ends with as many browsers as there were calls, whatever
    [maxBrowsers] (not zero) is. *)
Lemma calls_together_all_push (eng : Engine) (n m : nat) :
  (0 < n)%nat ->
  launch eng (createProxyLaunchOptions None) = Return tt ->
  let out := overlap (together eng m) [] (boot (new_BrowserPool n)) in
  fst out = map (fun i => Settled (Return (plain i))) (seq 0 m)
  /\ browsers (pool (snd out)) = map plain (seq 0 m)
  /\ length (browsers (pool (snd out))) = m
  /\ maxBrowsers (pool (snd out)) = n.
Proof.
  intros Hn Hlaunch. cbv zeta. unfold together, boot.
  rewrite together_started by exact Hn. cbn [app].
  pose proof (together_resumed eng n 0 m
                (repeat (Launch (createProxyLaunchOptions None)) m) Hlaunch) as Hrun.
  cbn [seq map app Nat.add] in Hrun. unfold new_BrowserPool. rewrite Hrun.
  cbn [fst snd pool browsers maxBrowsers].
  repeat split. now rewrite length_map, length_seq.
Qed.

Example five_together_is_together : five_together = together healthy 5.
Proof. reflexivity. Qed.

(** ** The browser pool: rotation and replacement *)

(** C6: on the pool of three, with every launch succeeding and the browser
    of slot 0 connected at the fourth call, four calls without proxy return
    the browsers of slots 0, 1, 2, 0: the first three calls each launch a
    browser and append it, the fourth launches nothing and returns the
    browser of slot 0. *)
Theorem round_robin_of_three (e1 e2 e3 e4 : Engine) :
  launch e1 (createProxyLaunchOptions None) = Return tt ->
  launch e2 (createProxyLaunchOptions None) = Return tt ->
  launch e3 (createProxyLaunchOptions None) = Return tt ->
  isConnected e4 (plain 0) = true ->
  exists w',
    getBrowsers [ (e1, None); (e2, None); (e3, None); (e4, None) ] (boot browserPool)
    = ([ Return (plain 0); Return (plain 1); Return (plain 2); Return (plain 0) ], w')
    /\ browsers (pool w') = [ plain 0; plain 1; plain 2 ]
    /\ launched w' = 3%nat
    /\ log w' = [ Launch (createProxyLaunchOptions None);
                  Launch (createProxyLaunchOptions None);
                  Launch (createProxyLaunchOptions None) ].
Proof.
  intros H1 H2 H3 H4. unfold plain in *.
  set (o := createProxyLaunchOptions None) in *.
  cbn [getBrowsers].
  rewrite getBrowser_pooled. cbv zeta. fold o. rewrite H1. cbn -[o].
  rewrite getBrowser_pooled. cbv zeta. fold o. rewrite H2. cbn -[o].
  rewrite getBrowser_pooled. cbv zeta. fold o. rewrite H3. cbn -[o].
  rewrite getBrowser_pooled. cbv zeta. fold o. cbn -[o]. rewrite H4.
  eexists. repeat split.
Qed.

Lemma round_robin_of_three_healthy :
  launch healthy (createProxyLaunchOptions None) = Return tt
  /\ isConnected healthy (plain 0) = true
  /\ exists w',
    getBrowsers four_calls (boot browserPool)
    = ([ Return (plain 0); Return (plain 1); Return (plain 2); Return (plain 0) ], w')
    /\ browsers (pool w') = [ plain 0; plain 1; plain 2 ]
    /\ launched w' = 3%nat
    /\ log w' = [ Launch (createProxyLaunchOptions None);
                  Launch (createProxyLaunchOptions None);
                  Launch (createProxyLaunchOptions None) ].
Proof.
  split; [ reflexivity | split; [ reflexivity | ] ].
  apply (round_robin_of_three healthy healthy healthy healthy); reflexivity.
Defined.

(** On a full pool whose browser at the cursor is disconnected, a call
    without proxy closes that browser, launches a new one and returns it,
    and the pool keeps its size; the cursor has moved on before the new
    browser is stored, so the new browser is stored in the slot after the
    one that was read. *)
Lemma replacement_lands_after_cursor (eng : Engine) (w : World) (i : nat) (b : Browser) :
  (maxBrowsers (pool w) <= length (browsers (pool w)))%nat ->
  currentIndex (pool w) = Idx i ->
  browsers (pool w) !! i = Some b ->
  isConnected eng b = false ->
  launch eng (createProxyLaunchOptions None) = Return tt ->
  let len := length (browsers (pool w)) in
  let j := ((i + 1) mod len)%nat in
  exists w',
    getBrowser eng None w = (Return (plain (launched w)), w')
    /\ browsers (pool w') = <[j := plain (launched w)]> (browsers (pool w))
    /\ (j < len)%nat
    /\ length (browsers (pool w')) = len
    /\ currentIndex (pool w') = Idx j
    /\ log w' = ((log w ++ [ BrowserClose b ]) ++ [ Launch (createProxyLaunchOptions None) ])%list.
Proof.
  intros Hfull Hcur Hread Hlost Hlaunch len j.
  rewrite getBrowser_pooled. cbv zeta.
  destruct (Nat.ltb_spec (length (browsers (pool w))) (maxBrowsers (pool w))); [ lia | ].
  rewrite Hcur. cbn [at_index]. rewrite Hread, Hlost, Hlaunch.
  assert (Hlen : (0 < len)%nat) by (apply lookup_lt_Some in Hread; unfold len; lia).
  assert (Hnext : next_index (Idx i) (length (browsers (pool w))) = Idx j).
  { fold len. unfold j. destruct len; [ lia | reflexivity ]. }
  rewrite Hnext. eexists. split; [ reflexivity | ]. cbn.
  rewrite length_insert. repeat split.
  apply Nat.mod_upper_bound. lia.
Qed.

(** With two slots or more, the disconnected browser therefore stays in
    its slot. *)
Lemma disconnected_browser_stays (eng : Engine) (w : World) (i : nat) (b : Browser) :
  (maxBrowsers (pool w) <= length (browsers (pool w)))%nat ->
  (2 <= length (browsers (pool w)))%nat ->
  currentIndex (pool w) = Idx i ->
  browsers (pool w) !! i = Some b ->
  isConnected eng b = false ->
  launch eng (createProxyLaunchOptions None) = Return tt ->
  browsers (pool (snd (getBrowser eng None w))) !! i = Some b.
Proof.
  intros Hfull Htwo Hcur Hread Hlost Hlaunch.
  destruct (replacement_lands_after_cursor eng w i b Hfull Hcur Hread Hlost Hlaunch)
    as (w' & -> & Hpool & Hj & _).
  cbn [snd]. rewrite Hpool.
  rewrite list_lookup_insert_ne; [ exact Hread | ].
  apply lookup_lt_Some in Hread.
  set (len := length (browsers (pool w))) in *.
  intros Heq.
  destruct (Nat.eq_dec (i + 1)%nat len) as [Hwrap|Hno].
  - rewrite Hwrap, Nat.Div0.mod_same in Heq. lia.
  - rewrite Nat.mod_small in Heq by lia. lia.
Qed.

(** C2: on the pool of three filled by three calls, with the browser of
    slot 0 disconnected at the fourth call, the fourth call closes that
    browser and returns a new one, but stores it in slot 1: the closed
    browser stays in slot 0 and the connected browser of slot 1 leaves the
    pool. *)
Theorem replacement_misses_the_slot :
  let calls := [ (healthy, None); (healthy, None); (healthy, None); (first_lost, None) ] in
  let w' := snd (getBrowsers calls (boot browserPool)) in
  fst (getBrowsers calls (boot browserPool))
  = [ Return (plain 0); Return (plain 1); Return (plain 2); Return (plain 3) ]
  /\ isConnected first_lost (plain 0) = false
  /\ isConnected first_lost (plain 1) = true
  /\ browsers (pool w') = [ plain 0; plain 3; plain 2 ]
  /\ currentIndex (pool w') = Idx 1
  /\ log w' = [ Launch (createProxyLaunchOptions None);
                Launch (createProxyLaunchOptions None);
                Launch (createProxyLaunchOptions None);
                BrowserClose (plain 0);
                Launch (createProxyLaunchOptions None) ].
Proof.
  cbv zeta. repeat split; vm_compute; reflexivity.
Qed.

(** ** The proxy resolver *)

(** [enabled: false] switches the proxy off whatever else is given. *)
Lemma getProxyConfig_disabled (env : ProcessEnv) (requestProxy : RequestProxy) :
  rp_enabled requestProxy = Some false ->
  getProxyConfig env requestProxy = Return None.
Proof. intros H. unfold getProxyConfig. now rewrite H. Qed.

(** The request's host and port, when complete, are what is used. *)
Lemma getProxyConfig_from_request (env : ProcessEnv) (requestProxy : RequestProxy)
                                  (h : string) (p : number) :
  request_complete requestProxy = Some (h, p) ->
  getProxyConfig env requestProxy
  = Return (Some {| enabled := true;
                    type := or_default (rp_type requestProxy) "hybrid";
                    host := h; port := p;
                    username := rp_username requestProxy;
                    password := rp_password requestProxy |}).
Proof.
  intros Hreq. unfold getProxyConfig. rewrite Hreq.
  unfold request_complete in Hreq.
  destruct (rp_enabled requestProxy) as [[|]|]; try discriminate.
  destruct (rp_host requestProxy) as [h'|]; try discriminate.
  destruct (rp_port requestProxy) as [p'|]; try discriminate.
  destruct (truthy_string h' && truthy_number p')%bool eqn:Htruthy; try discriminate.
  inversion Hreq; subst. apply andb_true_iff in Htruthy as [Hh Hp].
  cbv beta iota zeta. cbn [host port]. rewrite Hh, Hp. reflexivity.
Qed.

Example resolve_request_h :
  getProxyConfig no_env request_h = Return (Some proxy_h).
Proof. reflexivity. Qed.

Example resolve_static_from_env :
  getProxyConfig (env_with "p.example" "3128") static_bare
  = Return (Some {| enabled := true; type := "static"; host := "p.example";
                    port := Num 3128; username := None; password := None |}).
Proof. reflexivity. Qed.

(** When the request asks for the proxy and neither it nor the environment
    yields a host and a port, the resolver throws, and what it throws is
    reported with reason [proxy_error]. *)
Lemma getProxyConfig_unresolvable (env : ProcessEnv) (requestProxy : RequestProxy) :
  rp_enabled requestProxy = Some true ->
  request_complete requestProxy = None ->
  env_usable env = false ->
  exists error,
    getProxyConfig env requestProxy = Throw error
    /\ (Js.message error = missing_everywhere \/ Js.message error = host_port_required).
Proof.
  intros Hon Hreq Henv. unfold getProxyConfig. rewrite Hon, Hreq.
  unfold env_usable in Henv.
  destruct (env_complete env) as [[h p]|] eqn:Hcomplete.
  - cbv beta iota zeta. cbn [host port].
    apply negb_true_iff in Henv. rewrite Henv, orb_true_r.
    eexists. split; [ reflexivity | now right ].
  - eexists. split; [ reflexivity | now left ].
Qed.

(** C10, as amended: when the request leaves [enabled] out, [PROXY_HOST] is
    not empty and [PROXY_PORT] reads as a number other than zero, the
    resolver returns an enabled configuration with the host and port of the
    environment, the type being [hybrid] unless the request names one; in
    such an environment the resolver returns no configuration only for a
    request with [enabled: false]. *)
Theorem environment_turns_proxy_on
    (env : ProcessEnv) (requestProxy : RequestProxy) (h p : string) (n : Z) :
  rp_enabled requestProxy = None ->
  PROXY_HOST env = Some h -> h <> "" ->
  PROXY_PORT env = Some p -> parseInt p = Num n -> n <> 0 ->
  getProxyConfig env requestProxy
  = Return (Some {| enabled := true;
                    type := or_default (rp_type requestProxy) "hybrid";
                    host := h;
                    port := Num n;
                    username := or_else truthy_string (rp_username requestProxy)
                                        (PROXY_USERNAME env);
                    password := or_else truthy_string (rp_password requestProxy)
                                        (PROXY_PASSWORD env) |})
  /\ (rp_type requestProxy = None ->
      exists c, getProxyConfig env requestProxy = Return (Some c) /\ type c = "hybrid")
  /\ (forall other : RequestProxy,
        getProxyConfig env other = Return None <-> rp_enabled other = Some false).
Proof.
  intros Habsent Hhost Hh Hport Hparse Hn.
  assert (Hp : truthy_string p = true).
  { destruct p; [ discriminate Hparse | reflexivity ]. }
  assert (Hh' : truthy_string h = true).
  { destruct h; [ congruence | reflexivity ]. }
  assert (Hcomplete : env_complete env = Some (h, p)).
  { unfold env_complete. now rewrite Hhost, Hport, Hh', Hp. }
  assert (Hn' : truthy_number (Num n) = true).
  { cbn. apply negb_true_iff, Z.eqb_neq, Hn. }
  match goal with |- ?first /\ _ => assert (Hresolved : first) end.
  { unfold getProxyConfig, request_complete. rewrite Habsent, Hcomplete, Hparse.
    cbv beta iota zeta. cbn [host port]. rewrite Hh', Hn'. reflexivity. }
  split; [ exact Hresolved | split ].
  - intros Htype. eexists. split; [ exact Hresolved | ]. cbn. now rewrite Htype.
  - intros other. split.
    + unfold getProxyConfig.
      destruct (rp_enabled other) as [[|]|]; [ | reflexivity | ];
        destruct (request_complete other) as [[h' p']|] eqn:Hreq;
        rewrite ?Hcomplete, ?Hparse; cbv beta iota zeta; cbn [host port];
        rewrite ?Hh', ?Hn'; try discriminate.
      * destruct (negb (truthy_string h') || negb (truthy_number p'))%bool; discriminate.
      * destruct (negb (truthy_string h') || negb (truthy_number p'))%bool; discriminate.
    + apply getProxyConfig_disabled.
Qed.

Lemma environment_turns_proxy_on_h8080 :
  rp_enabled no_fields = None
  /\ parseInt "8080" = Num 8080
  /\ getProxyConfig (env_with "h" "8080") no_fields = Return (Some proxy_h).
Proof.
  split; [ reflexivity | split; [ reflexivity | ] ].
  apply (environment_turns_proxy_on (env_with "h" "8080") no_fields "h" "8080" 8080);
    try reflexivity; discriminate.
Defined.

(** C10, as stated, fails where [PROXY_PORT] is set to a string that is no
    number: the resolver throws instead of returning a configuration. *)
Lemma environment_port_not_a_number :
  rp_enabled no_fields = None
  /\ PROXY_HOST (env_with "h" "abc") = Some "h"
  /\ PROXY_PORT (env_with "h" "abc") = Some "abc"
  /\ getProxyConfig (env_with "h" "abc") no_fields
     = Throw {| Js.message := host_port_required |}
  /\ ~ (exists c, getProxyConfig (env_with "h" "abc") no_fields = Return (Some c)).
Proof.
  repeat split. intros [c Hc]. discriminate Hc.
Qed.

(** ** One attempt *)

(** [getBrowser] is not a [performRequest]. *)
Lemma getBrowser_attempts (eng : Engine) (proxyConfig : option ProxyConfig) (w : World) :
  attempts (snd (getBrowser eng proxyConfig w)) = attempts w.
Proof.
  destruct proxyConfig as [c|].
  - rewrite getBrowser_ephemeral, createBrowser_run. cbv zeta.
    destruct (launch eng _); reflexivity.
  - rewrite getBrowser_pooled. cbv zeta.
    destruct (_ <? _)%nat.
    + destruct (launch eng _); reflexivity.
    + destruct (at_index _ _) as [b|]; [ | reflexivity ].
      destruct (isConnected eng b); [ reflexivity | ].
      destruct (launch eng _); reflexivity.
Qed.

(** What the [try] block yields once the page is open, when it returns. *)
Lemma on_page_run (att : Attempt) (url : string) (params : Params)
                  (proxyConfig : option ProxyConfig) (startTime : Z)
                  (browser : Browser) (w : World) :
  let '(tried, w') := on_page att url params proxyConfig startTime browser w in
  attempts w' = attempts w
  /\ match tried with
     | Return result =>
         status result = "ok"
         /\ data_proxy_used result = Some (proxyUsed proxyConfig)
         /\ data_exec result = seconds (now att) startTime
     | Throw _ => True
     end.
Proof.
  unfold on_page, when, mbind, M_bind, mret, M_ret, call, lift, throw.
  repeat match goal with
         | |- context [ match ?x with _ => _ end ] =>
             lazymatch x with
             | context [ match _ with _ => _ end ] => fail
             | _ => destruct x
             end
         end; cbn; auto.
Qed.

(** C3, for one attempt: [performRequest] always returns a result, never
    throws, and the result, ok or error, carries [proxy_used] (the proxy's
    host and port for an attempt with a proxy, [none] without) and the time
    since the start. *)
Lemma performRequest_with_returns (att : Attempt) (url : string) (params : Params)
                                  (proxyConfig : option ProxyConfig) (startTime : Z)
                                  (w : World) :
  exists result w',
    performRequest_with att url params proxyConfig startTime w = (Return result, w')
    /\ attempts w' = attempts w
    /\ data_proxy_used result = Some (proxyUsed proxyConfig)
    /\ data_exec result = seconds (now att) startTime.
Proof.
  unfold performRequest_with.
  pose proof (getBrowser_attempts (engine att) proxyConfig w) as Hsame.
  destruct (getBrowser (engine att) proxyConfig w) as [[browser|error] w1]; cbn [snd] in Hsame.
  - unfold mbind, M_bind, mret, M_ret, call, lift. cbn [pool launched attempts log].
    destruct (newPage att) as [[]|error].
    + match goal with
      | |- context [ on_page ?a ?u ?p ?c ?s ?b ?w0 ] =>
          pose proof (on_page_run a u p c s b w0) as Hpage;
          destruct (on_page a u p c s b w0) as [tried w2]
      end.
      cbn [attempts] in Hpage. destruct Hpage as [Hatt Hres].
      unfold cleanup, mbind, M_bind, mret, M_ret, call.
      destruct tried as [result|error]; destruct proxyConfig as [c|];
        eexists; eexists; (split; [ reflexivity | ]); cbn; intuition congruence.
    + unfold cleanup, mbind, M_bind, mret, M_ret, call.
      destruct proxyConfig as [c|];
        eexists; eexists; (split; [ reflexivity | ]); cbn; auto.
  - unfold cleanup, mbind, M_bind, mret, M_ret.
    eexists; eexists; (split; [ reflexivity | ]); cbn; auto.
Qed.

Lemma performRequest_returns (answers : nat -> Attempt) (url : string) (params : Params)
                             (proxyConfig : option ProxyConfig) (startTime : Z)
                             (w : World) :
  exists result w',
    performRequest answers url params proxyConfig startTime w = (Return result, w')
    /\ attempts w' = S (attempts w)
    /\ data_proxy_used result = Some (proxyUsed proxyConfig)
    /\ data_exec result = seconds (now (answers (attempts w))) startTime.
Proof.
  unfold performRequest, begin_attempt, mbind, M_bind.
  match goal with
  | |- context [ performRequest_with ?a ?u ?p ?c ?s ?w0 ] =>
      destruct (performRequest_with_returns a u p c s w0) as (r & w' & -> & Hatt & Hres)
  end.
  exists r, w'. cbn in Hatt. auto.
Qed.

Arguments performRequest : simpl never.

(** ** The orchestrator *)

(** The code's test for a second attempt is the specification's. *)
Lemma shouldRetryWithProxy_spec (result : FetchResult) :
  shouldRetryWithProxy result = true <-> retryable result.
Proof.
  unfold retryable, shouldRetryWithProxy. destruct result as [d|d].
  - split; [ discriminate | ]. intros (d' & Hd & _). discriminate Hd.
  - cbv zeta.
    destruct (existsb (String.eqb (reason d)) retryReasons) eqn:Hreason.
    + split; [ | reflexivity ]. intros _. exists d. split; [ reflexivity | left ].
      apply existsb_exists in Hreason as (x & Hin & Heq).
      apply String.eqb_eq in Heq. now subst.
    + split.
      * intros Hphrase. exists d. split; [ reflexivity | right ].
        apply existsb_exists in Hphrase as (x & Hin & Hinc). now exists x.
      * intros (d' & Hd & [Hin | (phrase & Hin & Hinc)]); inversion Hd; subst d'.
        -- assert (existsb (String.eqb (reason d)) retryReasons = true) as Habs.
           { apply existsb_exists. exists (reason d). split; [ exact Hin | ].
             apply String.eqb_refl. }
           congruence.
        -- apply existsb_exists. now exists phrase.
Qed.

(** [browse], path by path. An attempt never throws, so the handlers of the
    two [try] statements run for [new URL] only. *)
Lemma browse_run (URL : string -> outcome unit) (run : Run) (params : Params) (w : World) :
  let url := params_url params in
  let attempt proxyConfig := performRequest (answers run) url params proxyConfig (start run) in
  browse URL run params w =
  match URL url with
  | Throw error =>
      (Return (Err {| exec := seconds (failed_at run) (start run);
                      reason := getErrorReason error;
                      message := errorMessage error;
                      url := url;
                      timestamp := failed_iso run;
                      proxy_used := None |}), w)
  | Return _ =>
    match getProxyConfig (env run) (default no_fields (params_proxy params)) with
    | Throw error =>
        (Return (createProxyErrorResponse error url (seconds (failed_at run) (start run))
                                          (failed_iso run)), w)
    | Return None => attempt None w
    | Return (Some c) =>
      if (type c =? "static")%string then attempt (Some c) w
      else if (type c =? "hybrid")%string then
        let '(direct, w1) := attempt None w in
        match direct with
        | Return result =>
            if shouldRetryWithProxy result then attempt (Some c) w1
            else (Return result, w1)
        | Throw _ => attempt (Some c) w1
        end
      else attempt None w
    end
  end.
Proof.
  cbv zeta. unfold browse, try_catch, mbind, M_bind, mret, M_ret, lift.
  destruct (URL (params_url params)) as [[]|error]; [ | reflexivity ].
  destruct (getProxyConfig _ _) as [[c|]|error]; [ | | reflexivity ].
  - destruct (type c =? "static")%string.
    + destruct (performRequest_returns (answers run) (params_url params) params
                                       (Some c) (start run) w) as (r & w' & -> & _).
      reflexivity.
    + destruct (type c =? "hybrid")%string.
      * destruct (performRequest_returns (answers run) (params_url params) params
                                         None (start run) w) as (r & w1 & -> & _).
        destruct r as [d|d]; cbn [status String.eqb Ascii.eqb Bool.eqb andb].
        -- reflexivity.
        -- destruct (shouldRetryWithProxy (Err d)); [ | reflexivity ].
           destruct (performRequest_returns (answers run) (params_url params) params
                                            (Some c) (start run) w1) as (r2 & w2 & -> & _).
           reflexivity.
      * destruct (performRequest_returns (answers run) (params_url params) params
                                         None (start run) w) as (r & w' & -> & _).
        reflexivity.
  - destruct (performRequest_returns (answers run) (params_url params) params
                                     None (start run) w) as (r & w' & -> & _).
    reflexivity.
Qed.

(** A [browse] makes at most two attempts. *)
Lemma browse_attempts_bound (URL : string -> outcome unit) (run : Run) (params : Params)
                            (w : World) :
  (attempts (snd (browse URL run params w)) <= attempts w + 2)%nat.
Proof.
  rewrite browse_run. cbv zeta.
  destruct (URL _) as [[]|error]; [ | cbn; lia ].
  destruct (getProxyConfig _ _) as [[c|]|error]; [ | | cbn; lia ].
  - destruct (type c =? "static")%string; [ | destruct (type c =? "hybrid")%string ].
    + destruct (performRequest_returns (answers run) (params_url params) params
                                       (Some c) (start run) w) as (r & w' & -> & Hatt & _).
      cbn. lia.
    + destruct (performRequest_returns (answers run) (params_url params) params
                                       None (start run) w) as (r & w1 & -> & Hatt & _).
      destruct (shouldRetryWithProxy r); [ | cbn; lia ].
      destruct (performRequest_returns (answers run) (params_url params) params
                                       (Some c) (start run) w1) as (r2 & w2 & -> & Hatt2 & _).
      cbn. lia.
    + destruct (performRequest_returns (answers run) (params_url params) params
                                       None (start run) w) as (r & w' & -> & Hatt & _).
      cbn. lia.
  - destruct (performRequest_returns (answers run) (params_url params) params
                                     None (start run) w) as (r & w' & -> & Hatt & _).
    cbn. lia.
Qed.

(** C4: in hybrid mode the attempt without proxy is made first. When its
    result is an error with one of the three reasons, or with one of the
    five phrases in its message whatever the case, one attempt with the
    proxy follows and its result, ok or error, is the result of [browse];
    any other result of the first attempt is returned as it is. No path
    of [browse], in any mode, has more than two attempts. *)
Theorem hybrid_retries_once
    (URL : string -> outcome unit) (run : Run) (params : Params) (w : World)
    (c : ProxyConfig) :
  URL (params_url params) = Return tt ->
  getProxyConfig (env run) (default no_fields (params_proxy params)) = Return (Some c) ->
  type c = "hybrid" ->
  (exists direct w1,
     performRequest (answers run) (params_url params) params None (start run) w
     = (Return direct, w1)
     /\ attempts w1 = S (attempts w)
     /\ (retryable direct ->
         exists final w2,
           performRequest (answers run) (params_url params) params (Some c) (start run) w1
           = (Return final, w2)
           /\ browse URL run params w = (Return final, w2)
           /\ attempts w2 = S (S (attempts w)))
     /\ (~ retryable direct -> browse URL run params w = (Return direct, w1)))
  /\ (forall (URL' : string -> outcome unit) (run' : Run) (params' : Params) (w0 : World),
        (attempts (snd (browse URL' run' params' w0)) <= attempts w0 + 2)%nat).
Proof.
  intros Hurl Hconfig Htype. split; [ | apply browse_attempts_bound ].
  destruct (performRequest_returns (answers run) (params_url params) params
                                   None (start run) w) as (direct & w1 & Hdirect & Hatt & _).
  exists direct, w1. split; [ exact Hdirect | split; [ exact Hatt | ] ].
  assert (Hrun : browse URL run params w
                 = if shouldRetryWithProxy direct
                   then performRequest (answers run) (params_url params) params
                                       (Some c) (start run) w1
                   else (Return direct, w1)).
  { rewrite browse_run. cbv zeta. rewrite Hurl, Hconfig, Htype, Hdirect. reflexivity. }
  split.
  - intros Hretry. apply shouldRetryWithProxy_spec in Hretry. rewrite Hretry in Hrun.
    destruct (performRequest_returns (answers run) (params_url params) params
                                     (Some c) (start run) w1)
      as (final & w2 & Hfinal & Hatt2 & _).
    exists final, w2. repeat split; congruence.
  - intros Hkeep.
    destruct (shouldRetryWithProxy direct) eqn:Hretry; [ | exact Hrun ].
    apply shouldRetryWithProxy_spec in Hretry. contradiction.
Qed.

Lemma hybrid_retries_once_after_timeout :
  let run := run_of no_env always_timing_out in
  let params := params_for "https://x/" (Some request_h) in
  URL_by_scheme "https://x/" = Return tt
  /\ getProxyConfig no_env request_h = Return (Some proxy_h)
  /\ exists direct w1,
       performRequest always_timing_out "https://x/" params None 1000 (boot browserPool)
       = (Return direct, w1)
       /\ attempts w1 = 1%nat
       /\ (retryable direct ->
           exists final w2,
             performRequest always_timing_out "https://x/" params (Some proxy_h) 1000 w1
             = (Return final, w2)
             /\ browse URL_by_scheme run params (boot browserPool) = (Return final, w2)
             /\ attempts w2 = 2%nat)
       /\ (~ retryable direct ->
           browse URL_by_scheme run params (boot browserPool) = (Return direct, w1)).
Proof.
  cbv zeta. split; [ reflexivity | split; [ reflexivity | ] ].
  apply (hybrid_retries_once URL_by_scheme (run_of no_env always_timing_out)
           (params_for "https://x/" (Some request_h)) (boot browserPool) proxy_h);
    reflexivity.
Defined.

(** The timeout scenario: the attempt without proxy runs into the timeout,
    so does the attempt with the proxy, and the error returned is the
    second one. *)
Example timeout_twice :
  fst (browse URL_by_scheme (run_of no_env always_timing_out)
              (params_for "https://x/" (Some request_h)) (boot browserPool))
  = Return (Err {| exec := seconds 11000 1000;
                   reason := "timeout";
                   message := "Navigation timeout of 5000 ms exceeded";
                   url := "https://x/";
                   timestamp := "2026-01-01T00:00:06.000Z";
                   proxy_used := Some "h:8080" |}).
Proof. vm_compute. reflexivity. Qed.

(** An attempt without proxy does not consult the block detector: what the
    page would answer to it has no effect on the attempt. *)
Lemma direct_attempt_skips_block_detector
    (att : Attempt) (texts : PageText) (url : string) (params : Params)
    (startTime : Z) (w : World) :
  performRequest_with (with_page att texts) url params None startTime w
  = performRequest_with att url params None startTime w.
Proof. reflexivity. Qed.

(** In hybrid mode a first attempt that returns a page is the result,
    whatever the status of the response and the text of the page. *)
Lemma hybrid_returns_any_loaded_page
    (URL : string -> outcome unit) (run : Run) (params : Params) (w w1 : World)
    (c : ProxyConfig) (d : OkData) :
  URL (params_url params) = Return tt ->
  getProxyConfig (env run) (default no_fields (params_proxy params)) = Return (Some c) ->
  type c = "hybrid" ->
  performRequest (answers run) (params_url params) params None (start run) w
  = (Return (Ok d), w1) ->
  browse URL run params w = (Return (Ok d), w1).
Proof.
  intros Hurl Hconfig Htype Hdirect.
  rewrite browse_run. cbv zeta. rewrite Hurl, Hconfig, Htype, Hdirect. reflexivity.
Qed.

(** C1: hybrid mode with proxy [h:8080]; the page answers 403 without
    proxy and would answer 200 through the proxy. The block detector would
    judge the first page blocked, but the attempt without proxy does not
    run it: [browse] returns the 403 page as an ok result with
    [proxy_used: 'none'] after a single attempt, and nothing is launched
    with the proxy. *)
Theorem blocked_page_returned_without_retry :
  let run := run_of no_env forbidden_then_fine in
  let params := params_for "https://x/" (Some request_h) in
  let out := browse URL_by_scheme run params (boot browserPool) in
  getProxyConfig no_env request_h = Return (Some proxy_h)
  /\ goto (forbidden_then_fine 0)
     = Return (Some {| response_status := 403; response_url := "https://x/" |})
  /\ isPageBlocked (Some {| response_status := 403; response_url := "https://x/" |})
                   (page (forbidden_then_fine 0)) = true
  /\ fst out
     = Return (Ok {| ok_exec := seconds 1500 1000;
                     network := [];
                     metrics := "{}";
                     title := "403 Forbidden";
                     html := "<html><body>Forbidden</body></html>";
                     screenshot := "";
                     ok_url := "https://x/";
                     ok_timestamp := "2026-01-01T00:00:01.000Z";
                     ok_proxy_used := "none" |})
  /\ attempts (snd out) = 1%nat
  /\ log (snd out) = [ Launch (createProxyLaunchOptions None);
                       NewPage (plain 0);
                       Goto (plain 0) "https://x/";
                       PageClose (plain 0) ].
Proof.
  cbv zeta. repeat split; vm_compute; reflexivity.
Qed.

(** When the first attempt fails in a way that calls for the proxy, the
    same answers of the engine give the result of the specification's
    scenario. *)
Example refused_then_fine :
  fst (browse URL_by_scheme
         (run_of no_env (fun k => match k with
                                  | O => attempt_timing_out 6000
                                  | _ => forbidden_then_fine 1
                                  end))
         (params_for "https://x/" (Some request_h)) (boot browserPool))
  = Return (Ok {| ok_exec := seconds 2500 1000;
                  network := [];
                  metrics := "{}";
                  title := "Welcome";
                  html := "<html><body>Welcome</body></html>";
                  screenshot := "";
                  ok_url := "https://x/";
                  ok_timestamp := "2026-01-01T00:00:01.000Z";
                  ok_proxy_used := "h:8080" |}).
Proof. vm_compute. reflexivity. Qed.

(** C9: when the request asks for the proxy and neither the request nor
    the environment yields a host and a port, the resolver throws; and
    [browse], once [new URL] has accepted the url, returns an error result
    with reason [proxy_error] and the resolver's message, its [exec] being
    the time between the two readings of the clock, and leaves the pool,
    the count of launches and the log of engine calls as they were. *)
Theorem unresolvable_proxy_is_reported
    (URL : string -> outcome unit) (run : Run) (params : Params) (w : World)
    (requestProxy : RequestProxy) :
  params_proxy params = Some requestProxy ->
  rp_enabled requestProxy = Some true ->
  request_complete requestProxy = None ->
  env_usable (env run) = false ->
  exists error,
    getProxyConfig (env run) requestProxy = Throw error
    /\ (Js.message error = missing_everywhere \/ Js.message error = host_port_required)
    /\ (URL (params_url params) = Return tt ->
        browse URL run params w
        = (Return (Err {| exec := seconds (failed_at run) (start run);
                          reason := "proxy_error";
                          message := Js.message error;
                          url := params_url params;
                          timestamp := failed_iso run;
                          proxy_used := None |}),
           w)).
Proof.
  intros Hproxy Hon Hreq Henv.
  destruct (getProxyConfig_unresolvable (env run) requestProxy Hon Hreq Henv)
    as (error & Hthrow & Hmessage).
  exists error. split; [ exact Hthrow | split; [ exact Hmessage | ] ].
  intros Hurl. rewrite browse_run. cbv zeta. rewrite Hurl, Hproxy.
  change (default no_fields (Some requestProxy)) with requestProxy.
  rewrite Hthrow. unfold createProxyErrorResponse.
  destruct Hmessage as [-> | ->]; reflexivity.
Qed.

Lemma unresolvable_static_is_reported :
  let run := run_of no_env forbidden_then_fine in
  let params := params_for "https://x/" (Some static_bare) in
  request_complete static_bare = None
  /\ env_usable no_env = false
  /\ URL_by_scheme "https://x/" = Return tt
  /\ getProxyConfig no_env static_bare = Throw {| Js.message := missing_everywhere |}
  /\ browse URL_by_scheme run params (boot browserPool)
     = (Return (Err {| exec := seconds 1002 1000;
                       reason := "proxy_error";
                       message := missing_everywhere;
                       url := "https://x/";
                       timestamp := "2026-01-01T00:00:00.002Z";
                       proxy_used := None |}),
        boot browserPool).
Proof.
  cbv zeta. repeat (split; [ reflexivity | ]).
  destruct (unresolvable_proxy_is_reported URL_by_scheme
              (run_of no_env forbidden_then_fine)
              (params_for "https://x/" (Some static_bare)) (boot browserPool) static_bare
              eq_refl eq_refl eq_refl eq_refl)
    as (error & Hthrow & _ & Hbrowse).
  inversion Hthrow; subst error. exact (Hbrowse eq_refl).
Defined.

(** [browse] always returns a result. Either the result
    was made before any attempt (the url was refused or the resolver
    threw): it is an error without a [proxy_used] field, [exec] is the time
    to the failure, and the state is untouched. Or it is the result of the
    last attempt made, ok or error alike: [proxy_used] is [none] when that
    attempt had no proxy and the resolved host and port when it had, and
    [exec] is the time to the end of that attempt. *)
Theorem results_carry_proxy_used
    (URL : string -> outcome unit) (run : Run) (params : Params) (w : World) :
  exists result w',
    browse URL run params w = (Return result, w')
    /\ ((w' = w
         /\ status result = "error"
         /\ data_proxy_used result = None
         /\ data_exec result = seconds (failed_at run) (start run))
        \/ (exists proxyConfig,
              (attempts w < attempts w')%nat
              /\ (proxyConfig = None
                  \/ getProxyConfig (env run) (default no_fields (params_proxy params))
                     = Return proxyConfig)
              /\ data_proxy_used result = Some (proxyUsed proxyConfig)
              /\ data_exec result
                 = seconds (now (answers run (attempts w' - 1))) (start run))).
Proof.
  rewrite browse_run. cbv zeta.
  destruct (URL _) as [[]|error].
  2:{ eexists; eexists. split; [ reflexivity | left ]. cbn. auto. }
  destruct (getProxyConfig _ _) as [proxyConfig|error] eqn:Hconfig.
  2:{ eexists; eexists. split; [ reflexivity | left ]. cbn. auto. }
  assert (Hlast : forall (pc : option ProxyConfig) (w0 : World),
             (attempts w <= attempts w0)%nat ->
             (pc = None \/ Return proxyConfig = Return pc) ->
             exists result w',
               performRequest (answers run) (params_url params) params pc (start run) w0
               = (Return result, w')
               /\ ((w' = w /\ status result = "error" /\ data_proxy_used result = None
                    /\ data_exec result = seconds (failed_at run) (start run))
                   \/ (exists proxyConfig0,
                         (attempts w < attempts w')%nat
                         /\ (proxyConfig0 = None \/ Return proxyConfig = Return proxyConfig0)
                         /\ data_proxy_used result = Some (proxyUsed proxyConfig0)
                         /\ data_exec result
                            = seconds (now (answers run (attempts w' - 1))) (start run)))).
  { intros pc w0 Hle Hpc.
    destruct (performRequest_returns (answers run) (params_url params) params pc
                                     (start run) w0) as (r & w' & Hrun & Hatt & Hused & Hexec).
    exists r, w'. split; [ exact Hrun | right ]. exists pc.
    replace (attempts w' - 1)%nat with (attempts w0) by lia.
    repeat split; auto. lia. }
  destruct proxyConfig as [c|].
  - destruct (type c =? "static")%string; [ | destruct (type c =? "hybrid")%string ].
    + apply Hlast; auto.
    + destruct (performRequest_returns (answers run) (params_url params) params None
                                       (start run) w) as (r & w1 & Hrun & Hatt & Hused & Hexec).
      rewrite Hrun. destruct (shouldRetryWithProxy r).
      * apply Hlast; [ lia | auto ].
      * exists r, w1. split; [ reflexivity | right ]. exists None.
        replace (attempts w1 - 1)%nat with (attempts w) by lia.
        repeat split; auto. lia.
    + apply Hlast; auto.
  - apply Hlast; auto.
Qed.

(** [browse] called with a url that [new URL] refuses (the schema of
    [POST /parse] lets no such url through): the error result has no
    [proxy_used] field. *)
Lemma refused_url_has_no_proxy_used :
  let out := browse URL_by_scheme (run_of no_env forbidden_then_fine)
                    (params_for "not a url" None) (boot browserPool) in
  fst out = Return (Err {| exec := seconds 1002 1000;
                           reason := "invalid_url";
                           message := "Invalid URL";
                           url := "not a url";
                           timestamp := "2026-01-01T00:00:00.002Z";
                           proxy_used := None |})
  /\ ~ (exists result, fst out = Return result /\ data_proxy_used result = Some "none").
Proof.
  cbv zeta. split; [ vm_compute; reflexivity | ].
  intros (result & Hout & Hused). vm_compute in Hout.
  inversion Hout; subst result. discriminate Hused.
Qed.

(** The result made when the resolver throws has no [proxy_used] either. *)
Example unresolvable_has_no_proxy_used :
  exists result w',
    browse URL_by_scheme (run_of no_env forbidden_then_fine)
           (params_for "https://x/" (Some static_bare)) (boot browserPool)
    = (Return result, w')
    /\ data_proxy_used result = None.
Proof. eexists; eexists. split; [ vm_compute; reflexivity | reflexivity ]. Qed.

(** C3: a request that asks for the proxy while neither it nor the
    environment yields a host and a port (a body that [parseSchema]
    accepts, such as [proxy: {enabled: true, type: 'static'}]) gets, for
    every url that [new URL] accepts, an error result made by
    [createProxyErrorResponse] before any attempt: it has no [proxy_used]
    field at all, neither [none] nor a host and port, where every result of
    [performRequest], error or ok, has one. *)
Theorem unresolvable_proxy_lacks_proxy_used
    (URL : string -> outcome unit) (run : Run) (params : Params) (w : World)
    (requestProxy : RequestProxy) :
  URL (params_url params) = Return tt ->
  params_proxy params = Some requestProxy ->
  rp_enabled requestProxy = Some true ->
  request_complete requestProxy = None ->
  env_usable (env run) = false ->
  (exists d,
     browse URL run params w = (Return (Err d), w)
     /\ reason d = "proxy_error"
     /\ proxy_used d = None
     /\ data_proxy_used (Err d) <> Some "none"
     /\ forall proxyConfig, data_proxy_used (Err d) <> Some (proxyUsed proxyConfig))
  /\ forall (proxyConfig : option ProxyConfig) (w0 : World),
       exists result w',
         performRequest (answers run) (params_url params) params proxyConfig (start run) w0
         = (Return result, w')
         /\ data_proxy_used result = Some (proxyUsed proxyConfig).
Proof.
  intros Hurl Hproxy Hon Hreq Henv. split.
  - destruct (getProxyConfig_unresolvable (env run) requestProxy Hon Hreq Henv)
      as (error & Hthrow & Hmessage).
    rewrite browse_run. cbv zeta. rewrite Hurl, Hproxy.
    change (default no_fields (Some requestProxy)) with requestProxy.
    rewrite Hthrow. unfold createProxyErrorResponse.
    eexists. split; [ reflexivity | ].
    cbn [reason proxy_used data_proxy_used].
    repeat split; try discriminate.
    destruct Hmessage as [-> | ->]; reflexivity.
  - intros proxyConfig w0.
    destruct (performRequest_returns (answers run) (params_url params) params proxyConfig
                                     (start run) w0) as (r & w' & Hrun & _ & Hused & _).
    exists r, w'. split; assumption.
Qed.

Lemma static_without_host_lacks_proxy_used :
  let run := run_of no_env forbidden_then_fine in
  let params := params_for "https://x/" (Some static_bare) in
  exists d,
    browse URL_by_scheme run params (boot browserPool) = (Return (Err d), boot browserPool)
    /\ d = {| exec := seconds 1002 1000;
              reason := "proxy_error";
              message := missing_everywhere;
              url := "https://x/";
              timestamp := "2026-01-01T00:00:00.002Z";
              proxy_used := None |}
    /\ data_proxy_used (Err d) <> Some "none".
Proof.
  cbv zeta.
  destruct (unresolvable_proxy_lacks_proxy_used URL_by_scheme
              (run_of no_env forbidden_then_fine)
              (params_for "https://x/" (Some static_bare)) (boot browserPool) static_bare
              eq_refl eq_refl eq_refl eq_refl eq_refl)
    as [(d & Hbrowse & _ & _ & Hnone & _) _].
  exists d. split; [ exact Hbrowse | split; [ | exact Hnone ] ].
  vm_compute in Hbrowse. inversion Hbrowse. reflexivity.
Defined.

(** ** The other modes and the scenarios of the specification *)

(** Static mode: one attempt, with the proxy. *)
Lemma static_makes_one_attempt
    (URL : string -> outcome unit) (run : Run) (params : Params) (w : World)
    (c : ProxyConfig) :
  URL (params_url params) = Return tt ->
  getProxyConfig (env run) (default no_fields (params_proxy params)) = Return (Some c) ->
  type c = "static" ->
  browse URL run params w
  = performRequest (answers run) (params_url params) params (Some c) (start run) w.
Proof.
  intros Hurl Hconfig Htype. rewrite browse_run. cbv zeta.
  rewrite Hurl, Hconfig, Htype. reflexivity.
Qed.

(** No configuration resolved: one attempt, without proxy. *)
Lemma no_proxy_makes_one_attempt
    (URL : string -> outcome unit) (run : Run) (params : Params) (w : World) :
  URL (params_url params) = Return tt ->
  getProxyConfig (env run) (default no_fields (params_proxy params)) = Return None ->
  browse URL run params w
  = performRequest (answers run) (params_url params) params None (start run) w.
Proof.
  intros Hurl Hconfig. rewrite browse_run. cbv zeta.
  rewrite Hurl, Hconfig. reflexivity.
Qed.

(** A status among 403, 429 and 503 is judged blocked whatever the page. *)
Lemma isPageBlocked_by_status (response : Response) (texts : PageText) :
  In (response_status response) [ 403; 429; 503 ] ->
  isPageBlocked (Some response) texts = true.
Proof.
  intros Hin. unfold isPageBlocked.
  assert (existsb (Z.eqb (response_status response)) [ 403; 429; 503 ] = true) as ->.
  { apply existsb_exists. exists (response_status response). split; [ exact Hin | ].
    apply Z.eqb_refl. }
  reflexivity.
Qed.

Example isPageBlocked_429 :
  isPageBlocked (Some {| response_status := 429; response_url := "https://x/" |})
                {| page_title := Return "Welcome";
                   page_content := Return "<html><body>Welcome</body></html>" |}
  = true.
Proof. reflexivity. Qed.

Example isPageBlocked_captcha :
  isPageBlocked (Some {| response_status := 200; response_url := "https://x/" |})
                {| page_title := Return "Please solve the CAPTCHA";
                   page_content := Return "<html></html>" |}
  = true.
Proof. reflexivity. Qed.

Example isPageBlocked_plain_page :
  isPageBlocked (Some {| response_status := 200; response_url := "https://x/" |})
                {| page_title := Return "Welcome";
                   page_content := Return "<html><body>Welcome</body></html>" |}
  = false.
Proof. reflexivity. Qed.

(** With interception on and the allow list [document, script], an image
    that the page loads is recorded as blocked. *)
Example image_outside_allow_list :
  networkRequests
    {| engine := healthy; newPage := Return tt; authenticate := Return tt;
       setViewport := Return tt; setUserAgent := Return tt;
       setRequestInterception := Return tt;
       requests := [ request_for "image" "https://x/logo.png" ];
       goto := Return None;
       page := {| page_title := Return ""; page_content := Return "" |};
       take_screenshot := Return ""; collected := Return ("", "", "");
       now := 0; now_iso := "" |}
    {| network_enabled := true; block_urls := [];
       allow_types := [ "document"; "script" ]; wait_until := "load" |}
  = [ {| ne_method := "GET"; ne_type := "image"; ne_url := "https://x/logo.png";
         ne_headers := []; ne_blocked := true; ne_reason := "not_in_allow_list" |} ].
Proof. reflexivity. Qed.

(** The helpers on strings and numbers, on inputs. *)
Example parseInt_inputs :
  parseInt "8080" = Num 8080 /\ parseInt "abc" = NaN /\ parseInt "" = NaN
  /\ parseInt "  -12px" = Num (-12) /\ parseInt "0" = Num 0.
Proof. repeat split. Qed.

Example host_port_inputs :
  host_port proxy_h = "h:8080"
  /\ show_number (Num 0) = "0" /\ show_number (Num (-5)) = "-5" /\ show_number NaN = "NaN".
Proof. repeat split. Qed.

Example includes_inputs :
  includes "https://x/a.woff" "x/a" = true /\ includes "abc" "" = true
  /\ includes "abc" "cb" = false /\ startsWith "data:image/png" "data:image/" = true.
Proof. repeat split. Qed.

Example toLowerCase_input : toLowerCase "Access DENIED 42" = "access denied 42".
Proof. reflexivity. Qed.

Example getErrorReason_inputs :
  getErrorReason {| Js.message := "Navigation timeout of 5000 ms exceeded" |} = "timeout"
  /\ getErrorReason {| Js.message := "net::ERR_NAME_NOT_RESOLVED at https://x/" |} = "dns_error"
  /\ getErrorReason {| Js.message := "Invalid URL" |} = "invalid_url"
  /\ getErrorReason {| Js.message := "Page appears to be blocked" |} = "unknown_error".
Proof. repeat split. Qed.

(** * Further properties of the code *)

(** ** lib/validation.mjs: [parseArray] *)

Lemma skip_space_starts (s : string) : starts_with_space (skip_space s) = false.
Proof.
  induction s as [|c s IH]; [ reflexivity | ].
  cbn. destruct (is_space c) eqn:Hc; [ exact IH | cbn; exact Hc ].
Qed.

Lemma skip_space_clean (s : string) : starts_with_space s = false -> skip_space s = s.
Proof. destruct s as [|c s]; [ reflexivity | ]. cbn. now intros ->. Qed.

Lemma skip_space_no_comma (s : string) : has_comma s = false -> has_comma (skip_space s) = false.
Proof.
  induction s as [|c s IH]; [ reflexivity | ].
  cbn. intros Hno. apply orb_false_iff in Hno as [Hc Hs].
  destruct (is_space c); [ auto | cbn; now rewrite Hc, Hs ].
Qed.

Lemma trim_end_ends (s : string) : ends_with_space (trim_end s) = false.
Proof.
  induction s as [|c s IH]; [ reflexivity | ].
  cbn. destruct (trim_end s) as [|c' kept] eqn:Hkept.
  - destruct (is_space c) eqn:Hc; [ reflexivity | cbn; exact Hc ].
  - exact IH.
Qed.

Lemma trim_end_clean (s : string) : ends_with_space s = false -> trim_end s = s.
Proof.
  induction s as [|c s IH]; [ reflexivity | ].
  destruct s as [|c' s'].
  - cbn. now intros ->.
  - intros Hend. change (ends_with_space (String c' s') = false) in Hend.
    change (trim_end (String c (String c' s')))
      with (match trim_end (String c' s') with
            | EmptyString => if is_space c then EmptyString else String c EmptyString
            | kept => String c kept
            end).
    now rewrite (IH Hend).
Qed.

Lemma trim_end_starts (s : string) :
  starts_with_space s = false -> starts_with_space (trim_end s) = false.
Proof.
  destruct s as [|c s]; [ reflexivity | ].
  cbn. intros Hc. destruct (trim_end s); [ rewrite Hc | ]; cbn; auto.
Qed.

Lemma trim_end_no_comma (s : string) : has_comma s = false -> has_comma (trim_end s) = false.
Proof.
  induction s as [|c s IH]; [ reflexivity | ].
  cbn. intros Hno. apply orb_false_iff in Hno as [Hc Hs]. specialize (IH Hs).
  destruct (trim_end s) as [|c' kept].
  - destruct (is_space c); cbn; [ reflexivity | now rewrite Hc ].
  - cbn in *. now rewrite Hc, IH.
Qed.

Lemma split_commas_no_comma (s : string) :
  Forall (fun piece => has_comma piece = false) (split_commas s).
Proof.
  induction s as [|c s IH]; cbn.
  - repeat constructor.
  - destruct (Ascii.eqb c ",") eqn:Hc.
    + constructor; [ reflexivity | exact IH ].
    + destruct (split_commas s) as [|piece pieces].
      * repeat constructor. cbn. now rewrite Hc.
      * inversion IH; subst. constructor; [ cbn; now rewrite Hc | assumption ].
Qed.

(** A string without comma is one piece. *)
Lemma split_commas_single (s : string) : has_comma s = false -> split_commas s = [ s ].
Proof.
  induction s as [|c s IH]; [ reflexivity | ].
  cbn. intros Hno. apply orb_false_iff in Hno as [Hc Hs].
  now rewrite Hc, (IH Hs).
Qed.

(** The pieces of [x,rest] are [x] and the pieces of [rest]. *)
Lemma split_commas_cons (x rest : string) :
  has_comma x = false ->
  split_commas (x ++ String "," rest) = x :: split_commas rest.
Proof.
  induction x as [|c x IH]; [ reflexivity | ].
  cbn. intros Hno. apply orb_false_iff in Hno as [Hc Hx].
  now rewrite Hc, (IH Hx).
Qed.

Lemma trim_clean (s : string) : clean_item s = true -> trim s = s.
Proof.
  unfold clean_item, trim. intros Hclean.
  repeat (apply andb_true_iff in Hclean as [Hclean ?]).
  rewrite skip_space_clean by now apply negb_true_iff.
  apply trim_end_clean. now apply negb_true_iff.
Qed.

Lemma trim_yields_clean (s : string) :
  has_comma s = false -> truthy_string (trim s) = true -> clean_item (trim s) = true.
Proof.
  intros Hno Hfull. unfold clean_item. rewrite Hfull. unfold trim.
  rewrite trim_end_no_comma by now apply skip_space_no_comma.
  rewrite trim_end_starts by apply skip_space_starts.
  now rewrite trim_end_ends.
Qed.

(** X1: every item that [parseArray] returns is clean: it is not empty, holds
    no comma, and neither starts nor ends with white space. *)
Theorem parseArray_items_clean (value : option string) :
  Forall (fun item => clean_item item = true) (parseArray value).
Proof.
  destruct value as [s|]; cbn; [ | constructor ].
  destruct (truthy_string s); [ | constructor ].
  pose proof (split_commas_no_comma s) as Hpieces.
  induction Hpieces as [|piece pieces Hpiece _ IH]; cbn; [ constructor | ].
  destruct (truthy_string (trim piece)) eqn:Hfull; [ | exact IH ].
  constructor; [ now apply trim_yields_clean | exact IH ].
Qed.

Lemma parse_pieces_of_join (items : list string) :
  Forall (fun item => clean_item item = true) items ->
  items <> [] ->
  List.filter truthy_string (map trim (split_commas (String.concat "," items))) = items.
Proof.
  induction 1 as [|item rest Hitem Hrest IH]; [ congruence | ]. intros _.
  assert (Hno : has_comma item = false).
  { unfold clean_item in Hitem. repeat (apply andb_true_iff in Hitem as [Hitem ?]).
    now apply negb_true_iff. }
  assert (Hfull : truthy_string item = true).
  { unfold clean_item in Hitem. now repeat (apply andb_true_iff in Hitem as [Hitem ?]). }
  destruct rest as [|next rest'].
  - cbn [String.concat]. rewrite split_commas_single by exact Hno.
    cbn. rewrite (trim_clean _ Hitem), Hfull. reflexivity.
  - change (String.concat "," (item :: next :: rest'))
      with (item ++ String "," (String.concat "," (next :: rest'))).
    rewrite split_commas_cons by exact Hno.
    cbn [map List.filter]. rewrite (trim_clean _ Hitem), Hfull.
    f_equal. apply IH. discriminate.
Qed.

(** X2: round trip, for items of ASCII characters (where the white space
    that [trim] removes is the white space of [is_space]): joining clean
    items with commas and parsing the string gives the items back. *)
Theorem parseArray_of_join (items : list string) :
  Forall (fun item => ascii_only item = true) items ->
  Forall (fun item => clean_item item = true) items ->
  parseArray (Some (String.concat "," items)) = items.
Proof.
  intros _ Hclean. destruct items as [|item rest]; [ reflexivity | ].
  unfold parseArray.
  assert (truthy_string (String.concat "," (item :: rest)) = true) as ->.
  { inversion Hclean as [|? ? Hitem _]; subst.
    unfold clean_item in Hitem. repeat (apply andb_true_iff in Hitem as [Hitem ?]).
    destruct item; [ discriminate | ]. destruct rest; reflexivity. }
  apply parse_pieces_of_join; [ exact Hclean | discriminate ].
Qed.

Lemma parseArray_of_join_abc :
  Forall (fun item => ascii_only item = true) [ "document"; "script"; "x y" ]
  /\ Forall (fun item => clean_item item = true) [ "document"; "script"; "x y" ]
  /\ parseArray (Some "document,script,x y") = [ "document"; "script"; "x y" ].
Proof.
  assert (Hascii : Forall (fun item => ascii_only item = true)
                          [ "document"; "script"; "x y" ])
    by (repeat constructor).
  assert (Hclean : Forall (fun item => clean_item item = true)
                          [ "document"; "script"; "x y" ])
    by (repeat constructor).
  split; [ exact Hascii | split; [ exact Hclean | ] ].
  exact (parseArray_of_join [ "document"; "script"; "x y" ] Hascii Hclean).
Defined.

Example parseArray_inputs :
  parseArray (Some " a, b ,,c  ,") = [ "a"; "b"; "c" ]
  /\ parseArray (Some ",") = [] /\ parseArray (Some "") = [] /\ parseArray None = [].
Proof. repeat split. Qed.

(** ** lib/browser-pool.mjs: rotation, recovery and shutdown *)

Lemma after_calls_boot (n : nat) : (0 < n)%nat -> after_calls n 0 = boot (new_BrowserPool n).
Proof.
  intros Hn. unfold after_calls, boot, new_BrowserPool. cbn.
  now rewrite Nat.Div0.mod_0_l.
Qed.

(** One more call on such a process returns the browser of slot [k mod n]
    and leaves the process of [k + 1] calls. *)
Lemma after_calls_step (n k : nat) (eng : Engine) :
  (0 < n)%nat -> serves n eng ->
  getBrowser eng None (after_calls n k) = (Return (plain (k mod n)), after_calls n (S k)).
Proof.
  intros Hn [Hlaunch Hconnected].
  rewrite getBrowser_pooled. cbv zeta.
  cbn [after_calls pool browsers maxBrowsers currentIndex launched attempts log].
  rewrite length_map, length_seq.
  destruct (Nat.ltb_spec (Nat.min k n) n) as [Hgrow|Hfull].
  - assert (Hk : (k < n)%nat) by lia.
    rewrite Hlaunch, (Nat.mod_small k n) by exact Hk.
    unfold after_calls, plain.
    replace (Nat.min k n) with k by lia. replace (Nat.min (S k) n) with (S k) by lia.
    replace (k - n)%nat with 0%nat by lia. replace (S k - n)%nat with 0%nat by lia.
    rewrite seq_S, map_app, <- repeat_cons. reflexivity.
  - assert (Hk : (n <= k)%nat) by lia.
    replace (Nat.min k n) with n by lia.
    assert (Hslot : ((k - n) mod n)%nat = (k mod n)%nat).
    { replace k with ((k - n) + 1 * n)%nat at 2 by lia.
      now rewrite Nat.Div0.mod_add. }
    assert (Hbelow : (k mod n < n)%nat) by (apply Nat.mod_upper_bound; lia).
    cbn [at_index]. rewrite Hslot.
    rewrite list_lookup_fmap, lookup_seq_lt by exact Hbelow. cbn.
    rewrite (Hconnected _ Hbelow).
    unfold after_calls. f_equal.
    replace (Nat.min (S k) n) with n by lia.
    f_equal. f_equal.
    destruct n as [|n']; [ lia | ]. cbn [next_index]. f_equal.
    replace (S k - S n')%nat with ((k - S n') + 1)%nat by lia.
    rewrite <- Hslot. now rewrite Nat.Div0.add_mod_idemp_l.
Qed.

Lemma after_calls_run (n : nat) (engines : list Engine) (k : nat) :
  (0 < n)%nat -> Forall (serves n) engines ->
  getBrowsers (map (fun eng => (eng, None)) engines) (after_calls n k)
  = (map (fun j => Return (plain (j mod n))) (seq k (length engines)),
     after_calls n (k + length engines)).
Proof.
  intros Hn Hserve. revert k.
  induction Hserve as [|eng rest Heng _ IH]; intros k.
  - cbn. now rewrite Nat.add_0_r.
  - cbn [map getBrowsers length seq].
    rewrite (after_calls_step n k eng Hn Heng), IH.
    now rewrite Nat.add_succ_r.
Qed.

(** X3: rotation for a pool of any size, for calls made one after the
    other, each awaited to its end before the next is made: on a pool
    constructed with [maxBrowsers = n] (not zero), when every launch
    succeeds and no pooled browser is found disconnected, the call number
    [j] (from zero) returns the browser launched as number [j mod n]; [n]
    browsers at most are launched however many such calls are made. Calls
    that overlap are another matter ([overlap]). *)
Theorem rotation_of_any_size (n : nat) (engines : list Engine) :
  (0 < n)%nat -> Forall (serves n) engines ->
  let out := getBrowsers (map (fun eng => (eng, None)) engines) (boot (new_BrowserPool n)) in
  fst out = map (fun j => Return (plain (j mod n))) (seq 0 (length engines))
  /\ browsers (pool (snd out)) = map plain (seq 0 (Nat.min (length engines) n))
  /\ launched (snd out) = Nat.min (length engines) n.
Proof.
  intros Hn Hserve. cbv zeta.
  rewrite <- (after_calls_boot n Hn), (after_calls_run n engines 0 Hn Hserve).
  cbn. auto.
Qed.

Lemma rotation_of_two_over_five :
  (0 < 2)%nat
  /\ Forall (serves 2) [ healthy; healthy; healthy; healthy; healthy ]
  /\ fst (getBrowsers (map (fun eng => (eng, None))
                           [ healthy; healthy; healthy; healthy; healthy ])
                      (boot (new_BrowserPool 2)))
     = [ Return (plain 0); Return (plain 1); Return (plain 0); Return (plain 1);
         Return (plain 0) ].
Proof.
  assert (Hserve : Forall (serves 2) [ healthy; healthy; healthy; healthy; healthy ]).
  { repeat constructor. }
  split; [ lia | split; [ exact Hserve | ] ].
  exact (proj1 (rotation_of_any_size 2 [ healthy; healthy; healthy; healthy; healthy ]
                  (Nat.lt_0_succ 1) Hserve)).
Defined.

Lemma insert_bid_fresh (l : list Browser) (j : nat) (x : Browser) :
  NoDup (map bid l) -> bid x ∉ map bid l -> NoDup (map bid (<[j := x]> l)).
Proof.
  revert j. induction l as [|a l IH]; intros j Hnodup Hfresh; [ exact Hnodup | ].
  cbn in Hnodup, Hfresh. apply NoDup_cons in Hnodup as [Ha Hl].
  apply not_elem_of_cons in Hfresh as [Hxa Hxl].
  destruct j as [|j]; cbn.
  - apply NoDup_cons. auto.
  - apply NoDup_cons. split; [ | now apply IH ].
    intros Hin. apply Ha. clear - Hin Hxa.
    revert j Hin. induction l as [|b l IHl]; intros j Hin; [ exact Hin | ].
    destruct j as [|j]; cbn in Hin |- *.
    + apply elem_of_cons in Hin as [Heq | Hin]; [ congruence | ].
      apply elem_of_cons. now right.
    + apply elem_of_cons in Hin as [Heq | Hin]; apply elem_of_cons;
        [ now left | right; eauto ].
Qed.

Lemma getBrowser_keeps_apart (eng : Engine) (proxyConfig : option ProxyConfig) (w : World) :
  known w -> pooled_apart w -> pooled_apart (snd (getBrowser eng proxyConfig w)).
Proof.
  unfold known, pooled_apart. intros Hk [Hplain Hnodup].
  assert (Hfresh : launched w ∉ map bid (browsers (pool w))).
  { intros Hin. apply list_elem_of_fmap in Hin as (b & Hb & Hin).
    rewrite Forall_forall in Hk. specialize (Hk _ Hin). lia. }
  destruct proxyConfig as [c|].
  - rewrite getBrowser_ephemeral, createBrowser_run. cbv zeta.
    destruct (launch eng _); cbn; auto.
  - rewrite getBrowser_pooled. cbv zeta.
    destruct (_ <? _)%nat.
    + destruct (launch eng _); cbn; auto. split.
      * apply Forall_app. split; [ exact Hplain | repeat constructor ].
      * rewrite map_app. cbn. apply NoDup_app. repeat split; auto.
        -- intros x Hx Hx'. apply list_elem_of_singleton in Hx'. subst x. auto.
        -- apply NoDup_singleton.
    + destruct (at_index _ _) as [b|] eqn:Hread; cbn; auto.
      destruct (isConnected eng b); cbn; auto.
      destruct (launch eng _); cbn; auto.
      destruct (getBrowser_replaces_in_range _ _ _ Hread) as (m & -> & Hm). cbn. split.
      * apply Forall_insert; [ exact Hplain | reflexivity ].
      * apply insert_bid_fresh; [ exact Hnodup | exact Hfresh ].
Qed.

(** X4: proxy isolation: after any series of [getBrowser] calls, with or without
    proxy and whatever the engine answers, every browser in the pool was
    launched with the options of a launch without proxy, and no browser is
    in two slots. *)
Theorem pool_holds_plain_distinct_browsers
    (n : nat) (calls : list (Engine * option ProxyConfig)) :
  pooled_apart (snd (getBrowsers calls (boot (new_BrowserPool n)))).
Proof.
  assert (Hgen : forall w, bounded w -> known w -> pooled_apart w ->
                           pooled_apart (snd (getBrowsers calls w))).
  { induction calls as [|[eng proxyConfig] rest IH]; intros w Hb Hk Ha; [ exact Ha | ].
    cbn [getBrowsers].
    pose proof (getBrowser_keeps eng proxyConfig w Hb Hk) as (Hb1 & Hk1 & _).
    pose proof (getBrowser_keeps_apart eng proxyConfig w Hk Ha) as Ha1.
    destruct (getBrowser eng proxyConfig w) as [r w1]. cbn [snd] in *.
    specialize (IH w1 Hb1 Hk1 Ha1).
    destruct (getBrowsers rest w1) as [rs w2]. exact IH. }
  apply Hgen; [ apply boot_bounded | apply boot_known | ].
  split; cbn; constructor.
Qed.

(** X5: a pool constructed with [maxBrowsers = 0] never serves: every call
    without proxy throws, nothing is launched and the pool stays empty. *)
Theorem pool_of_zero_never_serves (engines : list Engine) :
  let out := getBrowsers (map (fun eng => (eng, None)) engines) (boot (new_BrowserPool 0)) in
  Forall (fun r => r = Throw not_a_browser) (fst out)
  /\ browsers (pool (snd out)) = []
  /\ launched (snd out) = 0%nat
  /\ log (snd out) = [].
Proof.
  cbv zeta.
  assert (Hgen : forall w,
             browsers (pool w) = [] -> maxBrowsers (pool w) = 0%nat ->
             let out := getBrowsers (map (fun eng => (eng, None)) engines) w in
             Forall (fun r => r = Throw not_a_browser) (fst out)
             /\ browsers (pool (snd out)) = []
             /\ launched (snd out) = launched w /\ log (snd out) = log w).
  { induction engines as [|eng rest IH]; intros w Hempty Hzero; cbn.
    - auto.
    - rewrite getBrowser_pooled. cbv zeta. rewrite Hempty, Hzero. cbn [length Nat.ltb Nat.leb].
      assert (Hnone : at_index [] (currentIndex (pool w)) = None).
      { destruct (currentIndex (pool w)); reflexivity. }
      rewrite Hnone.
      match goal with
      | |- context [ getBrowsers _ ?w1 ] =>
          specialize (IH w1 eq_refl eq_refl); destruct (getBrowsers _ w1) as [rs w2]
      end.
      cbn in *. destruct IH as (Hall & ? & ? & ?). auto. }
  apply (Hgen (boot (new_BrowserPool 0))); reflexivity.
Qed.

(** X6: a pool of one slot recovers: when its browser is found disconnected
    the call closes it, launches another, stores it in the slot and returns
    it. *)
Theorem single_slot_is_replaced (eng : Engine) (w : World) (b : Browser) :
  maxBrowsers (pool w) = 1%nat ->
  browsers (pool w) = [ b ] ->
  currentIndex (pool w) = Idx 0 ->
  isConnected eng b = false ->
  launch eng (createProxyLaunchOptions None) = Return tt ->
  exists w',
    getBrowser eng None w = (Return (plain (launched w)), w')
    /\ browsers (pool w') = [ plain (launched w) ]
    /\ currentIndex (pool w') = Idx 0
    /\ log w' = (log w ++ [ BrowserClose b; Launch (createProxyLaunchOptions None) ])%list.
Proof.
  intros Hmax Hpool Hcur Hlost Hlaunch.
  destruct (replacement_lands_after_cursor eng w 0 b) as (w' & Hrun & Hslots & _ & _ & Hnext & Hlog);
    try assumption.
  - rewrite Hmax, Hpool. cbn. lia.
  - now rewrite Hpool.
  - exists w'. rewrite Hpool in Hslots, Hnext. cbn in Hslots, Hnext.
    rewrite <- app_assoc in Hlog. auto.
Qed.

Lemma single_slot_is_replaced_once :
  let w := snd (getBrowser healthy None (boot (new_BrowserPool 1))) in
  browsers (pool w) = [ plain 0 ]
  /\ isConnected first_lost (plain 0) = false
  /\ exists w',
       getBrowser first_lost None w = (Return (plain 1), w')
       /\ browsers (pool w') = [ plain 1 ]
       /\ currentIndex (pool w') = Idx 0
       /\ log w' = (log w ++ [ BrowserClose (plain 0);
                               Launch (createProxyLaunchOptions None) ])%list.
Proof.
  cbv zeta. split; [ reflexivity | split; [ reflexivity | ] ].
  apply (single_slot_is_replaced first_lost
           (snd (getBrowser healthy None (boot (new_BrowserPool 1)))) (plain 0));
    reflexivity.
Defined.

(** X7: when the engine cannot launch, a call leaves the pooled browsers and
    the count of launches as they were, and a browser it still returns is
    one of the pool. *)
Theorem failed_launch_keeps_pool
    (eng : Engine) (proxyConfig : option ProxyConfig) (w : World) (error : Error) :
  (forall o, launch eng o = Throw error) ->
  let out := getBrowser eng proxyConfig w in
  browsers (pool (snd out)) = browsers (pool w)
  /\ launched (snd out) = launched w
  /\ (forall b, fst out = Return b -> proxyConfig = None /\ b ∈ browsers (pool w))
  /\ (forall e, fst out = Throw e -> e = error \/ e = not_a_browser).
Proof.
  intros Hfail. cbv zeta.
  destruct proxyConfig as [c|].
  - rewrite getBrowser_ephemeral, createBrowser_run. cbv zeta. rewrite Hfail. cbn.
    split; [ reflexivity | split; [ reflexivity | ] ].
    split; [ discriminate | ]. intros e He. inversion He. now left.
  - rewrite getBrowser_pooled. cbv zeta. rewrite Hfail.
    destruct (_ <? _)%nat; cbn.
    + split; [ reflexivity | split; [ reflexivity | ] ].
      split; [ discriminate | ]. intros e He. inversion He. now left.
    + destruct (at_index _ _) as [b|] eqn:Hread; cbn.
      * destruct (isConnected eng b); cbn.
        -- split; [ reflexivity | split; [ reflexivity | ] ].
           split; [ | discriminate ].
           intros b' Hb'. inversion Hb'; subst b'. split; [ reflexivity | ].
           destruct (currentIndex (pool w)) as [i|]; [ | discriminate ].
           apply list_elem_of_lookup. now exists i.
        -- split; [ reflexivity | split; [ reflexivity | ] ].
           split; [ discriminate | ]. intros e He. inversion He. now left.
      * split; [ reflexivity | split; [ reflexivity | ] ].
        split; [ discriminate | ]. intros e He. inversion He. now right.
Qed.

Lemma failed_launch_keeps_pool_of_three :
  let down := {| isConnected := fun _ => true;
                 launch := fun _ => Throw {| Js.message := "Failed to launch the browser process" |} |} in
  let w := snd (getBrowsers four_calls (boot browserPool)) in
  (forall o, launch down o = Throw {| Js.message := "Failed to launch the browser process" |})
  /\ browsers (pool (snd (getBrowser down None w))) = browsers (pool w)
  /\ launched (snd (getBrowser down None w)) = launched w.
Proof.
  cbv zeta. split; [ reflexivity | ].
  match goal with
  | |- context [ getBrowser ?e None ?w0 ] =>
      destruct (failed_launch_keeps_pool e None w0
                  {| Js.message := "Failed to launch the browser process" |}
                  (fun _ => eq_refl)) as (Hpool & Hcount & _)
  end.
  split; [ exact Hpool | exact Hcount ].
Defined.


(** ** lib/proxy-utils.mjs: what the resolver returns and when it throws *)

Lemma request_complete_truthy (requestProxy : RequestProxy) (h : string) (p : number) :
  request_complete requestProxy = Some (h, p) ->
  rp_enabled requestProxy = Some true
  /\ truthy_string h = true /\ truthy_number p = true.
Proof.
  unfold request_complete.
  destruct (rp_enabled requestProxy) as [[|]|]; try discriminate.
  destruct (rp_host requestProxy) as [h'|]; try discriminate.
  destruct (rp_port requestProxy) as [p'|]; try discriminate.
  destruct (truthy_string h' && truthy_number p')%bool eqn:Hboth; try discriminate.
  intros Heq. inversion Heq; subst. apply andb_true_iff in Hboth. tauto.
Qed.

Lemma or_default_truthy (a : option string) (d : string) :
  truthy_string d = true -> truthy_string (or_default a d) = true.
Proof.
  intros Hd. unfold or_default. destruct a as [s|]; [ | exact Hd ].
  destruct (truthy_string s) eqn:Hs; [ exact Hs | exact Hd ].
Qed.

(** The resolver by cases on what the request and the environment hold. *)
Lemma getProxyConfig_run (env : ProcessEnv) (requestProxy : RequestProxy) :
  getProxyConfig env requestProxy =
  match rp_enabled requestProxy with
  | Some false => Return None
  | _ =>
    match request_complete requestProxy with
    | Some (h, p) =>
        Return (Some {| enabled := true;
                        type := or_default (rp_type requestProxy) "hybrid";
                        host := h; port := p;
                        username := rp_username requestProxy;
                        password := rp_password requestProxy |})
    | None =>
      match env_complete env with
      | Some (h, p) =>
          if truthy_number (parseInt p) then
            Return (Some {| enabled := true;
                            type := or_default (rp_type requestProxy) "hybrid";
                            host := h; port := parseInt p;
                            username := or_else truthy_string (rp_username requestProxy)
                                                (PROXY_USERNAME env);
                            password := or_else truthy_string (rp_password requestProxy)
                                                (PROXY_PASSWORD env) |})
          else Throw {| Js.message := host_port_required |}
      | None =>
        match rp_enabled requestProxy with
        | Some true => Throw {| Js.message := missing_everywhere |}
        | _ => Return None
        end
      end
    end
  end.
Proof.
  unfold getProxyConfig.
  destruct (rp_enabled requestProxy) as [[|]|] eqn:Hon; try reflexivity;
    destruct (request_complete requestProxy) as [[h p]|] eqn:Hreq.
  all: try (destruct (request_complete_truthy _ _ _ Hreq) as (_ & Hh & Hp);
            cbv beta iota zeta; cbn [host port]; rewrite Hh, Hp; reflexivity).
  all: destruct (env_complete env) as [[h p]|] eqn:Henv; try reflexivity.
  all: assert (Hh : truthy_string h = true)
         by (unfold env_complete in Henv;
             destruct (PROXY_HOST env) as [h'|]; try discriminate;
             destruct (PROXY_PORT env) as [p'|]; try discriminate;
             destruct (truthy_string h' && truthy_string p')%bool eqn:Hboth;
             try discriminate; inversion Henv; subst;
             apply andb_true_iff in Hboth; tauto).
  all: cbv beta iota zeta; cbn [host port]; rewrite Hh;
       destruct (truthy_number (parseInt p)); reflexivity.
Qed.

(** X9: every configuration that the resolver returns is enabled, and has a
    host that is not empty, a port that is a number other than zero and a
    type that is not empty. *)
Theorem resolved_config_is_usable
    (env : ProcessEnv) (requestProxy : RequestProxy) (c : ProxyConfig) :
  getProxyConfig env requestProxy = Return (Some c) ->
  enabled c = true
  /\ host c <> ""
  /\ (exists z, port c = Num z /\ z <> 0)
  /\ type c <> "".
Proof.
  rewrite getProxyConfig_run.
  assert (Hhost : forall h, truthy_string h = true -> h <> "").
  { intros h Hh ->. discriminate Hh. }
  assert (Hport : forall p, truthy_number p = true -> exists z, p = Num z /\ z <> 0).
  { intros [z|] Hp; [ | discriminate ]. exists z. split; [ reflexivity | ].
    cbn in Hp. apply negb_true_iff, Z.eqb_neq in Hp. exact Hp. }
  assert (Htype : forall a, or_default a "hybrid" <> "").
  { intros a. apply Hhost, or_default_truthy. reflexivity. }
  intros Hrun.
  destruct (rp_enabled requestProxy) as [[|]|] eqn:Hon; try discriminate;
    destruct (request_complete requestProxy) as [[h p]|] eqn:Hreq.
  all: try (destruct (request_complete_truthy _ _ _ Hreq) as (_ & Hh & Hp);
            inversion Hrun; subst c; cbn; auto).
  all: destruct (env_complete env) as [[h p]|] eqn:Henv; try discriminate.
  all: destruct (truthy_number (parseInt p)) eqn:Hp; try discriminate.
  all: inversion Hrun; subst c; cbn; repeat split; auto.
  all: apply Hhost; unfold env_complete in Henv;
       destruct (PROXY_HOST env) as [h'|]; try discriminate;
       destruct (PROXY_PORT env) as [p'|]; try discriminate;
       destruct (truthy_string h' && truthy_string p')%bool eqn:Hboth;
       try discriminate; inversion Henv; subst;
       apply andb_true_iff in Hboth; tauto.
Qed.

Lemma resolved_config_is_usable_h8080 :
  getProxyConfig no_env request_h = Return (Some proxy_h)
  /\ enabled proxy_h = true /\ host proxy_h <> ""
  /\ (exists z, port proxy_h = Num z /\ z <> 0) /\ type proxy_h <> "".
Proof.
  split; [ reflexivity | ].
  exact (resolved_config_is_usable no_env request_h proxy_h eq_refl).
Defined.

(** X10: the resolver returns no configuration in two cases only: the request
    says [enabled: false], or it leaves [enabled] out and the environment
    lacks a non-empty [PROXY_HOST] or [PROXY_PORT]. *)
Theorem no_proxy_exactly_when (env : ProcessEnv) (requestProxy : RequestProxy) :
  getProxyConfig env requestProxy = Return None
  <-> rp_enabled requestProxy = Some false
      \/ (rp_enabled requestProxy = None /\ env_complete env = None).
Proof.
  rewrite getProxyConfig_run.
  destruct (rp_enabled requestProxy) as [[|]|] eqn:Hon.
  - destruct (request_complete requestProxy) as [[h p]|];
      [ | destruct (env_complete env) as [[h p]|];
          [ destruct (truthy_number (parseInt p)) | ] ];
      (split; [ discriminate | intros [H | [H _]]; discriminate H ]).
  - split; auto.
  - assert (Hreq : request_complete requestProxy = None).
    { unfold request_complete. now rewrite Hon. }
    rewrite Hreq.
    destruct (env_complete env) as [[h p]|].
    + destruct (truthy_number (parseInt p));
        (split; [ discriminate | intros [H | [_ H]]; discriminate H ]).
    + split; auto.
Qed.

(** X11: the resolver throws in two cases only, each with its message: the
    request does not disable the proxy and gives no complete host and port,
    and either the environment has both variables but the port does not
    read as a number other than zero, or the environment lacks one and the
    request says [enabled: true]. *)
Theorem resolver_throws_exactly_when
    (env : ProcessEnv) (requestProxy : RequestProxy) (error : Error) :
  getProxyConfig env requestProxy = Throw error
  <-> rp_enabled requestProxy <> Some false
      /\ request_complete requestProxy = None
      /\ ((exists h p, env_complete env = Some (h, p)
                       /\ truthy_number (parseInt p) = false
                       /\ error = {| Js.message := host_port_required |})
          \/ (env_complete env = None
              /\ rp_enabled requestProxy = Some true
              /\ error = {| Js.message := missing_everywhere |})).
Proof.
  rewrite getProxyConfig_run.
  destruct (rp_enabled requestProxy) as [[|]|] eqn:Hon.
  - destruct (request_complete requestProxy) as [[h p]|].
    + split; [ discriminate | intros (_ & H & _); discriminate H ].
    + destruct (env_complete env) as [[h p]|].
      * destruct (truthy_number (parseInt p)) eqn:Hp.
        -- split; [ discriminate | ].
           intros (_ & _ & [(h' & p' & Heq & Hfalse & _) | (H & _)]); [ | discriminate H ].
           inversion Heq; subst. congruence.
        -- split.
           ++ intros Heq. inversion Heq. repeat split; [ discriminate | ].
              left. exists h, p. auto.
           ++ intros (_ & _ & [(h' & p' & _ & _ & ->) | (H & _)]);
                [ reflexivity | discriminate H ].
      * split.
        -- intros Heq. inversion Heq. repeat split; [ discriminate | ]. right. auto.
        -- intros (_ & _ & [(h' & p' & H & _) | (_ & _ & ->)]);
             [ discriminate H | reflexivity ].
  - split; [ discriminate | intros (H & _); congruence ].
  - assert (Hreq : request_complete requestProxy = None).
    { unfold request_complete. now rewrite Hon. }
    rewrite Hreq.
    destruct (env_complete env) as [[h p]|].
    + destruct (truthy_number (parseInt p)) eqn:Hp.
      * split; [ discriminate | ].
        intros (_ & _ & [(h' & p' & Heq & Hfalse & _) | (H & _)]); [ | discriminate H ].
        inversion Heq; subst. congruence.
      * split.
        -- intros Heq. inversion Heq. repeat split; [ discriminate | ].
           left. exists h, p. auto.
        -- intros (_ & _ & [(h' & p' & _ & _ & ->) | (H & _)]);
             [ reflexivity | discriminate H ].
    + split; [ discriminate | ].
      intros (_ & _ & [(h' & p' & H & _) | (_ & H & _)]); discriminate H.
Qed.

(** X12: a request that enables the proxy with its own host and port is
    resolved from the request alone: the environment has no part in it. *)
Theorem complete_request_ignores_environment
    (env env' : ProcessEnv) (requestProxy : RequestProxy) (h : string) (p : number) :
  request_complete requestProxy = Some (h, p) ->
  getProxyConfig env requestProxy = getProxyConfig env' requestProxy
  /\ exists c, getProxyConfig env requestProxy = Return (Some c)
               /\ host c = h /\ port c = p
               /\ username c = rp_username requestProxy
               /\ password c = rp_password requestProxy.
Proof.
  intros Hreq.
  rewrite (getProxyConfig_from_request env _ _ _ Hreq),
          (getProxyConfig_from_request env' _ _ _ Hreq).
  split; [ reflexivity | ]. eexists. split; [ reflexivity | ]. cbn. auto.
Qed.

Lemma complete_request_ignores_environment_h :
  request_complete request_h = Some ("h", Num 8080)
  /\ getProxyConfig (env_with "other" "3128") request_h = getProxyConfig no_env request_h.
Proof.
  split; [ reflexivity | ].
  exact (proj1 (complete_request_ignores_environment
                  (env_with "other" "3128") no_env request_h "h" (Num 8080) eq_refl)).
Defined.

(** X13: a request that enables the proxy without a complete host and port
    gets them from the environment, and keeps its own type, user name and
    password where it gives them: the environment's credentials are used
    for the fields that the request leaves out or empty. *)
Theorem environment_completes_request
    (env : ProcessEnv) (requestProxy : RequestProxy) (h p : string) :
  rp_enabled requestProxy = Some true ->
  request_complete requestProxy = None ->
  env_complete env = Some (h, p) ->
  truthy_number (parseInt p) = true ->
  exists c,
    getProxyConfig env requestProxy = Return (Some c)
    /\ host c = h /\ port c = parseInt p
    /\ type c = or_default (rp_type requestProxy) "hybrid"
    /\ (forall u, rp_username requestProxy = Some u -> u <> "" -> username c = Some u)
    /\ (rp_username requestProxy = None \/ rp_username requestProxy = Some "" ->
        username c = PROXY_USERNAME env)
    /\ (forall u, rp_password requestProxy = Some u -> u <> "" -> password c = Some u)
    /\ (rp_password requestProxy = None \/ rp_password requestProxy = Some "" ->
        password c = PROXY_PASSWORD env).
Proof.
  intros Hon Hreq Henv Hp.
  rewrite getProxyConfig_run, Hon, Hreq, Henv, Hp.
  eexists. split; [ reflexivity | ]. cbn [host port type username password].
  assert (Hor : forall a b : option string,
             (forall u, a = Some u -> u <> "" -> or_else truthy_string a b = Some u)
             /\ (a = None \/ a = Some "" -> or_else truthy_string a b = b)).
  { intros a b. split.
    - intros u -> Hu. unfold or_else. cbn. destruct u; [ congruence | reflexivity ].
    - intros [-> | ->]; reflexivity. }
  repeat split; try apply Hor.
Qed.

Lemma environment_completes_static_request :
  let env := {| PROXY_HOST := Some "p.example"; PROXY_PORT := Some "3128";
                PROXY_USERNAME := Some "envuser"; PROXY_PASSWORD := Some "envpass" |} in
  let requestProxy := {| rp_enabled := Some true; rp_type := Some "static";
                         rp_host := None; rp_port := None;
                         rp_username := Some "me"; rp_password := None |} in
  env_complete env = Some ("p.example", "3128")
  /\ exists c,
       getProxyConfig env requestProxy = Return (Some c)
       /\ host c = "p.example" /\ port c = Num 3128 /\ type c = "static"
       /\ username c = Some "me" /\ password c = Some "envpass".
Proof.
  cbv zeta. split; [ reflexivity | ].
  destruct (environment_completes_request
              {| PROXY_HOST := Some "p.example"; PROXY_PORT := Some "3128";
                 PROXY_USERNAME := Some "envuser"; PROXY_PASSWORD := Some "envpass" |}
              {| rp_enabled := Some true; rp_type := Some "static"; rp_host := None;
                 rp_port := None; rp_username := Some "me"; rp_password := None |}
              "p.example" "3128" eq_refl eq_refl eq_refl eq_refl)
    as (c & Hc & Hhost & Hport & Htype & Huser & _ & _ & Hpass).
  exists c. split; [ exact Hc | ]. split; [ exact Hhost | ].
  split; [ exact Hport | ]. split; [ exact Htype | ].
  split; [ apply Huser; [ reflexivity | discriminate ] | ].
  apply Hpass. now left.
Defined.

(** ** Strings: substrings and letter case *)

Lemma prefix_app (p s : string) :
  String.prefix p s = true <-> exists rest, s = p ++ rest.
Proof.
  revert s. induction p as [|c p IH]; intros s.
  - split; [ intros _; now exists s | intros _; destruct s; reflexivity ].
  - destruct s as [|c' s]; cbn;
      [ split; [ discriminate | intros [rest H]; discriminate H ] | ].
    destruct (ascii_dec c c') as [->|Hne].
    + rewrite IH. split; intros [rest H]; exists rest; [ now subst | now inversion H ].
    + split; [ discriminate | intros [rest H]; inversion H; congruence ].
Qed.

(** [s.includes(p)] tells that [p] occurs in [s]. *)
Lemma includes_app (s p : string) :
  includes s p = true <-> exists before after, s = before ++ p ++ after.
Proof.
  induction s as [|c s IH].
  - cbn [includes]. rewrite orb_false_r, prefix_app. split.
    + intros [rest H]. now exists "", rest.
    + intros (before & after & H). destruct before; [ now exists after | discriminate H ].
  - cbn [includes]. rewrite orb_true_iff, prefix_app, IH. split.
    + intros [[rest H] | (before & after & H)].
      * now exists "", rest.
      * exists (String c before), after. cbn. now rewrite H.
    + intros (before & after & H). destruct before as [|c' before].
      * left. now exists after.
      * right. inversion H; subst. now exists before, after.
Qed.

Lemma append_assoc (a b c : string) : (a ++ b) ++ c = a ++ (b ++ c).
Proof. induction a as [|x a IH]; cbn; [ reflexivity | now rewrite IH ]. Qed.

(** What occurs in a part of [s] occurs in [s]. *)
Lemma includes_trans (s p q : string) :
  includes s p = true -> includes p q = true -> includes s q = true.
Proof.
  rewrite !includes_app. intros (a & b & ->) (a' & b' & ->).
  exists (a ++ a'), (b' ++ b). now rewrite !append_assoc.
Qed.

Lemma includes_empty (s : string) : includes s "" = true.
Proof. destruct s; reflexivity. Qed.

Lemma existsb_none {A} (f : A -> bool) (l : list A) :
  existsb f l = false <-> forall x, In x l -> f x = false.
Proof.
  induction l as [|a l IH]; cbn.
  - split; [ intros _ x [] | reflexivity ].
  - rewrite orb_false_iff, IH. split.
    + intros [Ha Hl] x [<- | Hx]; auto.
    + intros H. split; [ apply H; now left | intros x Hx; apply H; now right ].
Qed.

Lemma lower_ascii_twice (c : ascii) : lower_ascii (lower_ascii c) = lower_ascii c.
Proof. destruct c as [[] [] [] [] [] [] [] []]; reflexivity. Qed.

Lemma toLowerCase_twice (s : string) : toLowerCase (toLowerCase s) = toLowerCase s.
Proof.
  induction s as [|c s IH]; cbn; [ reflexivity | now rewrite lower_ascii_twice, IH ].
Qed.

Lemma toLowerCase_length (s : string) : String.length (toLowerCase s) = String.length s.
Proof. induction s as [|c s IH]; cbn; [ reflexivity | now rewrite IH ]. Qed.

(** ** lib/proxy-utils.mjs: the block detector *)

(** X14: for a page whose title and content, when they can be read, are of
    ASCII characters (so that the length in bytes is [content.length] and
    [toLowerCase] is JavaScript's), the detector passes the page in one
    case only: there is a response, its status is none of 403, 429 and
    503, the title and the content can be read, neither holds one of the
    nine indicators in any letter case, and the content has 500 characters
    or more or holds a doctype or an html tag. In particular a navigation
    without response, and a page whose title or content cannot be read,
    are judged blocked. *)
Theorem page_passes_exactly_when (response : option Response) (texts : PageText) :
  (forall title, page_title texts = Return title -> ascii_only title = true) ->
  (forall content, page_content texts = Return content -> ascii_only content = true) ->
  isPageBlocked response texts = false
  <-> exists r title content,
        response = Some r
        /\ ~ In (response_status r) [ 403; 429; 503 ]
        /\ page_title texts = Return title
        /\ page_content texts = Return content
        /\ (forall indicator, In indicator blockingIndicators ->
              includes (toLowerCase title) indicator = false
              /\ includes (toLowerCase content) indicator = false)
        /\ (500 <= Z.of_nat (String.length content)
            \/ includes (toLowerCase content) "<!doctype" = true
            \/ includes (toLowerCase content) "<html" = true).
Proof.
  intros _ _. unfold isPageBlocked. destruct response as [r|].
  2:{ split; [ discriminate | intros (r & ? & ? & H & _); discriminate H ]. }
  destruct (existsb (Z.eqb (response_status r)) [ 403; 429; 503 ]) eqn:Hstatus.
  { split; [ discriminate | ].
    intros (r' & title & content & Hr & Hnot & _). inversion Hr; subst r'.
    exfalso. apply Hnot. apply existsb_exists in Hstatus as (x & Hx & Heq).
    apply Z.eqb_eq in Heq. now subst. }
  assert (Hclear : ~ In (response_status r) [ 403; 429; 503 ]).
  { intros Hin. rewrite existsb_none in Hstatus. specialize (Hstatus _ Hin).
    rewrite Z.eqb_refl in Hstatus. discriminate. }
  destruct (page_title texts) as [title|e].
  2:{ split; [ discriminate | intros (? & ? & ? & _ & _ & H & _); discriminate H ]. }
  destruct (page_content texts) as [content|e].
  2:{ split; [ discriminate | intros (? & ? & ? & _ & _ & _ & H & _); discriminate H ]. }
  cbv zeta.
  destruct (existsb _ blockingIndicators) eqn:Hfound.
  { split; [ discriminate | ].
    intros (r' & t & c & _ & _ & Ht & Hc & Hnone & _).
    inversion Ht; inversion Hc; subst t c.
    apply existsb_exists in Hfound as (x & Hx & Hhit).
    destruct (Hnone x Hx) as [H1 H2]. rewrite H1, H2 in Hhit. discriminate. }
  rewrite existsb_none in Hfound.
  assert (Hnone : forall indicator, In indicator blockingIndicators ->
                    includes (toLowerCase title) indicator = false
                    /\ includes (toLowerCase content) indicator = false).
  { intros indicator Hin. apply orb_false_iff, Hfound, Hin. }
  assert (Hpass : forall size : 500 <= Z.of_nat (String.length content)
                                \/ includes (toLowerCase content) "<!doctype" = true
                                \/ includes (toLowerCase content) "<html" = true,
             exists r0 title0 content0,
               Some r = Some r0
               /\ ~ In (response_status r0) [ 403; 429; 503 ]
               /\ Return title = Return title0
               /\ Return content = Return content0
               /\ (forall indicator, In indicator blockingIndicators ->
                     includes (toLowerCase title0) indicator = false
                     /\ includes (toLowerCase content0) indicator = false)
               /\ (500 <= Z.of_nat (String.length content0)
                   \/ includes (toLowerCase content0) "<!doctype" = true
                   \/ includes (toLowerCase content0) "<html" = true)).
  { intros size. exists r, title, content. auto 10. }
  destruct (Z.ltb_spec (Z.of_nat (String.length content)) 500) as [Hshort|Hlong];
    cbn [andb].
  - destruct (includes (toLowerCase content) "<!doctype") eqn:Hdoc; cbn [negb andb].
    + split; [ intros _; apply Hpass; auto | reflexivity ].
    + destruct (includes (toLowerCase content) "<html") eqn:Hhtml; cbn [negb].
      * split; [ intros _; apply Hpass; auto | reflexivity ].
      * split; [ discriminate | ].
        intros (r' & t & c & _ & _ & Ht & Hc & _ & [Hlen | [H | H]]);
          inversion Hc; subst c; [ lia | congruence | congruence ].
  - split; [ intros _; apply Hpass; auto | reflexivity ].
Qed.

(** X15: on titles and contents of ASCII characters (where [toLowerCase] is
    JavaScript's and keeps the length), the detector does not tell letter
    case: two pages whose titles and whose contents differ in the case of
    letters only get the same verdict. *)
Theorem detector_ignores_case
    (response : option Response) (title title' content content' : string) :
  ascii_only title = true -> ascii_only title' = true ->
  ascii_only content = true -> ascii_only content' = true ->
  toLowerCase title = toLowerCase title' ->
  toLowerCase content = toLowerCase content' ->
  isPageBlocked response {| page_title := Return title; page_content := Return content |}
  = isPageBlocked response {| page_title := Return title'; page_content := Return content' |}.
Proof.
  intros _ _ _ _ Ht Hc. unfold isPageBlocked. cbn [page_title page_content].
  assert (Hlen : String.length content = String.length content').
  { now rewrite <- (toLowerCase_length content), Hc, toLowerCase_length. }
  now rewrite Ht, Hc, Hlen.
Qed.

Lemma detector_ignores_case_captcha :
  ascii_only "Please Solve The CAPTCHA" = true
  /\ ascii_only "<HTML></HTML>" = true
  /\ toLowerCase "Please Solve The CAPTCHA" = toLowerCase "please solve the captcha"
  /\ isPageBlocked (Some {| response_status := 200; response_url := "https://x/" |})
                   {| page_title := Return "Please Solve The CAPTCHA";
                      page_content := Return "<html></html>" |}
     = isPageBlocked (Some {| response_status := 200; response_url := "https://x/" |})
                     {| page_title := Return "please solve the captcha";
                        page_content := Return "<HTML></HTML>" |}.
Proof.
  split; [ reflexivity | split; [ reflexivity | split; [ reflexivity | ] ] ].
  apply (detector_ignores_case _ "Please Solve The CAPTCHA" "please solve the captcha"
                               "<html></html>" "<HTML></HTML>"); reflexivity.
Defined.

Lemma page_passes_welcome :
  let response := Some {| response_status := 200; response_url := "https://x/" |} in
  let texts := {| page_title := Return "Welcome";
                  page_content := Return "<html><body>Welcome</body></html>" |} in
  ascii_only "Welcome" = true
  /\ ascii_only "<html><body>Welcome</body></html>" = true
  /\ isPageBlocked response texts = false
  /\ exists r title content,
       response = Some r
       /\ page_title texts = Return title
       /\ page_content texts = Return content
       /\ includes (toLowerCase content) "<html" = true.
Proof.
  cbv zeta. split; [ reflexivity | split; [ reflexivity | split; [ reflexivity | ] ] ].
  assert (Hpass : isPageBlocked
                    (Some {| response_status := 200; response_url := "https://x/" |})
                    {| page_title := Return "Welcome";
                       page_content := Return "<html><body>Welcome</body></html>" |}
                  = false) by reflexivity.
  apply (page_passes_exactly_when
           (Some {| response_status := 200; response_url := "https://x/" |})
           {| page_title := Return "Welcome";
              page_content := Return "<html><body>Welcome</body></html>" |}) in Hpass.
  - destruct Hpass as (r & title & content & Hr & _ & Ht & Hc & _ & _).
    exists r, title, content. repeat split; try assumption.
    cbn [page_content] in Hc. inversion Hc. reflexivity.
  - cbn [page_title]. intros title Ht. inversion Ht. reflexivity.
  - cbn [page_content]. intros content Hc. inversion Hc. reflexivity.
Defined.

(** ** lib/browse-optimized.mjs: the request filter, in full *)

(** X16: a request is let through in one case only: no element of [blockUrls]
    occurs in its url, it is neither a font nor an image given as a data
    URI, and it is a document, or the allow list is empty, or its type is
    in the allow list. *)
Theorem request_passes_exactly_when
    (request : Request) (allowTypes blockUrls : list string) :
  Filter.block (shouldBlockRequest request allowTypes blockUrls) = false
  <-> (forall blockedUrl, In blockedUrl blockUrls ->
         includes (request_url request) blockedUrl = false)
      /\ ~ (request_resourceType request = "image"
            /\ startsWith (request_url request) "data:image/" = true)
      /\ request_resourceType request <> "font"
      /\ (request_resourceType request = "document"
          \/ allowTypes = []
          \/ In (request_resourceType request) allowTypes).
Proof.
  unfold shouldBlockRequest. cbv zeta.
  set (ty := request_resourceType request). set (u := request_url request).
  assert (Hlisted : existsb (fun blockedUrl => includes u blockedUrl) blockUrls = false
                    <-> forall blockedUrl, In blockedUrl blockUrls ->
                                           includes u blockedUrl = false)
    by apply existsb_none.
  assert (Hmember : existsb (String.eqb ty) allowTypes = true <-> In ty allowTypes).
  { rewrite existsb_exists. split.
    - intros (x & Hx & Heq). apply String.eqb_eq in Heq. now subst.
    - intros Hin. exists ty. split; [ exact Hin | apply String.eqb_refl ]. }
  assert (Hempty : (0 <? length allowTypes)%nat = false <-> allowTypes = []).
  { destruct allowTypes; cbn; split; congruence. }
  destruct (existsb (fun blockedUrl => includes u blockedUrl) blockUrls);
    destruct (String.eqb_spec ty "image");
    destruct (startsWith u "data:image/");
    destruct (String.eqb_spec ty "font");
    destruct (String.eqb_spec ty "document");
    destruct (0 <? length allowTypes)%nat;
    destruct (existsb (String.eqb ty) allowTypes);
    cbn [andb negb Filter.block];
    intuition (try congruence).
Qed.

(** X17: a document whose url holds no element of [blockUrls] is let through
    with reason [document_allowed] whatever the allow list holds, even one
    without [document]. *)
Theorem document_passes_any_allow_list
    (method url : string) (headers : list (string * string))
    (allowTypes blockUrls : list string) :
  existsb (fun blockedUrl => includes url blockedUrl) blockUrls = false ->
  shouldBlockRequest {| request_method := method; request_resourceType := "document";
                        request_url := url; request_headers := headers |}
                     allowTypes blockUrls
  = {| Filter.block := false; Filter.reason := "document_allowed" |}.
Proof.
  intros Hclear. unfold shouldBlockRequest. cbn [request_url request_resourceType].
  rewrite Hclear. reflexivity.
Qed.

Lemma document_passes_script_only_list :
  existsb (fun blockedUrl => includes "https://x/" blockedUrl) [ "ads." ] = false
  /\ shouldBlockRequest (request_for "document" "https://x/") [ "script" ] [ "ads." ]
     = {| Filter.block := false; Filter.reason := "document_allowed" |}.
Proof.
  split; [ reflexivity | ].
  apply (document_passes_any_allow_list "GET" "https://x/" [] [ "script" ] [ "ads." ]).
  reflexivity.
Defined.

(** X18: an empty string among [blockUrls] blocks every request, documents
    included: every url contains the empty string. *)
Theorem empty_block_url_blocks_all
    (request : Request) (allowTypes blockUrls : list string) :
  In "" blockUrls ->
  shouldBlockRequest request allowTypes blockUrls
  = {| Filter.block := true; Filter.reason := "blocked_url" |}.
Proof.
  intros Hin. unfold shouldBlockRequest. cbv zeta.
  assert (existsb (fun blockedUrl => includes (request_url request) blockedUrl) blockUrls
          = true) as ->; [ | reflexivity ].
  apply existsb_exists. exists "". split; [ exact Hin | apply includes_empty ].
Qed.

Lemma empty_block_url_blocks_document :
  In "" [ "ads."; "" ]
  /\ shouldBlockRequest (request_for "document" "https://x/") [] [ "ads."; "" ]
     = {| Filter.block := true; Filter.reason := "blocked_url" |}.
Proof.
  assert (Hin : In "" [ "ads."; "" ]) by (right; now left).
  split; [ exact Hin | ].
  exact (empty_block_url_blocks_all (request_for "document" "https://x/") [] _ Hin).
Defined.

(** X19: a longer block list never lets through what a shorter one blocks. *)
Theorem more_block_urls_block_more
    (request : Request) (allowTypes blockUrls more : list string) :
  Filter.block (shouldBlockRequest request allowTypes blockUrls) = true ->
  Filter.block (shouldBlockRequest request allowTypes (blockUrls ++ more)) = true.
Proof.
  unfold shouldBlockRequest. cbv zeta. rewrite existsb_app.
  destruct (existsb _ blockUrls); [ reflexivity | ]. cbn [orb].
  destruct (existsb _ more); [ reflexivity | ]. auto.
Qed.

Lemma more_block_urls_block_font :
  Filter.block (shouldBlockRequest (request_for "font" "https://x/a.woff") [] []) = true
  /\ Filter.block (shouldBlockRequest (request_for "font" "https://x/a.woff") []
                                      ([] ++ [ "cdn." ])) = true.
Proof.
  split; [ reflexivity | ].
  apply (more_block_urls_block_more (request_for "font" "https://x/a.woff") [] [] [ "cdn." ]).
  reflexivity.
Defined.

(** ** lib/browse-optimized.mjs: which failures call for the proxy *)

(** The second test of [getErrorReason]'s first rule is covered by the
    first: a message with [navigation timeout] has [timeout]. *)
Lemma navigation_timeout_is_timeout (message : string) :
  includes message "navigation timeout" = true -> includes message "timeout" = true.
Proof. intros H. apply (includes_trans _ _ _ H). reflexivity. Qed.

(** X20: an error caught in an attempt makes a result that the hybrid mode
    retries in these cases only: its message, in lower case, holds
    [timeout], [net::err_name_not_resolved] or
    [net::err_connection_refused], or one of the five phrases. So a
    certificate failure or an unknown failure is not retried, and the
    detector's own error is, by the word [blocked] in its message. *)
Theorem caught_error_retried_exactly_when
    (att : Attempt) (url : string) (proxyConfig : option ProxyConfig) (startTime : Z)
    (error : Error) :
  let message := toLowerCase (Js.message error) in
  shouldRetryWithProxy (caught att url proxyConfig startTime error) = true
  <-> includes message "timeout" = true
      \/ includes message "net::err_name_not_resolved" = true
      \/ includes message "net::err_connection_refused" = true
      \/ exists phrase, In phrase retryMessages /\ includes message phrase = true.
Proof.
  cbv zeta. unfold caught, shouldRetryWithProxy. cbn [reason message]. cbv zeta.
  assert (Hphrase : existsb (fun retryMessage =>
                               includes (toLowerCase (errorMessage error)) retryMessage)
                            retryMessages = true
                    <-> exists phrase, In phrase retryMessages
                                       /\ includes (toLowerCase (Js.message error)) phrase = true).
  { unfold errorMessage. destruct (Js.message error) as [|c m] eqn:Hm.
    - cbn [truthy_string]. split; [ vm_compute; discriminate | ].
      intros (phrase & Hin & Hhit).
      cbn in Hin. decompose [or] Hin; subst; solve [ discriminate Hhit | contradiction ].
    - cbn [truthy_string]. rewrite existsb_exists. reflexivity. }
  unfold getErrorReason. cbv zeta.
  destruct (includes (toLowerCase (Js.message error)) "timeout") eqn:Htimeout.
  { cbn [orb]. split; [ auto | reflexivity ]. }
  destruct (includes (toLowerCase (Js.message error)) "navigation timeout") eqn:Hnav.
  { apply navigation_timeout_is_timeout in Hnav. congruence. }
  cbn [orb].
  destruct (includes (toLowerCase (Js.message error)) "net::err_name_not_resolved")
    eqn:Hdns.
  { split; [ auto | reflexivity ]. }
  destruct (includes (toLowerCase (Js.message error)) "net::err_connection_refused")
    eqn:Hrefused.
  { split; [ auto | reflexivity ]. }
  assert (Hother : forall r, In r [ "ssl_error"; "invalid_url"; "unknown_error" ] ->
                             existsb (String.eqb r) retryReasons = false).
  { intros r Hr. cbn in Hr. decompose [or] Hr; subst; solve [ reflexivity | contradiction ]. }
  destruct (includes _ "net::err_ssl_version_or_cipher_mismatch");
    [ | destruct (includes _ "invalid url") ].
  all: rewrite Hother by (cbn; tauto); rewrite Hphrase.
  all: split; [ auto | intros [H | [H | [H | H]]]; solve [ discriminate H | exact H ] ].
Qed.

Example retried_and_not_retried :
  shouldRetryWithProxy
    (caught (attempt_timing_out 0) "https://x/" None 0
            {| Js.message := "Page appears to be blocked" |}) = true
  /\ shouldRetryWithProxy
       (caught (attempt_timing_out 0) "https://x/" None 0
               {| Js.message := "net::ERR_SSL_VERSION_OR_CIPHER_MISMATCH at https://x/" |})
     = false
  /\ shouldRetryWithProxy
       (caught (attempt_timing_out 0) "https://x/" None 0 {| Js.message := "" |}) = false.
Proof. repeat split. Qed.

(** ** lib/browse-optimized.mjs: what an attempt opens and closes *)

(** Once the page is open, the [try] block leaves the pool and the count
    of launches alone, and logs the navigation if it gets that far. *)
Lemma on_page_effects (att : Attempt) (url : string) (params : Params)
                      (proxyConfig : option ProxyConfig) (startTime : Z)
                      (browser : Browser) (w : World) :
  let w' := snd (on_page att url params proxyConfig startTime browser w) in
  pool w' = pool w /\ launched w' = launched w
  /\ (log w' = log w \/ log w' = (log w ++ [ Goto browser url ])%list).
Proof.
  unfold on_page, when, mbind, M_bind, mret, M_ret, call, lift, throw.
  repeat match goal with
         | |- context [ match ?x with _ => _ end ] =>
             lazymatch x with
             | context [ match _ with _ => _ end ] => fail
             | _ => destruct x
             end
         end; cbn; auto.
Qed.

(** An attempt, from the browser it got on: the page it opens is closed
    whatever happens on it, before a browser launched for a proxy is
    closed; nothing else is closed, and the pool is left as [getBrowser]
    left it. *)
Lemma attempt_from_browser
    (att : Attempt) (url : string) (params : Params)
    (proxyConfig : option ProxyConfig) (startTime : Z) (w w1 : World) (b : Browser) :
  getBrowser (engine att) proxyConfig w = (Return b, w1) ->
  exists result w' nav,
    performRequest_with att url params proxyConfig startTime w = (Return result, w')
    /\ pool w' = pool w1 /\ launched w' = launched w1
    /\ (nav = [] \/ nav = [ Goto b url ])
    /\ log w'
       = (log w1
          ++ NewPage b
             :: match newPage att with
                | Return _ => nav ++ [ PageClose b ]
                | Throw _ => []
                end
          ++ match proxyConfig with
             | Some _ => [ BrowserClose b ]
             | None => []
             end)%list.
Proof.
  intros Hget. unfold performRequest_with. rewrite Hget.
  unfold mbind, M_bind, mret, M_ret, call, lift. cbn [pool launched attempts log].
  destruct (newPage att) as [[]|error].
  - match goal with
    | |- context [ on_page ?a ?u ?p ?c ?s ?b0 ?w0 ] =>
        pose proof (on_page_effects a u p c s b0 w0) as Hpage;
        destruct (on_page a u p c s b0 w0) as [tried w2]
    end.
    cbv zeta in Hpage. cbn [snd pool launched log] in Hpage.
    destruct Hpage as (Hpool & Hlaunched & Hlog).
    unfold cleanup, mbind, M_bind, mret, M_ret, call.
    destruct tried as [result|error]; destruct proxyConfig as [c|];
      (destruct Hlog as [Hlog | Hlog];
       [ eexists; eexists; exists [] | eexists; eexists; exists [ Goto b url ] ]);
      (split; [ reflexivity | ]);
      cbn [pool launched log]; rewrite Hlog;
      repeat split; auto; now rewrite <- ?app_assoc.
  - unfold cleanup, mbind, M_bind, mret, M_ret, call.
    destruct proxyConfig as [c|]; eexists; eexists; exists [];
      (split; [ reflexivity | ]); cbn [pool launched log];
      repeat split; auto; now rewrite <- ?app_assoc.
Qed.

(** X21: every page that an attempt opens is closed, on every path: when
    [newPage] returns, the calls logged after it are the navigation, if
    the attempt gets that far, then the closing of the page, then, for an
    attempt with a proxy, the closing of the browser; and an attempt
    without proxy closes no browser after it has got one from the pool. *)
Theorem opened_page_is_closed
    (att : Attempt) (url : string) (params : Params)
    (proxyConfig : option ProxyConfig) (startTime : Z) (w w1 : World) (b : Browser) :
  getBrowser (engine att) proxyConfig w = (Return b, w1) ->
  newPage att = Return tt ->
  exists result w' nav,
    performRequest_with att url params proxyConfig startTime w = (Return result, w')
    /\ (nav = [] \/ nav = [ Goto b url ])
    /\ log w'
       = (log w1 ++ [ NewPage b ] ++ nav ++ [ PageClose b ]
          ++ match proxyConfig with
             | Some _ => [ BrowserClose b ]
             | None => []
             end)%list
    /\ pool w' = pool w1.
Proof.
  intros Hget Hpage.
  destruct (attempt_from_browser att url params proxyConfig startTime w w1 b Hget)
    as (result & w' & nav & Hrun & Hpool & _ & Hnav & Hlog).
  exists result, w', nav. rewrite Hpage in Hlog.
  split; [ exact Hrun | split; [ exact Hnav | split; [ | exact Hpool ] ] ].
  rewrite Hlog. cbn. now rewrite <- app_assoc.
Qed.

Lemma opened_page_is_closed_after_timeout :
  let w := boot browserPool in
  getBrowser healthy None w = (Return (plain 0), snd (getBrowser healthy None w))
  /\ newPage (attempt_timing_out 6000) = Return tt
  /\ exists result w' nav,
       performRequest_with (attempt_timing_out 6000) "https://x/"
                           (params_for "https://x/" None) None 1000 w
       = (Return result, w')
       /\ (nav = [] \/ nav = [ Goto (plain 0) "https://x/" ])
       /\ log w'
          = (log (snd (getBrowser healthy None w))
             ++ [ NewPage (plain 0) ] ++ nav ++ [ PageClose (plain 0) ] ++ [])%list
       /\ pool w' = pool (snd (getBrowser healthy None w)).
Proof.
  cbv zeta. split; [ reflexivity | split; [ reflexivity | ] ].
  apply (opened_page_is_closed (attempt_timing_out 6000) "https://x/"
           (params_for "https://x/" None) None 1000 (boot browserPool)
           (snd (getBrowser healthy None (boot browserPool))) (plain 0));
    reflexivity.
Defined.

(** X22: an attempt with a proxy never touches the pool. When its launch
    succeeds, the browser it launches carries the proxy as its last
    argument and is closed by the end of the attempt, whatever happens in
    between; when the launch fails, nothing runs that would need
    closing. *)
Theorem proxy_attempt_closes_its_browser
    (att : Attempt) (url : string) (params : Params) (c : ProxyConfig)
    (startTime : Z) (w : World) :
  let o := createProxyLaunchOptions (Some c) in
  let b := {| bid := launched w; options := o |} in
  exists result w',
    performRequest_with att url params (Some c) startTime w = (Return result, w')
    /\ pool w' = pool w
    /\ last (args o) = Some ("--proxy-server=" ++ host c ++ ":" ++ show_number (port c))
    /\ (launch (engine att) o = Return tt ->
        exists between,
          log w' = (log w ++ [ Launch o; NewPage b ] ++ between ++ [ BrowserClose b ])%list
          /\ Forall (fun made => made = Goto b url \/ made = PageClose b) between)
    /\ (forall error, launch (engine att) o = Throw error ->
          log w' = (log w ++ [ Launch o ])%list
          /\ result = caught att url (Some c) startTime error).
Proof.
  cbv zeta.
  assert (Hlast : last (args (createProxyLaunchOptions (Some c)))
                  = Some ("--proxy-server=" ++ host c ++ ":" ++ show_number (port c))).
  { reflexivity. }
  destruct (launch (engine att) (createProxyLaunchOptions (Some c))) as [[]|error] eqn:Hlaunch.
  - assert (Hget : getBrowser (engine att) (Some c) w
                   = (Return {| bid := launched w; options := createProxyLaunchOptions (Some c) |},
                      {| pool := pool w; launched := S (launched w); attempts := attempts w;
                         log := log w ++ [ Launch (createProxyLaunchOptions (Some c)) ] |})).
    { rewrite getBrowser_ephemeral, createBrowser_run. cbv zeta. now rewrite Hlaunch. }
    destruct (attempt_from_browser att url params (Some c) startTime w _ _ Hget)
      as (result & w' & nav & Hrun & Hpool & _ & Hnav & Hlog).
    exists result, w'. split; [ exact Hrun | ]. split; [ exact Hpool | ].
    split; [ exact Hlast | ]. split; [ | discriminate ].
    intros _. cbn [log] in Hlog.
    set (b := {| bid := launched w; options := createProxyLaunchOptions (Some c) |}) in *.
    exists (match newPage att with Return _ => nav ++ [ PageClose b ] | Throw _ => [] end)%list.
    split.
    + rewrite Hlog. rewrite <- !app_assoc. reflexivity.
    + destruct (newPage att); [ | constructor ].
      destruct Hnav as [-> | ->]; cbn [app];
        repeat match goal with
               | |- Forall _ (_ :: _) => constructor; [ (now left) || (now right) | ]
               | |- Forall _ [] => constructor
               end.
  - unfold performRequest_with.
    rewrite getBrowser_ephemeral, createBrowser_run. cbv zeta. rewrite Hlaunch.
    unfold cleanup, mbind, M_bind, mret, M_ret.
    eexists. eexists. split; [ reflexivity | ]. cbn [pool log].
    split; [ reflexivity | ]. split; [ exact Hlast | ].
    split; [ discriminate | ].
    intros error' Heq. inversion Heq; subst error'. auto.
Qed.

(** ** lib/browse-optimized.mjs: what an ok result tells *)

(** An ok result is made at the end of the [try] block: the navigation
    returned, the detector (run for a hybrid configuration only) passed
    the page, the screenshot was taken if asked for, and title, content
    and metrics were collected. *)
Lemma on_page_ok (att : Attempt) (url : string) (params : Params)
                 (proxyConfig : option ProxyConfig) (startTime : Z)
                 (browser : Browser) (w w2 : World) (d : OkData) :
  on_page att url params proxyConfig startTime browser w = (Return (Ok d), w2) ->
  exists response shot collectedMetrics collectedTitle collectedHtml,
    goto att = Return response
    /\ collected att = Return (collectedMetrics, collectedTitle, collectedHtml)
    /\ (forall c, proxyConfig = Some c -> type c = "hybrid" ->
                  isPageBlocked response (page att) = false)
    /\ ((screenshot_enabled (params_screenshot params) = true
         /\ take_screenshot att = Return shot)
        \/ (screenshot_enabled (params_screenshot params) = false /\ shot = ""))
    /\ d = {| ok_exec := seconds (now att) startTime;
              network := networkRequests att (params_network params);
              metrics := collectedMetrics;
              title := collectedTitle;
              html := collectedHtml;
              screenshot := shot;
              ok_url := url;
              ok_timestamp := now_iso att;
              ok_proxy_used := proxyUsed proxyConfig |}.
Proof.
  unfold on_page, when, mbind, M_bind, mret, M_ret, call, lift, throw.
  repeat match goal with
         | |- context [ match ?x with _ => _ end ] =>
             lazymatch x with
             | context [ match _ with _ => _ end ] => fail
             | _ => destruct x eqn:?
             end
         end;
    intros Hrun; try discriminate Hrun; inversion Hrun; subst;
    do 5 eexists;
    (split; [ reflexivity | split; [ reflexivity | split; [ | split; [ | reflexivity ] ] ] ]);
    try (intros c' Hc' Htype; inversion Hc'; subst c';
         match goal with
         | H : (_ && _)%bool = false |- _ =>
             rewrite Htype in H; cbn in H; exact H
         end);
    try (intros c' Hc'; discriminate Hc');
    auto.
Qed.

(** The ok result of an attempt comes from the [try] block on a page that
    was opened on the browser that [getBrowser] returned. *)
Lemma attempt_ok (att : Attempt) (url : string) (params : Params)
                 (proxyConfig : option ProxyConfig) (startTime : Z)
                 (w w' : World) (d : OkData) :
  performRequest_with att url params proxyConfig startTime w = (Return (Ok d), w') ->
  exists browser w1 w2,
    getBrowser (engine att) proxyConfig w = (Return browser, w1)
    /\ newPage att = Return tt
    /\ on_page att url params proxyConfig startTime browser
               {| pool := pool w1; launched := launched w1; attempts := attempts w1;
                  log := log w1 ++ [ NewPage browser ] |}
       = (Return (Ok d), w2).
Proof.
  unfold performRequest_with.
  destruct (getBrowser (engine att) proxyConfig w) as [[browser|error] w1].
  - unfold mbind at 1, M_bind at 1, call at 1, lift at 1.
    cbn [pool launched attempts log].
    destruct (newPage att) as [[]|error].
    + cbn [mbind M_bind].
      match goal with
      | |- context [ on_page ?a ?u ?p ?c ?s ?b0 ?w0 ] =>
          destruct (on_page a u p c s b0 w0) as [[result|error] w2] eqn:Hpage
      end.
      * unfold cleanup, mbind, M_bind, mret, M_ret, call.
        destruct proxyConfig; cbn; intros Hrun; inversion Hrun; subst;
          exists browser, w1, w2; auto.
      * unfold cleanup, mbind, M_bind, mret, M_ret, call, caught.
        destruct proxyConfig; cbn; intros Hrun; inversion Hrun.
    + unfold cleanup, mbind, M_bind, mret, M_ret, call, caught.
      destruct proxyConfig; cbn; intros Hrun; inversion Hrun.
  - unfold cleanup, mbind, M_bind, mret, M_ret, caught. cbn.
    intros Hrun; inversion Hrun.
Qed.

(** X23: with interception off the request filter has no part in an attempt:
    the block list, the allow list, the requests that the page makes and
    the answer to [setRequestInterception] do not change what the attempt
    does, and an ok result lists no network event. *)
Theorem filter_unused_without_interception
    (att : Attempt) (url : string) (params : Params)
    (proxyConfig : option ProxyConfig) (startTime : Z) (w : World)
    (made : list Request) (answer : outcome unit) (blockUrls allowTypes : list string) :
  network_enabled (params_network params) = false ->
  performRequest_with (with_requests att made answer) url
                      (with_lists params blockUrls allowTypes) proxyConfig startTime w
  = performRequest_with att url params proxyConfig startTime w
  /\ forall d w', performRequest_with att url params proxyConfig startTime w
                  = (Return (Ok d), w') ->
                  network d = [].
Proof.
  intros Hoff. split.
  - destruct params as [u shot [enabled blocked allowed until] view limit agent proxy].
    cbn in Hoff. subst enabled. reflexivity.
  - intros d w' Hrun.
    destruct (attempt_ok _ _ _ _ _ _ _ _ Hrun) as (browser & w1 & w2 & _ & _ & Hpage).
    destruct (on_page_ok _ _ _ _ _ _ _ _ _ Hpage) as (? & ? & ? & ? & ? & _ & _ & _ & _ & ->).
    cbn [network]. unfold networkRequests. now rewrite Hoff.
Qed.

Lemma filter_unused_on_plain_fetch :
  network_enabled (params_network (params_for "https://x/" None)) = false
  /\ performRequest_with
       (with_requests (forbidden_then_fine 1) [ request_for "font" "https://x/a.woff" ]
                      (Throw {| Js.message := "interception failed" |}))
       "https://x/" (with_lists (params_for "https://x/" None) [ "" ] [ "script" ])
       None 1000 (boot browserPool)
     = performRequest_with (forbidden_then_fine 1) "https://x/"
                           (params_for "https://x/" None) None 1000 (boot browserPool).
Proof.
  split; [ reflexivity | ].
  exact (proj1 (filter_unused_without_interception
                  (forbidden_then_fine 1) "https://x/" (params_for "https://x/" None)
                  None 1000 (boot browserPool)
                  [ request_for "font" "https://x/a.woff" ]
                  (Throw {| Js.message := "interception failed" |})
                  [ "" ] [ "script" ] eq_refl)).
Defined.

(** X24: the page is authenticated against the proxy only when the
    configuration has both a user name and a password: without proxy, or
    with one of them missing or empty, the answer that
    [page.authenticate] would give has no effect on the attempt. *)
Theorem authentication_needs_both_credentials
    (att : Attempt) (url : string) (params : Params)
    (proxyConfig : option ProxyConfig) (startTime : Z) (w : World)
    (answer : outcome unit) :
  (forall c, proxyConfig = Some c -> has_credentials c = false) ->
  performRequest_with (with_authenticate att answer) url params proxyConfig startTime w
  = performRequest_with att url params proxyConfig startTime w.
Proof.
  intros Hnone. destruct proxyConfig as [c|]; [ | reflexivity ].
  specialize (Hnone c eq_refl). unfold has_credentials in Hnone.
  unfold performRequest_with. cbn [engine newPage with_authenticate].
  destruct (getBrowser (engine att) (Some c) w) as [[browser|error] w1]; [ | reflexivity ].
  destruct ((call (NewPage browser);; lift (newPage att)) w1) as [[[]|error] w2];
    [ | reflexivity ].
  assert (Hpage : on_page (with_authenticate att answer) url params (Some c) startTime browser w2
                  = on_page att url params (Some c) startTime browser w2).
  { unfold on_page. rewrite Hnone. reflexivity. }
  rewrite Hpage. reflexivity.
Qed.

Lemma authentication_skipped_without_password :
  (forall c, Some proxy_h = Some c -> has_credentials c = false)
  /\ performRequest_with
       (with_authenticate (forbidden_then_fine 1)
                          (Throw {| Js.message := "authentication failed" |}))
       "https://x/" (params_for "https://x/" (Some request_h)) (Some proxy_h) 1000
       (boot browserPool)
     = performRequest_with (forbidden_then_fine 1) "https://x/"
                           (params_for "https://x/" (Some request_h)) (Some proxy_h) 1000
                           (boot browserPool).
Proof.
  assert (Hnone : forall c, Some proxy_h = Some c -> has_credentials c = false).
  { intros c Hc. inversion Hc. reflexivity. }
  split; [ exact Hnone | ].
  exact (authentication_needs_both_credentials
           (forbidden_then_fine 1) "https://x/" (params_for "https://x/" (Some request_h))
           (Some proxy_h) 1000 (boot browserPool)
           (Throw {| Js.message := "authentication failed" |}) Hnone).
Defined.

(** X25: in hybrid mode the attempt through the proxy never returns as ok a
    page that the detector judges blocked: when the navigation returns and
    the detector's verdict is blocked, the attempt's result is an error. *)
Theorem hybrid_proxy_attempt_rejects_blocked_page
    (att : Attempt) (url : string) (params : Params) (c : ProxyConfig)
    (startTime : Z) (w : World) (response : option Response) :
  type c = "hybrid" ->
  goto att = Return response ->
  isPageBlocked response (page att) = true ->
  exists data w',
    performRequest_with att url params (Some c) startTime w = (Return (Err data), w')
    /\ proxy_used data = Some (host_port c).
Proof.
  intros Htype Hgoto Hblocked.
  destruct (performRequest_with_returns att url params (Some c) startTime w)
    as (result & w' & Hrun & _ & Hused & _).
  destruct result as [d|data].
  - exfalso.
    destruct (attempt_ok _ _ _ _ _ _ _ _ Hrun) as (browser & w1 & w2 & _ & _ & Hpage).
    destruct (on_page_ok _ _ _ _ _ _ _ _ _ Hpage)
      as (response' & ? & ? & ? & ? & Hgoto' & _ & Hpassed & _).
    rewrite Hgoto in Hgoto'. inversion Hgoto'; subst response'.
    rewrite (Hpassed c eq_refl Htype) in Hblocked. discriminate.
  - exists data, w'. split; [ exact Hrun | exact Hused ].
Qed.

Lemma hybrid_proxy_attempt_rejects_forbidden :
  type proxy_h = "hybrid"
  /\ isPageBlocked (Some {| response_status := 403; response_url := "https://x/" |})
                   (page (forbidden_then_fine 0)) = true
  /\ exists data w',
       performRequest_with (forbidden_then_fine 0) "https://x/"
                           (params_for "https://x/" (Some request_h)) (Some proxy_h) 1000
                           (boot browserPool)
       = (Return (Err data), w')
       /\ proxy_used data = Some (host_port proxy_h).
Proof.
  split; [ reflexivity | split; [ reflexivity | ] ].
  apply (hybrid_proxy_attempt_rejects_blocked_page
           (forbidden_then_fine 0) "https://x/" (params_for "https://x/" (Some request_h))
           proxy_h 1000 (boot browserPool)
           (Some {| response_status := 403; response_url := "https://x/" |}));
    reflexivity.
Defined.

(** X26: an attempt with a configuration of another type than [hybrid], the
    static one among them, does not run the detector: what the page would
    answer to it has no effect. *)
Theorem other_types_skip_detector
    (att : Attempt) (texts : PageText) (url : string) (params : Params)
    (c : ProxyConfig) (startTime : Z) (w : World) :
  type c <> "hybrid" ->
  performRequest_with (with_page att texts) url params (Some c) startTime w
  = performRequest_with att url params (Some c) startTime w.
Proof.
  intros Htype. apply String.eqb_neq in Htype.
  unfold performRequest_with. cbn [engine newPage with_page].
  destruct (getBrowser (engine att) (Some c) w) as [[browser|error] w1]; [ | reflexivity ].
  destruct ((call (NewPage browser);; lift (newPage att)) w1) as [[[]|error] w2];
    [ | reflexivity ].
  assert (Hpage : on_page (with_page att texts) url params (Some c) startTime browser w2
                  = on_page att url params (Some c) startTime browser w2).
  { unfold on_page. rewrite Htype. reflexivity. }
  rewrite Hpage. reflexivity.
Qed.

Lemma static_attempt_skips_detector :
  let static_h := {| enabled := true; type := "static"; host := "h"; port := Num 8080;
                     username := None; password := None |} in
  type static_h <> "hybrid"
  /\ performRequest_with
       (with_page (forbidden_then_fine 0)
                  {| page_title := Return "Welcome"; page_content := Return "" |})
       "https://x/" (params_for "https://x/" None) (Some static_h) 1000 (boot browserPool)
     = performRequest_with (forbidden_then_fine 0) "https://x/"
                           (params_for "https://x/" None) (Some static_h) 1000
                           (boot browserPool).
Proof.
  cbv zeta. split; [ discriminate | ].
  apply other_types_skip_detector. discriminate.
Defined.

(** ** lib/browse-optimized.mjs: the modes of [browse] *)

(** The resolver throws one of two errors. *)
Lemma resolver_errors (env : ProcessEnv) (requestProxy : RequestProxy) (error : Error) :
  getProxyConfig env requestProxy = Throw error ->
  Js.message error = missing_everywhere \/ Js.message error = host_port_required.
Proof.
  rewrite getProxyConfig_run.
  destruct (rp_enabled requestProxy) as [[|]|];
    try discriminate;
    destruct (request_complete requestProxy) as [[h p]|]; try discriminate;
    destruct (env_complete env) as [[h p]|];
    try destruct (truthy_number (parseInt p));
    try discriminate; intros Heq; inversion Heq; auto.
Qed.

(** X27: whenever the resolver throws, [browse] reports reason [proxy_error]
    with the resolver's message and makes no attempt: of the four reasons
    that [createProxyErrorResponse] can give, [browse] gives this one
    only. *)
Theorem resolver_failure_is_proxy_error
    (URL : string -> outcome unit) (run : Run) (params : Params) (w : World)
    (error : Error) :
  URL (params_url params) = Return tt ->
  getProxyConfig (env run) (default no_fields (params_proxy params)) = Throw error ->
  browse URL run params w
  = (Return (Err {| exec := seconds (failed_at run) (start run);
                    reason := "proxy_error";
                    message := Js.message error;
                    url := params_url params;
                    timestamp := failed_iso run;
                    proxy_used := None |}),
     w).
Proof.
  intros Hurl Hthrow. rewrite browse_run. cbv zeta. rewrite Hurl, Hthrow.
  unfold createProxyErrorResponse.
  destruct (resolver_errors _ _ _ Hthrow) as [-> | ->]; reflexivity.
Qed.

Lemma resolver_failure_with_bad_port :
  let run := run_of (env_with "h" "abc") forbidden_then_fine in
  let params := params_for "https://x/" None in
  URL_by_scheme "https://x/" = Return tt
  /\ getProxyConfig (env_with "h" "abc") no_fields
     = Throw {| Js.message := host_port_required |}
  /\ browse URL_by_scheme run params (boot browserPool)
     = (Return (Err {| exec := seconds 1002 1000;
                       reason := "proxy_error";
                       message := host_port_required;
                       url := "https://x/";
                       timestamp := "2026-01-01T00:00:00.002Z";
                       proxy_used := None |}),
        boot browserPool).
Proof.
  cbv zeta. split; [ reflexivity | split; [ reflexivity | ] ].
  exact (resolver_failure_is_proxy_error URL_by_scheme
           (run_of (env_with "h" "abc") forbidden_then_fine)
           (params_for "https://x/" None) (boot browserPool)
           {| Js.message := host_port_required |} eq_refl eq_refl).
Defined.

(** X28: a configuration whose type is neither [static] nor [hybrid] is not
    used: [browse] makes one attempt, without the proxy. *)
Theorem unknown_type_goes_direct
    (URL : string -> outcome unit) (run : Run) (params : Params) (w : World)
    (c : ProxyConfig) :
  URL (params_url params) = Return tt ->
  getProxyConfig (env run) (default no_fields (params_proxy params)) = Return (Some c) ->
  type c <> "static" -> type c <> "hybrid" ->
  browse URL run params w
  = performRequest (answers run) (params_url params) params None (start run) w.
Proof.
  intros Hurl Hconfig Hstatic Hhybrid.
  apply String.eqb_neq in Hstatic. apply String.eqb_neq in Hhybrid.
  rewrite browse_run. cbv zeta. rewrite Hurl, Hconfig, Hstatic, Hhybrid. reflexivity.
Qed.

Lemma socks_type_goes_direct :
  let requestProxy := {| rp_enabled := Some true; rp_type := Some "socks5";
                         rp_host := Some "h"; rp_port := Some (Num 8080);
                         rp_username := None; rp_password := None |} in
  let run := run_of no_env forbidden_then_fine in
  let params := params_for "https://x/" (Some requestProxy) in
  getProxyConfig no_env requestProxy
  = Return (Some {| enabled := true; type := "socks5"; host := "h"; port := Num 8080;
                    username := None; password := None |})
  /\ browse URL_by_scheme run params (boot browserPool)
     = performRequest forbidden_then_fine "https://x/" params None 1000 (boot browserPool).
Proof.
  cbv zeta. split; [ reflexivity | ].
  apply (unknown_type_goes_direct URL_by_scheme (run_of no_env forbidden_then_fine)
           (params_for "https://x/"
              (Some {| rp_enabled := Some true; rp_type := Some "socks5";
                       rp_host := Some "h"; rp_port := Some (Num 8080);
                       rp_username := None; rp_password := None |}))
           (boot browserPool)
           {| enabled := true; type := "socks5"; host := "h"; port := Num 8080;
              username := None; password := None |});
    [ reflexivity | reflexivity | discriminate | discriminate ].
Defined.

(** X29: [enabled: false] in the request keeps the proxy out whatever the
    environment holds: [browse] makes one attempt without proxy, and its
    result says [proxy_used: 'none']. *)
Theorem disabled_proxy_goes_direct
    (URL : string -> outcome unit) (run : Run) (params : Params) (w : World)
    (requestProxy : RequestProxy) :
  URL (params_url params) = Return tt ->
  params_proxy params = Some requestProxy ->
  rp_enabled requestProxy = Some false ->
  exists result w',
    browse URL run params w = (Return result, w')
    /\ performRequest (answers run) (params_url params) params None (start run) w
       = (Return result, w')
    /\ attempts w' = S (attempts w)
    /\ data_proxy_used result = Some "none".
Proof.
  intros Hurl Hproxy Hoff.
  destruct (performRequest_returns (answers run) (params_url params) params None
                                   (start run) w) as (result & w' & Hrun & Hatt & Hused & _).
  exists result, w'. repeat split; auto.
  rewrite browse_run. cbv zeta. rewrite Hurl, Hproxy.
  change (default no_fields (Some requestProxy)) with requestProxy.
  now rewrite (getProxyConfig_disabled _ _ Hoff).
Qed.

Lemma disabled_proxy_goes_direct_despite_env :
  let requestProxy := {| rp_enabled := Some false; rp_type := Some "static";
                         rp_host := Some "h"; rp_port := Some (Num 8080);
                         rp_username := None; rp_password := None |} in
  let run := run_of (env_with "p.example" "3128") forbidden_then_fine in
  let params := params_for "https://x/" (Some requestProxy) in
  URL_by_scheme "https://x/" = Return tt
  /\ exists result w',
       browse URL_by_scheme run params (boot browserPool) = (Return result, w')
       /\ performRequest forbidden_then_fine "https://x/" params None 1000 (boot browserPool)
          = (Return result, w')
       /\ attempts w' = 1%nat
       /\ data_proxy_used result = Some "none".
Proof.
  cbv zeta. split; [ reflexivity | ].
  apply (disabled_proxy_goes_direct URL_by_scheme
           (run_of (env_with "p.example" "3128") forbidden_then_fine)
           (params_for "https://x/"
              (Some {| rp_enabled := Some false; rp_type := Some "static";
                       rp_host := Some "h"; rp_port := Some (Num 8080);
                       rp_username := None; rp_password := None |}))
           (boot browserPool)
           {| rp_enabled := Some false; rp_type := Some "static";
              rp_host := Some "h"; rp_port := Some (Num 8080);
              rp_username := None; rp_password := None |});
    reflexivity.
Defined.

(** An attempt with a proxy leaves the pool as it was. *)
Lemma proxy_attempt_keeps_pool
    (att : Attempt) (url : string) (params : Params) (c : ProxyConfig)
    (startTime : Z) (w : World) :
  pool (snd (performRequest_with att url params (Some c) startTime w)) = pool w.
Proof.
  destruct (getBrowser (engine att) (Some c) w) as [[b|error] w1] eqn:Hget.
  - destruct (attempt_from_browser att url params (Some c) startTime w w1 b Hget)
      as (result & w' & nav & -> & Hpool & _).
    cbn [snd]. rewrite Hpool.
    rewrite getBrowser_ephemeral, createBrowser_run in Hget. cbv zeta in Hget.
    destruct (launch (engine att) _); inversion Hget; reflexivity.
  - unfold performRequest_with. rewrite Hget.
    unfold cleanup, mbind, M_bind, mret, M_ret. cbn [snd].
    rewrite getBrowser_ephemeral, createBrowser_run in Hget. cbv zeta in Hget.
    destruct (launch (engine att) _); inversion Hget; reflexivity.
Qed.

(** X30: static mode: [browse] makes one attempt, through the proxy; whatever
    its outcome there is no second attempt, the result names the proxy,
    and the pool is left as it was. *)
Theorem static_mode_never_falls_back
    (URL : string -> outcome unit) (run : Run) (params : Params) (w : World)
    (c : ProxyConfig) :
  URL (params_url params) = Return tt ->
  getProxyConfig (env run) (default no_fields (params_proxy params)) = Return (Some c) ->
  type c = "static" ->
  exists result w',
    browse URL run params w = (Return result, w')
    /\ attempts w' = S (attempts w)
    /\ pool w' = pool w
    /\ data_proxy_used result = Some (host_port c).
Proof.
  intros Hurl Hconfig Htype.
  rewrite (static_makes_one_attempt URL run params w c Hurl Hconfig Htype).
  destruct (performRequest_returns (answers run) (params_url params) params (Some c)
                                   (start run) w) as (result & w' & Hrun & Hatt & Hused & _).
  exists result, w'. repeat split; auto.
  unfold performRequest, begin_attempt, mbind, M_bind in Hrun.
  match type of Hrun with
  | performRequest_with ?a ?u ?p (Some c) ?s ?w0 = _ =>
      pose proof (proxy_attempt_keeps_pool a u p c s w0) as Hpool
  end.
  rewrite Hrun in Hpool. exact Hpool.
Qed.

Lemma static_mode_on_timeout :
  let requestProxy := {| rp_enabled := Some true; rp_type := Some "static";
                         rp_host := Some "h"; rp_port := Some (Num 8080);
                         rp_username := None; rp_password := None |} in
  let c := {| enabled := true; type := "static"; host := "h"; port := Num 8080;
              username := None; password := None |} in
  let run := run_of no_env always_timing_out in
  let params := params_for "https://x/" (Some requestProxy) in
  getProxyConfig no_env requestProxy = Return (Some c)
  /\ exists result w',
       browse URL_by_scheme run params (boot browserPool) = (Return result, w')
       /\ attempts w' = 1%nat
       /\ pool w' = pool (boot browserPool)
       /\ data_proxy_used result = Some (host_port c).
Proof.
  cbv zeta. split; [ reflexivity | ].
  apply (static_mode_never_falls_back URL_by_scheme (run_of no_env always_timing_out)
           (params_for "https://x/"
              (Some {| rp_enabled := Some true; rp_type := Some "static";
                       rp_host := Some "h"; rp_port := Some (Num 8080);
                       rp_username := None; rp_password := None |}))
           (boot browserPool)
           {| enabled := true; type := "static"; host := "h"; port := Num 8080;
              username := None; password := None |});
    reflexivity.
Defined.
